(** * Skills inventory: feature building, scaling, cluster-count search, summaries

    A shallow embedding of the three programs of the repository:

    - [EtlJob]          lambda/etl_job.py            (the Glue cleaning job)
    - [TrainClustering] sagemaker/train_clustering.py (feature building, k-search)
    - [Handler]         lambda/handler.py            (scaling, k-search, summaries)
    - [Lambda]          lambda/handler.py            (the handler and its services)

    Numbers.  Integer columns are [Z].  Float columns are modelled by exact
    rationals [Q]: a mean is the quotient of a sum by a count, a comparison
    [score > best_score] is [Qlt].  Rounding is not modelled.

    External libraries.  pandas' [groupby(...).agg(...)] is modelled by
    [groupby] below (one group per non-null key, groups in key order, rows in
    input order, [count]/[mean] skipping missing cells).  scikit-learn's
    [KMeans.fit_predict] and [silhouette_score] are not part of the repository:
    they are fields of the record [sklearn.Lib], and every program that calls
    them takes that record as a parameter.  [StandardScaler] is modelled on
    rationals, with the library's square root as a parameter. *)

From Stdlib Require Import String Ascii.
From Stdlib Require Import List ZArith QArith Bool Lia Permutation.
From Stdlib Require Import OrdersEx Sorted.
Import ListNotations.

Set Implicit Arguments.

(* ================================================================== *)
(** * Python values: exceptions and results *)
(* ================================================================== *)

Module Py.

(** The exception classes that reach the programs. *)
Inductive exn : Type :=
| ValueError
| KeyError
| Exception_ (msg : string).

(** The outcome of a call: a value, or a raised exception. *)
Inductive result (A : Type) : Type :=
| Ok (a : A)
| Raise (e : exn).

Arguments Ok {A} a.
Arguments Raise {A} e.

(** [range(a, b)] *)
Definition range (a b : nat) : list nat := seq a (b - a).

(** [len(set(labels))] *)
Definition len_set (l : list Z) : nat := length (nodup Z.eq_dec l).

(** [sum(l)] on integers and on floats *)
Definition sumZ (l : list Z) : Z := fold_right Z.add 0%Z l.
Definition sumQ (l : list Q) : Q := fold_right Qplus 0%Q l.

(** [a < b] on floats, as a boolean *)
Definition Qltb (a b : Q) : bool := negb (Qle_bool b a).

(** The mean of a non-empty float column, [sum / count]. *)
Definition meanQ (l : list Q) : Q := (sumQ l / inject_Z (Z.of_nat (length l)))%Q.

(** The mean of an integer column: NaN ([None]) when it has no value. *)
Definition mean_int (l : list Z) : option Q :=
  match l with
  | [] => None
  | _ => Some (inject_Z (sumZ l) / inject_Z (Z.of_nat (length l)))%Q
  end.

End Py.

Import Py.

(* ================================================================== *)
(** * Ordered keys *)
(* ================================================================== *)

(** pandas sorts the groups of a [groupby] by key; the keys of the programs
    are strings (skills) and integers (cluster ids). *)
Class KeyOrder (K : Type) : Type := {
  kcmp : K -> K -> comparison;
  kcmp_eq : forall x y, kcmp x y = Eq -> x = y;
  kcmp_refl : forall x, kcmp x x = Eq;
  kcmp_antisym : forall x y, kcmp y x = CompOpp (kcmp x y);
  kcmp_trans : forall x y z, kcmp x y = Lt -> kcmp y z = Lt -> kcmp x z = Lt
}.

Definition keqb {K} `{KeyOrder K} (x y : K) : bool :=
  match kcmp x y with Eq => true | _ => false end.

Definition klt {K} `{KeyOrder K} (x y : K) : Prop := kcmp x y = Lt.

Lemma string_compare_refl (s : string) : String_as_OT.compare s s = Eq.
Proof.
  destruct (String_as_OT.compare_spec s s) as [_ | H | H]; auto;
    exfalso; revert H; apply (StrictOrder_Irreflexive (R := String_as_OT.lt)).
Qed.

Lemma string_compare_antisym (x y : string) :
  String_as_OT.compare y x = CompOpp (String_as_OT.compare x y).
Proof.
  destruct (String_as_OT.compare_spec x y) as [E | L | L]; simpl.
  - red in E. subst. apply string_compare_refl.
  - destruct (String_as_OT.compare_spec y x) as [E | L' | L']; auto.
    + red in E. subst. exfalso. revert L. apply (StrictOrder_Irreflexive (R := String_as_OT.lt)).
    + exfalso. apply (StrictOrder_Irreflexive (R := String_as_OT.lt) x).
      eapply (StrictOrder_Transitive (R := String_as_OT.lt)); eauto.
  - exact L.
Qed.

Lemma string_compare_eq (x y : string) : String_as_OT.compare x y = Eq -> x = y.
Proof.
  intros H. destruct (String_as_OT.compare_spec x y) as [E | L | L]; try discriminate.
  exact E.
Qed.

Lemma string_compare_trans (x y z : string) :
  String_as_OT.compare x y = Lt -> String_as_OT.compare y z = Lt ->
  String_as_OT.compare x z = Lt.
Proof.
  intros H1 H2.
  exact (StrictOrder_Transitive (R := String_as_OT.lt) x y z H1 H2).
Qed.

#[export] Instance string_order : KeyOrder string := {|
  kcmp := String_as_OT.compare;
  kcmp_eq := string_compare_eq;
  kcmp_refl := string_compare_refl;
  kcmp_antisym := string_compare_antisym;
  kcmp_trans := string_compare_trans
|}.

Lemma Z_compare_trans (x y z : Z) :
  (x ?= y)%Z = Lt -> (y ?= z)%Z = Lt -> (x ?= z)%Z = Lt.
Proof. rewrite !Z.compare_lt_iff. lia. Qed.

#[export] Instance Z_order : KeyOrder Z := {|
  kcmp := Z.compare;
  kcmp_eq := Z.compare_eq;
  kcmp_refl := Z.compare_refl;
  kcmp_antisym := fun x y => Z.compare_antisym x y;
  kcmp_trans := Z_compare_trans
|}.

(* ================================================================== *)
(** * pandas: [groupby] *)
(* ================================================================== *)

Section GroupBy.

Context {K : Type} `{KO : KeyOrder K} {R : Type}.

(** One group per key, kept in increasing key order; a row joins the end of
    its group, so the rows of a group stay in input order. *)
Fixpoint insert_group (k : K) (r : R) (gs : list (K * list R)) : list (K * list R) :=
  match gs with
  | [] => [(k, [r])]
  | (k', rs) :: gs' =>
      match kcmp k k' with
      | Eq => (k', rs ++ [r]) :: gs'
      | Lt => (k, [r]) :: gs
      | Gt => (k', rs) :: insert_group k r gs'
      end
  end.

Definition group_step (key : R -> option K) (gs : list (K * list R)) (r : R) :=
  match key r with
  | Some k => insert_group k r gs
  | None => gs
  end.

(** [df.groupby(key)]: rows whose key is missing are dropped (pandas'
    default [dropna=True]); groups come sorted by key ([sort=True]). *)
Definition groupby (key : R -> option K) (rows : list R) : list (K * list R) :=
  fold_left (group_step key) rows [].

(** The rows carrying key [k]. *)
Definition has_key (key : R -> option K) (k : K) (r : R) : bool :=
  match key r with
  | Some k' => keqb k k'
  | None => false
  end.

Definition rows_of (k : K) (gs : list (K * list R)) : list R :=
  match find (fun g => keqb k (fst g)) gs with
  | Some g => snd g
  | None => []
  end.

Definition keys_sorted (l : list K) : Prop := StronglySorted klt l.

(** ** Facts on the key order *)

Lemma keqb_eq (x y : K) : keqb x y = true <-> x = y.
Proof.
  unfold keqb. split.
  - destruct (kcmp x y) eqn:E; try discriminate. intros _. now apply kcmp_eq.
  - intros ->. now rewrite kcmp_refl.
Qed.

Lemma keqb_refl (x : K) : keqb x x = true.
Proof. now apply keqb_eq. Qed.

Lemma keqb_neq (x y : K) : x <> y -> keqb x y = false.
Proof.
  intros N. destruct (keqb x y) eqn:E; auto. apply keqb_eq in E. contradiction.
Qed.

Lemma klt_irrefl (x : K) : ~ klt x x.
Proof. unfold klt. rewrite kcmp_refl. discriminate. Qed.

Lemma klt_neq (x y : K) : klt x y -> x <> y.
Proof. intros L ->. exact (klt_irrefl L). Qed.

Lemma kcmp_gt_lt (x y : K) : kcmp x y = Gt -> klt y x.
Proof. intros G. unfold klt. rewrite kcmp_antisym, G. reflexivity. Qed.

Lemma keys_sorted_NoDup (l : list K) : keys_sorted l -> NoDup l.
Proof.
  induction 1 as [| a l S IH F]; constructor; auto.
  intros I. rewrite Forall_forall in F. exact (klt_irrefl (F _ I)).
Qed.

(** Two strictly increasing key lists with the same members are equal. *)
Lemma keys_sorted_unique (l1 l2 : list K) :
  keys_sorted l1 -> keys_sorted l2 -> (forall x, In x l1 <-> In x l2) -> l1 = l2.
Proof.
  intros S1. revert l2. induction S1 as [| a l1 S1 IH F1]; intros l2 S2 E.
  - destruct l2 as [| b l2]; auto. exfalso. apply (proj2 (E b)). now left.
  - destruct S2 as [| b l2 S2 F2].
    + exfalso. apply (proj1 (E a)). now left.
    + rewrite Forall_forall in F1, F2.
      assert (a = b) as ->.
      { destruct (proj1 (E a) (or_introl eq_refl)) as [-> | Ia]; auto.
        destruct (proj2 (E b) (or_introl eq_refl)) as [-> | Ib]; auto.
        exfalso. apply (klt_irrefl (x := a)).
        exact (kcmp_trans _ _ _ (F1 _ Ib) (F2 _ Ia)). }
      f_equal. apply IH; auto. intros x. split; intros I.
      * destruct (proj1 (E x) (or_intror I)) as [<- | I']; auto.
        exfalso. exact (klt_irrefl (F1 _ I)).
      * destruct (proj2 (E x) (or_intror I)) as [<- | I']; auto.
        exfalso. exact (klt_irrefl (F2 _ I)).
Qed.

(** ** One insertion *)

Lemma insert_group_keys (k : K) (r : R) (gs : list (K * list R)) (x : K) :
  In x (map fst (insert_group k r gs)) <-> x = k \/ In x (map fst gs).
Proof.
  induction gs as [| [k' rs] gs IH]; simpl.
  - intuition.
  - destruct (kcmp k k') eqn:E; simpl.
    + apply kcmp_eq in E. subst. intuition.
    + intuition.
    + rewrite IH. intuition.
Qed.

Lemma insert_group_sorted (k : K) (r : R) (gs : list (K * list R)) :
  keys_sorted (map fst gs) -> keys_sorted (map fst (insert_group k r gs)).
Proof.
  unfold keys_sorted.
  induction gs as [| [k' rs] gs IH]; simpl; intros S.
  - repeat constructor.
  - inversion S as [| ? ? S' F]; subst.
    destruct (kcmp k k') eqn:E; simpl.
    + constructor; auto.
    + constructor; auto. constructor; auto.
      rewrite Forall_forall in *. intros x I. exact (kcmp_trans _ _ _ E (F _ I)).
    + constructor; auto.
      rewrite Forall_forall in *. intros x I.
      apply insert_group_keys in I. destruct I as [-> | I]; auto.
      now apply kcmp_gt_lt.
Qed.

Lemma rows_of_cons (k k0 : K) (rs : list R) (gs : list (K * list R)) :
  rows_of k ((k0, rs) :: gs) = if keqb k k0 then rs else rows_of k gs.
Proof. unfold rows_of. simpl. destruct (keqb k k0); reflexivity. Qed.

Lemma rows_of_absent (k : K) (gs : list (K * list R)) :
  Forall (klt k) (map fst gs) -> rows_of k gs = [].
Proof.
  induction gs as [| [k' rs] gs IH]; simpl; intros F; auto.
  inversion F as [| ? ? L F']; subst.
  rewrite rows_of_cons, (keqb_neq (klt_neq L)). auto.
Qed.

Lemma rows_of_insert (k k' : K) (r : R) (gs : list (K * list R)) :
  keys_sorted (map fst gs) ->
  rows_of k (insert_group k' r gs) =
  if keqb k k' then rows_of k gs ++ [r] else rows_of k gs.
Proof.
  unfold keys_sorted.
  induction gs as [| [k0 rs] gs IH]; simpl; intros S.
  - rewrite rows_of_cons. destruct (keqb k k'); reflexivity.
  - inversion S as [| ? ? S' F]; subst.
    destruct (kcmp k' k0) eqn:E; rewrite !rows_of_cons.
    + apply kcmp_eq in E. subst k0. destruct (keqb k k'); reflexivity.
    + destruct (keqb k k') eqn:Ekk; auto.
      apply keqb_eq in Ekk. subst k'.
      rewrite (keqb_neq (klt_neq E)).
      rewrite rows_of_absent; auto.
      rewrite Forall_forall in *. intros x I. exact (kcmp_trans _ _ _ E (F _ I)).
    + destruct (keqb k k0) eqn:Ek0.
      * apply keqb_eq in Ek0. subst k0.
        rewrite keqb_neq; auto.
        intros ->. rewrite kcmp_refl in E. discriminate.
      * apply IH. auto.
Qed.

Lemma insert_group_nonempty (k : K) (r : R) (gs : list (K * list R)) :
  Forall (fun g => snd g <> []) gs ->
  Forall (fun g => snd g <> []) (insert_group k r gs).
Proof.
  induction gs as [| [k' rs] gs IH]; simpl; intros F.
  - repeat constructor. discriminate.
  - inversion F; subst. destruct (kcmp k k').
    + constructor; auto. simpl. destruct rs; discriminate.
    + constructor; auto. discriminate.
    + constructor; auto.
Qed.

(** ** A whole table *)

Section Table.

Variable key : R -> option K.

Lemma has_key_iff (k : K) (r : R) : has_key key k r = true <-> key r = Some k.
Proof.
  unfold has_key. destruct (key r) as [k' |].
  - rewrite keqb_eq. split; congruence.
  - split; discriminate.
Qed.

Lemma fold_group_sorted (rows : list R) (gs : list (K * list R)) :
  keys_sorted (map fst gs) ->
  keys_sorted (map fst (fold_left (group_step key) rows gs)).
Proof.
  revert gs. induction rows as [| r rows IH]; simpl; intros gs S; auto.
  apply IH. unfold group_step. destruct (key r); auto using insert_group_sorted.
Qed.

Lemma fold_group_nonempty (rows : list R) (gs : list (K * list R)) :
  Forall (fun g => snd g <> []) gs ->
  Forall (fun g => snd g <> []) (fold_left (group_step key) rows gs).
Proof.
  revert gs. induction rows as [| r rows IH]; simpl; intros gs F; auto.
  apply IH. unfold group_step. destruct (key r); auto using insert_group_nonempty.
Qed.

Lemma fold_group_keys (rows : list R) (gs : list (K * list R)) (k : K) :
  In k (map fst (fold_left (group_step key) rows gs)) <->
  In k (map fst gs) \/ exists r, In r rows /\ key r = Some k.
Proof.
  revert gs. induction rows as [| r rows IH]; simpl; intros gs.
  - split; [now left | intros [I | (r & [] & _)]; exact I].
  - rewrite IH. unfold group_step. destruct (key r) as [k' |] eqn:E.
    + rewrite insert_group_keys. split.
      * intros [[-> | I] | (r' & I & E')]; eauto.
      * intros [I | (r' & [<- | I] & E')]; eauto.
        left. left. congruence.
    + split.
      * intros [I | (r' & I & E')]; eauto.
      * intros [I | (r' & [<- | I] & E')]; eauto. congruence.
Qed.

Lemma fold_group_rows (rows : list R) (gs : list (K * list R)) (k : K) :
  keys_sorted (map fst gs) ->
  rows_of k (fold_left (group_step key) rows gs) =
  rows_of k gs ++ filter (has_key key k) rows.
Proof.
  revert gs. induction rows as [| r rows IH]; simpl; intros gs S.
  - now rewrite app_nil_r.
  - assert (St : group_step key gs r =
                 match key r with Some k' => insert_group k' r gs | None => gs end)
      by reflexivity.
    assert (Hk : has_key key k r =
                 match key r with Some k' => keqb k k' | None => false end)
      by reflexivity.
    rewrite IH; [| rewrite St; destruct (key r); auto using insert_group_sorted].
    rewrite St, Hk. destruct (key r) as [k' |]; auto.
    rewrite rows_of_insert by assumption.
    destruct (keqb k k'); auto. now rewrite <- app_assoc.
Qed.

Lemma sorted_groups_expand (gs : list (K * list R)) :
  keys_sorted (map fst gs) ->
  gs = map (fun k => (k, rows_of k gs)) (map fst gs).
Proof.
  unfold keys_sorted.
  induction gs as [| [k rs] gs IH]; simpl; intros S; auto.
  inversion S as [| ? ? S' F]; subst. f_equal.
  - now rewrite rows_of_cons, keqb_refl.
  - rewrite IH at 1 by assumption. apply map_ext_in. intros x I.
    f_equal. rewrite rows_of_cons.
    rewrite Forall_forall in F. rewrite keqb_neq; auto.
    intros ->. exact (klt_irrefl (F _ I)).
Qed.

(** The keys of the groups: sorted, without repetition, exactly the keys
    that occur in the table. *)
Definition group_keys (rows : list R) : list K := map fst (groupby key rows).

Lemma group_keys_sorted (rows : list R) : keys_sorted (group_keys rows).
Proof. apply fold_group_sorted. constructor. Qed.

Lemma group_keys_NoDup (rows : list R) : NoDup (group_keys rows).
Proof. apply keys_sorted_NoDup, group_keys_sorted. Qed.

Lemma group_keys_In (rows : list R) (k : K) :
  In k (group_keys rows) <-> exists r, In r rows /\ key r = Some k.
Proof.
  unfold group_keys, groupby. rewrite fold_group_keys. simpl.
  split; [intros [[] | H]; exact H | now right].
Qed.

(** Every group is the sub-table of the rows with its key, in input order. *)
Lemma groupby_spec (rows : list R) :
  groupby key rows =
  map (fun k => (k, filter (has_key key k) rows)) (group_keys rows).
Proof.
  rewrite (sorted_groups_expand (groupby key rows) (group_keys_sorted rows)) at 1.
  apply map_ext. intros k. f_equal.
  unfold groupby. rewrite fold_group_rows by constructor. reflexivity.
Qed.

Lemma groupby_In (rows : list R) (k : K) (rs : list R) :
  In (k, rs) (groupby key rows) ->
  rs = filter (has_key key k) rows /\ rs <> [].
Proof.
  intros I. split.
  - rewrite groupby_spec in I. apply in_map_iff in I.
    destruct I as (k' & E & _). congruence.
  - assert (F : Forall (fun g : K * list R => snd g <> []) (groupby key rows))
      by (apply fold_group_nonempty; constructor).
    rewrite Forall_forall in F. exact (F _ I).
Qed.

(** Reordering the table changes neither the keys nor their order. *)
Lemma group_keys_perm (rows rows' : list R) :
  Permutation rows rows' -> group_keys rows = group_keys rows'.
Proof.
  intros P. apply keys_sorted_unique; auto using group_keys_sorted.
  intros k. rewrite !group_keys_In. split; intros (r & I & E); exists r; split; auto.
  - now apply (Permutation_in _ P).
  - now apply (Permutation_in _ (Permutation_sym P)).
Qed.

Lemma filter_perm (f : R -> bool) (rows rows' : list R) :
  Permutation rows rows' -> Permutation (filter f rows) (filter f rows').
Proof.
  induction 1; simpl.
  - constructor.
  - destruct (f x); auto.
  - destruct (f x), (f y); auto. constructor.
  - etransitivity; eauto.
Qed.

End Table.

End GroupBy.

(* ================================================================== *)
(** * pandas: columns with missing cells *)
(* ================================================================== *)

(** A missing cell (NaN, None, SQL NULL) is [None]. *)
Fixpoint dropna {A : Type} (col : list (option A)) : list A :=
  match col with
  | [] => []
  | Some a :: col' => a :: dropna col'
  | None :: col' => dropna col'
  end.

(** [Series.count()]: the number of cells that are present. *)
Definition count_notna {A : Type} (col : list (option A)) : Z :=
  Z.of_nat (length (dropna col)).

(** [Series.mean()] on an integer column: missing cells are skipped. *)
Definition mean_notna (col : list (option Z)) : option Q := mean_int (dropna col).

Lemma dropna_perm {A : Type} (l l' : list (option A)) :
  Permutation l l' -> Permutation (dropna l) (dropna l').
Proof.
  induction 1 as [| x l l' P IH | x y l | l l' l'' P1 IH1 P2 IH2]; simpl.
  - constructor.
  - destruct x; auto.
  - destruct x, y; auto. constructor.
  - etransitivity; eauto.
Qed.

Lemma dropna_map_Some {A B : Type} (f : A -> option B) (g : A -> B) (l : list A) :
  (forall a, In a l -> f a = Some (g a)) -> dropna (map f l) = map g l.
Proof.
  induction l as [| a l IH]; simpl; intros H; auto.
  rewrite (H a) by now left. f_equal. apply IH. intros; apply H; now right.
Qed.

Lemma sumZ_perm (l l' : list Z) : Permutation l l' -> sumZ l = sumZ l'.
Proof.
  induction 1; simpl; try lia.
Qed.

Lemma mean_int_perm (l l' : list Z) : Permutation l l' -> mean_int l = mean_int l'.
Proof.
  intros P. unfold mean_int.
  rewrite (sumZ_perm P), (Permutation_length P).
  destruct l, l'; auto.
  - apply Permutation_nil in P. discriminate.
  - apply Permutation_sym, Permutation_nil in P. discriminate.
Qed.

(* ================================================================== *)
(** * The skills table *)
(* ================================================================== *)

(** A row of the processed skills table: what the Glue job writes, what the
    Athena query and the training script read.  Any cell may be missing. *)
Module SkillsData.

Record Row : Type := {
  employee_id : option string;
  skill : option string;
  proficiency_score : option Z;
  years_experience : option Z
}.

(** Every field is present. *)
Definition complete (r : Row) : Prop :=
  employee_id r <> None /\ skill r <> None /\
  proficiency_score r <> None /\ years_experience r <> None.

Definition completeb (r : Row) : bool :=
  match employee_id r, skill r, proficiency_score r, years_experience r with
  | Some _, Some _, Some _, Some _ => true
  | _, _, _, _ => false
  end.

Lemma completeb_iff (r : Row) : completeb r = true <-> complete r.
Proof.
  unfold completeb, complete.
  destruct (employee_id r), (skill r), (proficiency_score r), (years_experience r);
    split; try discriminate; try tauto; try (intros; repeat split; discriminate).
Qed.

End SkillsData.

(* ================================================================== *)
(** * lambda/etl_job.py *)
(* ================================================================== *)

Module EtlJob.

Local Open Scope string_scope.

(** A row of [raw/skills_data.csv], read with a header and no schema: every
    column is a nullable string. *)
Record RawRow : Type := {
  employee_id : option string;
  skill : option string;
  department : option string;
  proficiency : option string;
  years_experience : option string
}.

(** Spark's [trim]: spaces off both ends. *)
Fixpoint ltrim (s : string) : string :=
  match s with
  | String " "%char s' => ltrim s'
  | _ => s
  end.

Fixpoint rtrim (s : string) : string :=
  match s with
  | EmptyString => EmptyString
  | String c s' =>
      match rtrim s' with
      | EmptyString => if Ascii.eqb c " "%char then EmptyString else String c EmptyString
      | t => String c t
      end
  end.

Definition trim (s : string) : string := rtrim (ltrim s).

(** The column [proficiency_score]: a [when] chain on the cleaned
    [proficiency]; a null or unrecognised level falls to [otherwise(2)]. *)
Definition proficiency_score (proficiency : option string) : Z :=
  match proficiency with
  | Some p =>
      if String.eqb p "BEGINNER" then 1
      else if String.eqb p "INTERMEDIATE" then 2
      else if String.eqb p "ADVANCED" then 3
      else if String.eqb p "EXPERT" then 4
      else 2
  | None => 2
  end%Z.

(** The dictionary [proficiency_mapping] (declared, not used by the job). *)
Definition proficiency_mapping : list (string * Z) :=
  [("BEGINNER", 1); ("INTERMEDIATE", 2); ("ADVANCED", 3); ("EXPERT", 4)]%Z.

Section Job.

(** Spark's [upper] on a string column: it follows the case mapping of
    Unicode, which is not modelled; a parameter of the job. *)
Variable upper : string -> string.

(** Spark's [cast("integer")] on a string column. *)
Variable cast_integer : string -> option Z.

(** A row of [df_clean]. *)
Record CleanRow : Type := {
  c_employee_id : option string;
  c_skill : option string;
  c_department : option string;
  c_proficiency : option string;
  c_proficiency_score : Z;
  c_years_experience : option Z
}.

Definition clean_columns (r : RawRow) : RawRow :=
  {| employee_id := employee_id r;
     skill := option_map (fun s => trim (upper s)) (skill r);
     department := option_map trim (department r);
     proficiency := option_map (fun s => trim (upper s)) (proficiency r);
     years_experience := years_experience r |}.

Definition isNotNull {A : Type} (c : option A) : bool :=
  match c with Some _ => true | None => false end.

Definition with_scores (r : RawRow) : CleanRow :=
  {| c_employee_id := employee_id r;
     c_skill := skill r;
     c_department := department r;
     c_proficiency := proficiency r;
     c_proficiency_score := proficiency_score (proficiency r);
     c_years_experience :=
       match years_experience r with
       | Some y => cast_integer y
       | None => None
       end |}.

Definition option_string_eqb (a b : option string) : bool :=
  match a, b with
  | Some x, Some y => String.eqb x y
  | None, None => true
  | _, _ => false
  end.

Definition same_pair (a b : CleanRow) : bool :=
  andb (option_string_eqb (c_employee_id a) (c_employee_id b))
       (option_string_eqb (c_skill a) (c_skill b)).

(** [dropDuplicates(['employee_id', 'skill'])]: one row is kept for each
    pair (the first one here; Spark does not say which). *)
Definition dropDuplicates (rows : list CleanRow) : list CleanRow :=
  rev (fold_left (fun kept r => if existsb (same_pair r) kept then kept else r :: kept)
                 rows []).

(** [df_clean], from the rows of the raw file. *)
Definition df_clean (df : list RawRow) : list CleanRow :=
  dropDuplicates
    (map with_scores
       (filter (fun r => isNotNull (employee_id r))
          (filter (fun r => isNotNull (skill r))
             (map clean_columns df)))).

(** The processed table, as the downstream programs read it. *)
Definition to_table (rows : list CleanRow) : list SkillsData.Row :=
  map (fun r => {| SkillsData.employee_id := c_employee_id r;
                   SkillsData.skill := c_skill r;
                   SkillsData.proficiency_score := Some (c_proficiency_score r);
                   SkillsData.years_experience := c_years_experience r |}) rows.

End Job.

End EtlJob.

(* ================================================================== *)
(** * scikit-learn and numpy, as the programs see them *)
(* ================================================================== *)

(** A float matrix, row by row, and a vector of cluster labels. *)
Definition matrix : Type := list (list Q).
Definition labels : Type := list Z.

Module sklearn.

(** The calls the programs make into the library.  [KMeans_fit_predict k
    random_state n_init X] is [KMeans(n_clusters=k, random_state=..., n_init=...)
    .fit_predict(X)]: with [random_state=None] it draws from numpy's global
    generator, whose state it reads and advances. *)
Record Lib : Type := {
  np_state : Type;
  KMeans_fit_predict :
    nat -> option Z -> nat -> matrix -> np_state -> result labels * np_state;
  silhouette_score : matrix -> labels -> result Q;
  np_sqrt : Q -> Q;
  tfidf_matrix : Type;
  TfidfVectorizer : Type;
  TfidfVectorizer_fit_transform :
    nat -> list string -> result (tfidf_matrix * TfidfVectorizer)
}.

(** The library's contract for an integer [random_state]: the fit draws from
    a generator of its own, created from the seed; the global generator is
    neither read nor advanced. *)
Definition seeded (sk : Lib) : Prop :=
  forall k s n X g g',
    fst (KMeans_fit_predict sk k (Some s) n X g) =
    fst (KMeans_fit_predict sk k (Some s) n X g') /\
    snd (KMeans_fit_predict sk k (Some s) n X g) = g.

End sklearn.

(* ================================================================== *)
(** * Effects: library calls, printed lines, raised exceptions *)
(* ================================================================== *)

(** What a run leaves behind, in order. *)
Inductive event : Type :=
| Fit (k : nat) (out : result labels)
| Silhouette (l : labels) (out : result Q)
| PrintScore (k : nat) (score : Q)
| PrintBest (k : nat) (score : Q).

Section Effects.

Variable sk : sklearn.Lib.

Record world : Type := {
  np_random : sklearn.np_state sk;
  log : list event
}.

(** A computation: from a world to an outcome and the world after it.  What
    happened before an exception stays in the log. *)
Definition M (A : Type) : Type := world -> result A * world.

Definition ret {A : Type} (a : A) : M A := fun w => (Ok a, w).

Definition bind {A B : Type} (m : M A) (f : A -> M B) : M B :=
  fun w =>
    match m w with
    | (Ok a, w') => f a w'
    | (Raise e, w') => (Raise e, w')
    end.

(** A call that either returns or raises, and touches nothing else. *)
Definition lift {A : Type} (r : result A) : M A := fun w => (r, w).

Definition emit (e : event) : M unit :=
  fun w => (Ok tt, {| np_random := np_random w; log := log w ++ [e] |}).

(** [for k in ks: state = body(k, state)] *)
Fixpoint for_each {S : Type} (ks : list nat) (body : nat -> S -> M S) (s : S) : M S :=
  match ks with
  | [] => ret s
  | k :: ks' => bind (body k s) (for_each ks' body)
  end.

(** [KMeans(n_clusters=k, random_state=seed, n_init=n).fit_predict(X)] *)
Definition fit_predict (k : nat) (seed : Z) (n_init : nat) (X : matrix) : M labels :=
  fun w =>
    let '(out, g) := sklearn.KMeans_fit_predict sk k (Some seed) n_init X (np_random w) in
    (out, {| np_random := g; log := log w ++ [Fit k out] |}).

(** [silhouette_score(X, labels)] *)
Definition silhouette (X : matrix) (l : labels) : M Q :=
  fun w =>
    let out := sklearn.silhouette_score sk X l in
    (out, {| np_random := np_random w; log := log w ++ [Silhouette l out] |}).

End Effects.

Arguments ret {sk A} a.
Arguments bind {sk A B} m f.
Arguments lift {sk A} r.
Arguments emit {sk} e.
Arguments for_each {sk S} ks body s.
Arguments fit_predict {sk} k seed n_init X.
Arguments silhouette {sk} X l.

Declare Scope py_scope.
Delimit Scope py_scope with py.
Notation "x <- m ;; k" := (bind m (fun x => k))
  (at level 61, m at next level, right associativity) : py_scope.
Notation "m ;; k" := (bind m (fun _ => k))
  (at level 61, right associativity) : py_scope.

(* ================================================================== *)
(** * Computations that do not look at the world *)
(* ================================================================== *)

Section Independence.

Variable sk : sklearn.Lib.

(** The outcome is the same from any two worlds: whatever the state of the
    global generator, whatever was logged before. *)
Definition world_independent {A : Type} (m : M sk A) : Prop :=
  forall w1 w2, fst (m w1) = fst (m w2).

Lemma ret_independent {A : Type} (a : A) : world_independent (ret a).
Proof. intros w1 w2. reflexivity. Qed.

Lemma lift_independent {A : Type} (r : result A) : world_independent (lift r).
Proof. intros w1 w2. reflexivity. Qed.

Lemma emit_independent (e : event) : world_independent (emit e).
Proof. intros w1 w2. reflexivity. Qed.

Lemma silhouette_independent (X : matrix) (l : labels) :
  world_independent (silhouette X l).
Proof. intros w1 w2. reflexivity. Qed.

Lemma bind_independent {A B : Type} (m : M sk A) (f : A -> M sk B) :
  world_independent m -> (forall a, world_independent (f a)) ->
  world_independent (bind m f).
Proof.
  intros Hm Hf w1 w2. unfold bind. specialize (Hm w1 w2).
  destruct (m w1) as [[a1 | e1] w1'], (m w2) as [[a2 | e2] w2']; simpl in Hm;
    try discriminate.
  - injection Hm as ->. apply Hf.
  - simpl. injection Hm as ->. reflexivity.
Qed.

Lemma for_each_independent {S : Type} (ks : list nat) (body : nat -> S -> M sk S) :
  (forall k s, world_independent (body k s)) ->
  forall s, world_independent (for_each ks body s).
Proof.
  intros Hb. induction ks as [| k ks IH]; intros s; simpl.
  - apply ret_independent.
  - apply bind_independent; auto.
Qed.

(** A seeded fit is such a computation, by the library's contract. *)
Lemma fit_predict_independent (k : nat) (seed : Z) (n_init : nat) (X : matrix) :
  sklearn.seeded sk -> world_independent (fit_predict k seed n_init X).
Proof.
  intros Hs w1 w2. unfold fit_predict.
  destruct (Hs k seed n_init X (np_random w1) (np_random w2)) as [E _].
  destruct (sklearn.KMeans_fit_predict sk k (Some seed) n_init X (np_random w1)),
           (sklearn.KMeans_fit_predict sk k (Some seed) n_init X (np_random w2)).
  exact E.
Qed.

End Independence.

(* ================================================================== *)
(** * Keeping the best candidate *)
(* ================================================================== *)

Lemma Qltb_lt (a b : Q) : Qltb a b = true <-> (a < b)%Q.
Proof.
  unfold Qltb. rewrite negb_true_iff. split.
  - intros H. apply Qnot_le_lt. intros L. apply Qle_bool_iff in L. congruence.
  - intros H. destruct (Qle_bool b a) eqn:E; auto.
    apply Qle_bool_iff in E. exfalso. exact (Qlt_not_le _ _ H E).
Qed.

Lemma Qltb_ge (a b : Q) : Qltb a b = false <-> (b <= a)%Q.
Proof.
  unfold Qltb. rewrite negb_false_iff. apply Qle_bool_iff.
Qed.

(** Both searches walk the candidates in order and replace the best one seen
    whenever [score > best_score]. *)
Section Selection.

Variables (C B : Type).
Variable score_of : C -> Q.
Variable best_score_of : B -> Q.
Variable take : C -> B.
Hypothesis take_score : forall c, best_score_of (take c) = score_of c.

Definition keep (b : B) (c : C) : B :=
  if Qltb (best_score_of b) (score_of c) then take c else b.

(** What the walk ends with: either nothing beat the start, or the first
    candidate with the highest score, which beats the start. *)
Lemma keep_spec (cs : list C) (b : B) :
  let b' := fold_left keep cs b in
  (best_score_of b <= best_score_of b')%Q /\
  Forall (fun c => (score_of c <= best_score_of b')%Q) cs /\
  ((b' = b /\ Forall (fun c => (score_of c <= best_score_of b)%Q) cs) \/
   (exists pre c post,
       cs = pre ++ c :: post /\ b' = take c /\
       Forall (fun c' => (score_of c' < score_of c)%Q) pre /\
       (best_score_of b < score_of c)%Q)).
Proof.
  revert b. induction cs as [| c cs IH]; intros b; simpl.
  - split; [apply Qle_refl |]. split; [constructor |]. left. split; auto.
  - specialize (IH (keep b c)). simpl in IH.
    destruct IH as (Hle & Hall & Hcase).
    remember (keep b c) as b1 eqn:K. unfold keep in K.
    destruct (Qltb (best_score_of b) (score_of c)) eqn:E; subst b1.
    + apply Qltb_lt in E. rewrite take_score in Hle.
      split; [eapply Qle_trans; [apply Qlt_le_weak; exact E | exact Hle] |].
      split; [constructor; auto |].
      right. destruct Hcase as [[Heq Hcs] | (pre & c' & post & Hcs & Hb & Hpre & Hlt)].
      * exists [], c, cs. split; [reflexivity |]. split; [exact Heq |].
        split; [constructor | exact E].
      * exists (c :: pre), c', post. rewrite take_score in Hlt.
        split; [simpl; now f_equal |]. split; [exact Hb |].
        split; [constructor; auto |]. eapply Qlt_trans; eauto.
    + apply Qltb_ge in E.
      split; auto.
      split; [constructor; auto; eapply Qle_trans; eauto |].
      destruct Hcase as [[Heq Hcs] | (pre & c' & post & Hcs & Hb & Hpre & Hlt)].
      * left. split; auto.
      * right. exists (c :: pre), c', post.
        split; [simpl; now f_equal |]. split; [exact Hb |].
        split; [| exact Hlt]. constructor; auto. eapply Qle_lt_trans; eauto.
Qed.

End Selection.

(* ================================================================== *)
(** * sagemaker/train_clustering.py *)
(* ================================================================== *)

Module TrainClustering.

(** A row of [skill_agg]. *)
Record SkillAgg : Type := {
  skill : string;
  employee_count : Z;
  avg_proficiency : option Q;
  avg_experience : option Q
}.

(** The aggregation of one group:
    [{'employee_id': 'count', 'proficiency_score': 'mean', 'years_experience': 'mean'}] *)
Definition agg_row (g : string * list SkillsData.Row) : SkillAgg :=
  {| skill := fst g;
     employee_count := count_notna (map SkillsData.employee_id (snd g));
     avg_proficiency := mean_notna (map SkillsData.proficiency_score (snd g));
     avg_experience := mean_notna (map SkillsData.years_experience (snd g)) |}.

(** [skill_agg = df.groupby('skill').agg({...}).reset_index()] *)
Definition skill_agg (df : list SkillsData.Row) : list SkillAgg :=
  map agg_row (groupby SkillsData.skill df).

(** [skill_agg[['employee_count', 'avg_proficiency', 'avg_experience']].values] *)
Definition numeric_features (agg : list SkillAgg) : list (list (option Q)) :=
  map (fun a => [Some (inject_Z (employee_count a)); avg_proficiency a; avg_experience a])
      agg.

(** A fitted [KMeans] estimator: its parameters and the labels of the fit. *)
Record KMeans : Type := {
  n_clusters : nat;
  random_state : Z;
  n_init : nat;
  labels_ : labels
}.

Section WithLib.

Variable sk : sklearn.Lib.

Local Open Scope py_scope.

Definition create_skill_features (df : list SkillsData.Row)
  : result (list SkillAgg * list (list (option Q)) *
            sklearn.tfidf_matrix sk * sklearn.TfidfVectorizer sk) :=
  let agg := skill_agg df in
  match sklearn.TfidfVectorizer_fit_transform sk 50 (map skill agg) with
  | Ok (skill_text_features, tfidf) =>
      Ok (agg, numeric_features agg, skill_text_features, tfidf)
  | Raise e => Raise e
  end.

(** The state of the search: [(best_model, best_k, best_score)]. *)
Definition best : Type := (option KMeans * nat * Q)%type.

(** The body of the loop of [train_kmeans], for one candidate [k]. *)
Definition try_k (features : matrix) (k : nat) (b : best) : M sk best :=
  let '(best_model, best_k, best_score) := b in
  labels <- fit_predict k 42 10 features ;;
  let model := {| n_clusters := k; random_state := 42; n_init := 10; labels_ := labels |} in
  if (1 <? len_set labels)%nat then
    score <- silhouette features labels ;;
    emit (PrintScore k score) ;;
    if Qltb best_score score
    then ret (Some model, k, score)
    else ret (best_model, best_k, best_score)
  else ret (best_model, best_k, best_score).

Definition train_kmeans (features : matrix) (n_clusters_range : list nat) : M sk best :=
  b <- for_each n_clusters_range (try_k features) (None, 5%nat, (-1)%Q) ;;
  emit (PrintBest (snd (fst b)) (snd b)) ;;
  ret b.

(** The default of the parameter, [range(3, 10)]. *)
Definition n_clusters_range_default : list nat := range 3 10.

End WithLib.

(** ** The feature table *)

(** The rows of a skill. *)
Definition rows_with (s : string) (df : list SkillsData.Row) : list SkillsData.Row :=
  filter (has_key SkillsData.skill s) df.

(** The number of distinct employees among rows. *)
Definition distinct_employees (rows : list SkillsData.Row) : Z :=
  Z.of_nat (length (nodup string_dec (dropna (map SkillsData.employee_id rows)))).

Lemma skill_agg_spec (df : list SkillsData.Row) :
  skill_agg df =
  map (fun s => agg_row (s, rows_with s df)) (group_keys SkillsData.skill df).
Proof.
  unfold skill_agg. rewrite groupby_spec, map_map. reflexivity.
Qed.

Lemma skill_agg_skills (df : list SkillsData.Row) :
  map skill (skill_agg df) = group_keys SkillsData.skill df.
Proof.
  rewrite skill_agg_spec, map_map. simpl. apply map_id.
Qed.

Lemma agg_row_perm (s : string) (rows rows' : list SkillsData.Row) :
  Permutation rows rows' -> agg_row (s, rows) = agg_row (s, rows').
Proof.
  intros P. unfold agg_row, count_notna, mean_notna. simpl. f_equal.
  - f_equal. apply Permutation_length, dropna_perm, Permutation_map, P.
  - apply mean_int_perm, dropna_perm, Permutation_map, P.
  - apply mean_int_perm, dropna_perm, Permutation_map, P.
Qed.

Lemma skill_agg_perm (df df' : list SkillsData.Row) :
  Permutation df df' -> skill_agg df' = skill_agg df.
Proof.
  intros P. rewrite !skill_agg_spec.
  rewrite (group_keys_perm SkillsData.skill P).
  apply map_ext. intros s. symmetry. apply agg_row_perm.
  unfold rows_with. now apply filter_perm.
Qed.

(** ** The search, candidate by candidate *)

Section Search.

Variable sk : sklearn.Lib.

(** A candidate the search has fitted: its [k], its labels, and its score
    when it was scored. *)
Definition candidate : Type := (nat * labels * option Q)%type.

Definition cand_k (c : candidate) : nat := fst (fst c).
Definition cand_labels (c : candidate) : labels := snd (fst c).
Definition cand_score (c : candidate) : option Q := snd c.

Definition model_of (k : nat) (l : labels) : KMeans :=
  {| n_clusters := k; random_state := 42; n_init := 10; labels_ := l |}.

(** What a candidate leaves in the log: its fit, and when it is scored its
    score and the printed line. *)
Definition cand_events (c : candidate) : list event :=
  Fit (cand_k c) (Ok (cand_labels c)) ::
  match cand_score c with
  | Some s => [Silhouette (cand_labels c) (Ok s); PrintScore (cand_k c) s]
  | None => []
  end.

(** The candidate is what the library returns on [X]; it is scored exactly
    when its labels take more than one value. *)
Definition seen (X : matrix) (c : candidate) : Prop :=
  (exists g,
      fst (sklearn.KMeans_fit_predict sk (cand_k c) (Some 42%Z) 10 X g)
      = Ok (cand_labels c)) /\
  match cand_score c with
  | Some s =>
      (1 < len_set (cand_labels c))%nat /\
      sklearn.silhouette_score sk X (cand_labels c) = Ok s
  | None => (len_set (cand_labels c) <= 1)%nat
  end.

(** The scored candidates, in order. *)
Definition scored (cands : list candidate) : list (nat * labels * Q) :=
  flat_map (fun c => match cand_score c with
                     | Some s => [(cand_k c, cand_labels c, s)]
                     | None => []
                     end) cands.

Definition best_score_of (b : best) : Q := snd b.

Definition take_scored (c : nat * labels * Q) : best :=
  (Some (model_of (fst (fst c)) (snd (fst c))), fst (fst c), snd c).

Definition keep_best : best -> nat * labels * Q -> best :=
  keep snd best_score_of take_scored.

Lemma fit_predict_run (k : nat) (X : matrix) (w w' : world sk) (r : result labels) :
  fit_predict k 42 10 X w = (r, w') ->
  log w' = log w ++ [Fit k r] /\
  fst (sklearn.KMeans_fit_predict sk k (Some 42%Z) 10 X (np_random w)) = r.
Proof.
  unfold fit_predict.
  destruct (sklearn.KMeans_fit_predict sk k (Some 42%Z) 10 X (np_random w)) as [out g].
  intros H. injection H as -> <-. split; reflexivity.
Qed.

Lemma candidate_ok (X : matrix) (k : nat) (b b' : best) (w w' : world sk) :
  try_k X k b w = (Ok b', w') ->
  exists c, cand_k c = k /\ seen X c /\
            b' = fold_left keep_best (scored [c]) b /\
            log w' = log w ++ cand_events c.
Proof.
  unfold try_k, bind. destruct b as [[best_model best_k] best_score].
  destruct (fit_predict k 42 10 X w) as [[l | e] w1] eqn:F; [| discriminate].
  apply fit_predict_run in F. destruct F as [L1 F].
  destruct (1 <? len_set l)%nat eqn:N.
  - unfold silhouette.
    destruct (sklearn.silhouette_score sk X l) as [s | e] eqn:S; [| discriminate].
    intros H. exists (k, l, Some s).
    split; [reflexivity |].
    split; [split; [eexists; exact F | split; [now apply Nat.ltb_lt | exact S]] |].
    unfold scored, cand_events, cand_k, cand_labels, cand_score,
      keep_best, keep, best_score_of, take_scored, emit, ret in *. simpl in *.
    destruct (Qltb best_score s); injection H as <- <-; simpl;
      rewrite L1, <- !app_assoc; split; reflexivity.
  - unfold ret. intros H. injection H as <- <-. exists (k, l, None).
    split; [reflexivity |].
    split; [split; [eexists; exact F | now apply Nat.ltb_ge] |].
    split; [reflexivity | exact L1].
Qed.

Lemma scored_app (l1 l2 : list candidate) : scored (l1 ++ l2) = scored l1 ++ scored l2.
Proof. unfold scored. apply flat_map_app. Qed.

Lemma candidates_ok (X : matrix) (ks : list nat) (b b' : best) (w w' : world sk) :
  for_each ks (try_k X) b w = (Ok b', w') ->
  exists cands,
    map cand_k cands = ks /\ Forall (seen X) cands /\
    b' = fold_left keep_best (scored cands) b /\
    log w' = log w ++ flat_map cand_events cands.
Proof.
  revert b w. induction ks as [| k ks IH]; intros b w; simpl.
  - unfold ret. intros H. injection H as <- <-. exists [].
    repeat split; auto. simpl. now rewrite app_nil_r.
  - unfold bind. destruct (try_k X k b w) as [[b1 | e] w1] eqn:T; [| discriminate].
    intros H. apply candidate_ok in T. destruct T as (c & Hk & Hseen & Hb1 & Hlog).
    apply IH in H. destruct H as (cands & Hks & Hall & Hb' & Hlog').
    exists (c :: cands). split; [simpl; congruence |].
    split; [constructor; auto |].
    split.
    + change (c :: cands) with ([c] ++ cands).
      rewrite scored_app, fold_left_app, <- Hb1. exact Hb'.
    + simpl flat_map. rewrite Hlog', Hlog, <- !app_assoc. reflexivity.
Qed.

(** A run of [train_kmeans] that returns, step by step. *)
Lemma train_kmeans_ok (X : matrix) (ks : list nat) (b : best) (w w' : world sk) :
  train_kmeans X ks w = (Ok b, w') ->
  exists cands,
    map cand_k cands = ks /\ Forall (seen X) cands /\
    b = fold_left keep_best (scored cands) (None, 5%nat, (-1)%Q) /\
    log w' = log w ++ flat_map cand_events cands ++ [PrintBest (snd (fst b)) (snd b)].
Proof.
  unfold train_kmeans. unfold bind at 1.
  destruct (for_each ks (try_k X) (None, 5%nat, (-1)%Q) w) as [[b1 | e] w1] eqn:S;
    [| discriminate].
  apply candidates_ok in S. destruct S as (cands & Hks & Hall & Hb & Hlog).
  unfold bind, emit, ret. intros H. injection H as <- <-. simpl.
  exists cands. repeat split; auto.
  rewrite Hlog, <- app_assoc. reflexivity.
Qed.

(** ** Scoring is skipped below two clusters *)

(** A silhouette evaluation on labels with more than one value; any other
    event. *)
Definition scored_on_two (e : event) : Prop :=
  match e with
  | Silhouette l _ => (1 < len_set l)%nat
  | _ => True
  end.

Lemma try_k_scores_two (X : matrix) (k : nat) (b : best) (w w' : world sk)
  (r : result best) :
  try_k X k b w = (r, w') ->
  exists evs, log w' = log w ++ evs /\ Forall scored_on_two evs.
Proof.
  unfold try_k, bind. destruct b as [[best_model best_k] best_score].
  destruct (fit_predict k 42 10 X w) as [[l | e] w1] eqn:F;
    apply fit_predict_run in F; destruct F as [L1 _].
  - destruct (1 <? len_set l)%nat eqn:N.
    + apply Nat.ltb_lt in N. unfold silhouette.
      destruct (sklearn.silhouette_score sk X l) as [s | e] eqn:S.
      * unfold emit, ret. simpl.
        destruct (Qltb best_score s); intros H; injection H as <- <-; simpl;
          (exists [Fit k (Ok l); Silhouette l (Ok s); PrintScore k s]);
          rewrite L1, <- !app_assoc; split; auto;
          repeat constructor; exact N.
      * intros H. injection H as <- <-. simpl.
        exists [Fit k (Ok l); Silhouette l (Raise e)].
        rewrite L1, <- !app_assoc. split; auto. repeat constructor. exact N.
    + unfold ret. intros H. injection H as <- <-.
      exists [Fit k (Ok l)]. split; auto. repeat constructor.
  - intros H. injection H as <- <-.
    exists [Fit k (Raise e)]. split; auto. repeat constructor.
Qed.

Lemma search_scores_two (X : matrix) (ks : list nat) (b : best) (w w' : world sk)
  (r : result best) :
  for_each ks (try_k X) b w = (r, w') ->
  exists evs, log w' = log w ++ evs /\ Forall scored_on_two evs.
Proof.
  revert b w. induction ks as [| k ks IH]; intros b w; simpl.
  - unfold ret. intros H. injection H as <- <-. exists []. split; auto.
    now rewrite app_nil_r.
  - unfold bind. destruct (try_k X k b w) as [[b1 | e] w1] eqn:T;
      apply try_k_scores_two in T; destruct T as (evs1 & L1 & F1).
    + intros H. apply IH in H. destruct H as (evs2 & L2 & F2).
      exists (evs1 ++ evs2). rewrite L2, L1, <- app_assoc. split; auto.
      apply Forall_app. split; auto.
    + intros H. injection H as <- <-. exists evs1. split; auto.
Qed.

(** ** When every candidate is skipped *)

Lemma search_all_skipped (X : matrix) (ks : list nat) (b : best) (w : world sk) :
  (forall k g, In k ks ->
     exists l, fst (sklearn.KMeans_fit_predict sk k (Some 42%Z) 10 X g) = Ok l /\
               (len_set l <= 1)%nat) ->
  exists w', for_each ks (try_k X) b w = (Ok b, w') /\
             Forall (fun e => match e with Fit _ (Ok _) => True | _ => False end)
                    (skipn (length (log w)) (log w')).
Proof.
  revert w. induction ks as [| k ks IH]; intros w H; simpl.
  - exists w. split; [reflexivity |].
    rewrite skipn_all. constructor.
  - destruct (H k (np_random w) (or_introl eq_refl)) as (l & F & N).
    unfold bind, try_k at 1. destruct b as [[best_model best_k] best_score].
    unfold bind, fit_predict at 1.
    destruct (sklearn.KMeans_fit_predict sk k (Some 42%Z) 10 X (np_random w))
      as [out g] eqn:E.
    simpl in F. subst out.
    apply Nat.leb_le in N. rewrite Nat.leb_antisym in N.
    apply negb_true_iff in N. rewrite N. unfold ret.
    destruct (IH {| np_random := g; log := log w ++ [Fit k (Ok l)] |}) as (w' & R & L).
    { intros k' g' I. apply H. now right. }
    exists w'. split; [exact R |].
    simpl in L. rewrite length_app in L. simpl in L.
    assert (Hl : exists evs, log w' = (log w ++ [Fit k (Ok l)]) ++ evs).
    { destruct (search_scores_two _ _ _ _ R) as (evs & Le & _). exists evs. exact Le. }
    destruct Hl as (evs & Le). rewrite Le in L |- *.
    rewrite <- app_assoc. rewrite skipn_app, skipn_all, Nat.sub_diag. simpl.
    rewrite skipn_app in L.
    replace (length (log w) + 1 - length (log w ++ [Fit k (Ok l)]))%nat with 0%nat in L
      by (rewrite length_app; simpl; lia).
    rewrite skipn_all2 in L by (rewrite length_app; simpl; lia).
    simpl in L. constructor; auto.
Qed.

(** Every candidate of the range is skipped on [X]: whatever the state of
    the global generator, its fit returns labels with at most one value. *)
Definition all_skipped (X : matrix) (ks : list nat) : Prop :=
  forall k g, In k ks ->
    exists l, fst (sklearn.KMeans_fit_predict sk k (Some 42%Z) 10 X g) = Ok l /\
              (len_set l <= 1)%nat.

(** Under the library's contract for seeds, the outcome of a run does not
    depend on the world it starts in. *)
Lemma train_kmeans_independent (X : matrix) (ks : list nat) :
  sklearn.seeded sk -> world_independent (sk := sk) (train_kmeans X ks).
Proof.
  intros Hs. unfold train_kmeans.
  apply bind_independent.
  - apply for_each_independent. intros k [[best_model best_k] best_score].
    unfold try_k.
    apply bind_independent; [now apply fit_predict_independent |]. intros l.
    destruct (1 <? len_set l)%nat; [| apply ret_independent].
    apply bind_independent; [apply silhouette_independent |]. intros sc.
    apply bind_independent; [apply emit_independent |]. intros _.
    destruct (Qltb best_score sc); apply ret_independent.
  - intros b. apply bind_independent; [apply emit_independent |]. intros _.
    apply ret_independent.
Qed.

End Search.

End TrainClustering.

(* ================================================================== *)
(** * scikit-learn: [StandardScaler] *)
(* ================================================================== *)

(** [StandardScaler()] with its defaults: per column, the mean and the
    population variance; the scale is the square root of the variance, and a
    column of variance zero is given the scale 1 instead (the library's
    handling of zeros in the scale); [transform] maps [x] to
    [(x - mean) / scale].  A matrix without rows is refused. *)
Module StandardScaler.

Local Open Scope Q_scope.

Section WithSqrt.

Variable sqrt : Q -> Q.

Record Scaler : Type := {
  mean_ : list Q;
  var_ : list Q;
  scale_ : list Q
}.

Definition column (j : nat) (X : matrix) : list Q := map (fun row => nth j row 0) X.

Definition n_features (X : matrix) : nat :=
  match X with
  | [] => 0%nat
  | row :: _ => length row
  end.

Definition variance (col : list Q) : Q :=
  meanQ (map (fun x => (x - meanQ col) * (x - meanQ col)) col).

Definition scale_of (v : Q) : Q := if Qeq_bool v 0 then 1 else sqrt v.

Definition fit (X : matrix) : result Scaler :=
  match X with
  | [] => Raise ValueError
  | _ =>
      let cols := map (fun j => column j X) (seq 0 (n_features X)) in
      Ok {| mean_ := map meanQ cols;
            var_ := map variance cols;
            scale_ := map (fun c => scale_of (variance c)) cols |}
  end.

Fixpoint transform_row (row means scales : list Q) : list Q :=
  match row, means, scales with
  | x :: row', m :: means', s :: scales' => ((x - m) / s) :: transform_row row' means' scales'
  | _, _, _ => []
  end.

Definition transform (sc : Scaler) (X : matrix) : matrix :=
  map (fun row => transform_row row (mean_ sc) (scale_ sc)) X.

Definition fit_transform (X : matrix) : result matrix :=
  match fit X with
  | Ok sc => Ok (transform sc X)
  | Raise e => Raise e
  end.

End WithSqrt.

End StandardScaler.

(* ================================================================== *)
(** * lambda/handler.py *)
(* ================================================================== *)

Module Handler.

(** A row of the feature table [df]: the columns [skill], [employee_count],
    [avg_proficiency], [avg_experience], the last three numeric. *)
Record SkillRow : Type := {
  skill : string;
  employee_count : Z;
  avg_proficiency : Q;
  avg_experience : Q
}.

Definition DataFrame : Type := list SkillRow.

(** A row of [result_df]: a row of [df] and its [cluster_id]. *)
Record ClusteredRow : Type := {
  row : SkillRow;
  cluster_id : Z
}.

(** A row of [cluster_stats]. *)
Record ClusterStat : Type := {
  stats_cluster_id : Z;
  num_skills : Z;
  total_employees : Z;
  avg_cluster_proficiency : Q;
  avg_cluster_experience : Q
}.

(** The dictionary returned by [prepare_clustering_data]. *)
Record PreparedData : Type := {
  features : matrix;
  skills : list string;
  original_data : DataFrame
}.

(** The dictionary returned by [perform_clustering]; [result_df] is its
    entry ['skills']. *)
Record Clusters : Type := {
  result_df : list ClusteredRow;
  cluster_stats : list ClusterStat;
  cluster_labels : labels;
  silhouette_score : Q
}.

(** ** The query of [query_skills_from_athena] *)

(** A row of the result set; a cell is missing where SQL gives NULL. *)
Record QueryRow : Type := {
  q_skill : option string;
  q_employee_count : Z;
  q_avg_proficiency : option Q;
  q_avg_experience : option Q
}.

Definition option_string_dec (a b : option string) : {a = b} + {a <> b}.
Proof. decide equality. apply string_dec. Defined.

Definition same_skill (s : option string) (r : SkillsData.Row) : bool :=
  if option_string_dec (SkillsData.skill r) s then true else false.

(** [SELECT skill, COUNT(DISTINCT employee_id), AVG(proficiency_score),
    AVG(years_experience) FROM skills_data GROUP BY skill]: one row per
    value of [skill] (NULL is a value), in the order of first occurrence
    (SQL leaves the order open); the aggregates skip NULL cells. *)
Definition skills_query (skills_data : list SkillsData.Row) : list QueryRow :=
  map (fun s =>
         let g := filter (same_skill s) skills_data in
         {| q_skill := s;
            q_employee_count :=
              Z.of_nat (length (nodup string_dec (dropna (map SkillsData.employee_id g))));
            q_avg_proficiency := mean_notna (map SkillsData.proficiency_score g);
            q_avg_experience := mean_notna (map SkillsData.years_experience g) |})
      (nodup option_string_dec (map SkillsData.skill skills_data)).

(** ** [prepare_clustering_data] *)

(** [df[features].values] with
    [features = ['employee_count', 'avg_proficiency', 'avg_experience']] *)
Definition feature_values (df : DataFrame) : matrix :=
  map (fun r => [inject_Z (employee_count r); avg_proficiency r; avg_experience r]) df.

Section WithLib.

Variable sk : sklearn.Lib.

Local Open Scope py_scope.

Definition prepare_clustering_data (df : DataFrame) : result PreparedData :=
  let X := feature_values df in
  match StandardScaler.fit_transform (sklearn.np_sqrt sk) X with
  | Ok X_scaled =>
      Ok {| features := X_scaled; skills := map skill df; original_data := df |}
  | Raise e => Raise e
  end.

(** ** [perform_clustering] *)

(** The body of the search loop, for one candidate [k]; the state is
    [(best_k, best_score)]. *)
Definition try_k (X : matrix) (k : nat) (b : nat * Q) : M sk (nat * Q) :=
  let '(best_k, best_score) := b in
  labels <- fit_predict k 42 10 X ;;
  score <- silhouette X labels ;;
  if Qltb best_score score then ret (k, score) else ret (best_k, best_score).

(** [result_df['cluster_id'] = cluster_labels]: pandas refuses a column
    whose length is not the number of rows. *)
Definition with_cluster_id (df : DataFrame) (cluster_labels : labels)
  : result (list ClusteredRow) :=
  if (length cluster_labels =? length df)%nat
  then Ok (map (fun p => {| row := fst p; cluster_id := snd p |}) (combine df cluster_labels))
  else Raise ValueError.

(** One row of [cluster_stats], from one group of [result_df]:
    [{'skill': 'count', 'employee_count': 'sum', 'avg_proficiency': 'mean',
      'avg_experience': 'mean'}] *)
Definition stat_of (g : Z * list ClusteredRow) : ClusterStat :=
  let rows := map row (snd g) in
  {| stats_cluster_id := fst g;
     num_skills := Z.of_nat (length (map skill rows));
     total_employees := sumZ (map employee_count rows);
     avg_cluster_proficiency := meanQ (map avg_proficiency rows);
     avg_cluster_experience := meanQ (map avg_experience rows) |}.

(** [result_df.groupby('cluster_id').agg({...}).reset_index()] *)
Definition cluster_statistics (result_df : list ClusteredRow) : list ClusterStat :=
  map stat_of (groupby (fun r => Some (cluster_id r)) result_df).

Definition perform_clustering (data : PreparedData) : M sk Clusters :=
  let X := features data in
  b <- for_each (range 3 8) (try_k X) (5%nat, (-1)%Q) ;;
  let '(best_k, best_score) := b in
  cluster_labels <- fit_predict best_k 42 10 X ;;
  result_df <- lift (with_cluster_id (original_data data) cluster_labels) ;;
  ret {| result_df := result_df;
         cluster_stats := cluster_statistics result_df;
         cluster_labels := cluster_labels;
         silhouette_score := best_score |}.

(** ** What [store_clustering_results] writes *)

(** The summary object written to [results/clustering_summary_<timestamp>.json]. *)
Record Summary : Type := {
  timestamp : string;
  num_clusters : nat;
  summary_num_skills : nat;
  summary_silhouette_score : Q
}.

(** The three objects put to the bucket. *)
Record Stored : Type := {
  skill_clusters_csv : list ClusteredRow;
  cluster_stats_csv : list ClusterStat;
  clustering_summary_json : Summary
}.

Definition store_clustering_results (now : string) (clusters : Clusters) : Stored :=
  {| skill_clusters_csv := result_df clusters;
     cluster_stats_csv := cluster_stats clusters;
     clustering_summary_json :=
       {| timestamp := now;
          num_clusters := length (cluster_stats clusters);
          summary_num_skills := length (result_df clusters);
          summary_silhouette_score := silhouette_score clusters |} |}.

(** The response of [lambda_handler]. *)
Inductive Response : Type :=
| Status200 (num_clusters : nat) (num_skills : nat)
| Status500 (error : exn).

(** ** The search, candidate by candidate *)

(** A candidate the search has seen: its [k], its labels, its score. *)
Definition candidate : Type := (nat * labels * Q)%type.

Definition cand_k (c : candidate) : nat := fst (fst c).
Definition cand_labels (c : candidate) : labels := snd (fst c).
Definition cand_score (c : candidate) : Q := snd c.

(** What evaluating a candidate leaves in the log. *)
Definition cand_events (c : candidate) : list event :=
  [Fit (cand_k c) (Ok (cand_labels c)); Silhouette (cand_labels c) (Ok (cand_score c))].

(** The candidate is what the library returns on [X]: its labels are those
    of the seeded fit, its score is their silhouette. *)
Definition seen (X : matrix) (c : candidate) : Prop :=
  (exists g,
      fst (sklearn.KMeans_fit_predict sk (cand_k c) (Some 42%Z) 10 X g)
      = Ok (cand_labels c)) /\
  sklearn.silhouette_score sk X (cand_labels c) = Ok (cand_score c).

Definition keep_best : nat * Q -> candidate -> nat * Q :=
  keep cand_score snd (fun c => (cand_k c, cand_score c)).

Lemma fit_predict_ok (k : nat) (X : matrix) (w w' : world sk) (l : labels) :
  fit_predict k 42 10 X w = (Ok l, w') ->
  log w' = log w ++ [Fit k (Ok l)] /\
  fst (sklearn.KMeans_fit_predict sk k (Some 42%Z) 10 X (np_random w)) = Ok l.
Proof.
  unfold fit_predict.
  destruct (sklearn.KMeans_fit_predict sk k (Some 42%Z) 10 X (np_random w)) as [out g].
  intros H. injection H as -> <-. split; reflexivity.
Qed.

Lemma try_k_ok (X : matrix) (k : nat) (b b' : nat * Q) (w w' : world sk) :
  try_k X k b w = (Ok b', w') ->
  exists c, cand_k c = k /\ seen X c /\ b' = keep_best b c /\
            log w' = log w ++ cand_events c.
Proof.
  unfold try_k, bind. destruct b as [best_k best_score].
  destruct (fit_predict k 42 10 X w) as [[l | e] w1] eqn:F; [| discriminate].
  apply fit_predict_ok in F. destruct F as [L1 F].
  unfold silhouette.
  destruct (sklearn.silhouette_score sk X l) as [s | e] eqn:S; [| discriminate].
  intros H. exists (k, l, s).
  split; [reflexivity |]. split; [split; [eexists; exact F | exact S] |].
  unfold keep_best, keep, cand_events, cand_k, cand_labels, cand_score. simpl.
  destruct (Qltb best_score s); unfold ret in H; injection H as <- <-; simpl;
    rewrite L1, <- app_assoc; split; reflexivity.
Qed.

Lemma search_ok (X : matrix) (ks : list nat) (b b' : nat * Q) (w w' : world sk) :
  for_each ks (try_k X) b w = (Ok b', w') ->
  exists cands,
    map cand_k cands = ks /\ Forall (seen X) cands /\
    b' = fold_left keep_best cands b /\
    log w' = log w ++ flat_map cand_events cands.
Proof.
  revert b w. induction ks as [| k ks IH]; intros b w; simpl.
  - unfold ret. intros H. injection H as <- <-. exists [].
    repeat split; auto. simpl. now rewrite app_nil_r.
  - unfold bind. destruct (try_k X k b w) as [[b1 | e] w1] eqn:T; [| discriminate].
    intros H. apply try_k_ok in T. destruct T as (c & Hk & Hseen & Hb1 & Hlog).
    apply IH in H. destruct H as (cands & Hks & Hall & Hb' & Hlog').
    exists (c :: cands). split; [simpl; congruence |].
    split; [constructor; auto |]. split; [simpl; congruence |].
    simpl flat_map. rewrite Hlog', Hlog, <- !app_assoc. reflexivity.
Qed.

(** A run of [perform_clustering] that returns, step by step. *)
Lemma perform_clustering_ok (data : PreparedData) (w w' : world sk) (c : Clusters) :
  perform_clustering data w = (Ok c, w') ->
  exists cands best_k,
    map cand_k cands = range 3 8 /\
    Forall (seen (features data)) cands /\
    (best_k, silhouette_score c) = fold_left keep_best cands (5%nat, (-1)%Q) /\
    log w' = log w ++ flat_map cand_events cands ++ [Fit best_k (Ok (cluster_labels c))] /\
    (exists g,
        fst (sklearn.KMeans_fit_predict sk best_k (Some 42%Z) 10 (features data) g)
        = Ok (cluster_labels c)) /\
    with_cluster_id (original_data data) (cluster_labels c) = Ok (result_df c) /\
    cluster_stats c = cluster_statistics (result_df c).
Proof.
  unfold perform_clustering. unfold bind at 1.
  destruct (for_each (range 3 8) (try_k (features data)) (5%nat, (-1)%Q) w)
    as [[[best_k best_score] | e] w1] eqn:S; [| discriminate].
  apply search_ok in S. destruct S as (cands & Hks & Hall & Hb & Hlog).
  unfold bind at 1.
  destruct (fit_predict best_k 42 10 (features data) w1) as [[l | e] w2] eqn:F;
    [| discriminate].
  apply fit_predict_ok in F. destruct F as [Hlog2 F].
  unfold bind, lift, ret.
  destruct (with_cluster_id (original_data data) l) as [rdf | e] eqn:W; [| discriminate].
  intros H. injection H as <- <-. simpl.
  exists cands, best_k.
  split; [exact Hks |]. split; [exact Hall |]. split; [exact Hb |].
  split; [rewrite Hlog2, Hlog, <- app_assoc; reflexivity |].
  split; [eexists; exact F |]. split; [exact W | reflexivity].
Qed.

(** Under the library's contract for seeds, the outcome of a run does not
    depend on the world it starts in. *)
Lemma perform_clustering_independent (data : PreparedData) :
  sklearn.seeded sk -> world_independent (perform_clustering data).
Proof.
  intros Hs. unfold perform_clustering.
  apply bind_independent.
  - apply for_each_independent. intros k [best_k best_score]. unfold try_k.
    apply bind_independent; [now apply fit_predict_independent |]. intros l.
    apply bind_independent; [apply silhouette_independent |]. intros s.
    destruct (Qltb best_score s); apply ret_independent.
  - intros [best_k best_score].
    apply bind_independent; [now apply fit_predict_independent |]. intros l.
    apply bind_independent; [apply lift_independent |]. intros rdf.
    apply ret_independent.
Qed.

End WithLib.

End Handler.

(* ================================================================== *)
(** * A small executable library *)
(* ================================================================== *)

(** An instance of [sklearn.Lib] that computes, to run the programs on
    concrete tables.  The partition is one assignment step of k-means from
    the first [k] rows as centres (without a seed, from the rows after a
    rotation by the global state, which then advances); the score is the
    silhouette coefficient over squared distances.  Both refuse what the
    library refuses: more clusters than rows, and a number of labels outside
    [2 .. n_samples - 1]. *)
Module StandIn.

Local Open Scope Q_scope.

Definition sqdist (a b : list Q) : Q :=
  Qred (sumQ (map (fun p => Qred ((fst p - snd p) * (fst p - snd p))) (combine a b))).

Definition Qmaxb (a b : Q) : Q := if Qle_bool a b then b else a.

(** The index of the first smallest distance. *)
Fixpoint argmin (i best : Z) (least : Q) (ds : list Q) : Z :=
  match ds with
  | [] => best
  | d :: ds' =>
      if Qltb d least then argmin (i + 1)%Z i d ds' else argmin (i + 1)%Z best least ds'
  end.

Definition nearest (centres : matrix) (x : list Q) : Z :=
  match map (sqdist x) centres with
  | [] => 0%Z
  | d :: ds => argmin 1%Z 0%Z d ds
  end.

Definition rotate (g : nat) (X : matrix) : matrix :=
  let n := (g mod (length X))%nat in skipn n X ++ firstn n X.

Definition KMeans_fit_predict (k : nat) (random_state : option Z) (n_init : nat)
  (X : matrix) (g : nat) : result labels * nat :=
  if (length X <? k)%nat then (Raise ValueError, g)
  else
    match random_state with
    | Some _ => (Ok (map (nearest (firstn k X)) X), g)
    | None => (Ok (map (nearest (firstn k (rotate g X))) X), S g)
    end.

Definition members (X : matrix) (l : labels) (c : Z) : matrix :=
  map snd (filter (fun p => Z.eqb (fst p) c) (combine l X)).

Definition Qmin_list (d : Q) (ds : list Q) : Q :=
  fold_left (fun m x => if Qltb x m then x else m) ds d.

Definition silhouette_sample (X : matrix) (l : labels) (x : list Q) (c : Z) : Q :=
  let own := members X l c in
  if (length own <=? 1)%nat then 0
  else
    let a := Qred (sumQ (map (sqdist x) own) / inject_Z (Z.of_nat (length own - 1))) in
    match map (fun c' => Qred (meanQ (map (sqdist x) (members X l c'))))
              (filter (fun c' => negb (Z.eqb c' c)) (nodup Z.eq_dec l)) with
    | [] => 0
    | d :: ds =>
        let b := Qmin_list d ds in
        if Qeq_bool (Qmaxb a b) 0 then 0 else Qred ((b - a) / Qmaxb a b)
    end.

Definition silhouette_score (X : matrix) (l : labels) : result Q :=
  let n_labels := len_set l in
  if andb (2 <=? n_labels)%nat (n_labels <=? length X - 1)%nat
  then Ok (Qred (meanQ (map (fun p => silhouette_sample X l (snd p) (fst p)) (combine l X))))
  else Raise ValueError.

(** The square root, cut after six decimals. *)
Definition np_sqrt (v : Q) : Q :=
  let n := Qnum v in
  let d := Zpos (Qden v) in
  Qred (Qmake (Z.sqrt (n * d * 1000000 * 1000000)) (Qden v * 1000000)).

Definition TfidfVectorizer_fit_transform (max_features : nat) (docs : list string)
  : result (list string * unit) :=
  match docs with
  | [] => Raise ValueError
  | _ => Ok (firstn max_features docs, tt)
  end.

Definition lib : sklearn.Lib :=
  {| sklearn.np_state := nat;
     sklearn.KMeans_fit_predict := KMeans_fit_predict;
     sklearn.silhouette_score := silhouette_score;
     sklearn.np_sqrt := np_sqrt;
     sklearn.tfidf_matrix := list string;
     sklearn.TfidfVectorizer := unit;
     sklearn.TfidfVectorizer_fit_transform := TfidfVectorizer_fit_transform |}.

(** A fresh process: the global generator in its initial state, nothing
    logged. *)
Definition w0 : world lib := @Build_world lib 0%nat [].

Lemma lib_seeded : sklearn.seeded lib.
Proof.
  intros k s n X g g'. simpl. unfold KMeans_fit_predict.
  destruct (length X <? k)%nat; split; reflexivity.
Qed.

End StandIn.

(* ================================================================== *)
(** * Sample tables *)
(* ================================================================== *)

Module Sample.

Local Open Scope string_scope.

Definition rec (e s : string) (p y : Z) : SkillsData.Row :=
  {| SkillsData.employee_id := Some e;
     SkillsData.skill := Some s;
     SkillsData.proficiency_score := Some p;
     SkillsData.years_experience := Some y |}.

(** Six rows over three skills. *)
Definition skills_data : list SkillsData.Row :=
  [ rec "E1" "PYTHON" 3 5; rec "E2" "SQL" 2 3; rec "E1" "SQL" 4 7;
    rec "E3" "JAVA" 1 1; rec "E2" "PYTHON" 4 9; rec "E3" "PYTHON" 2 2 ]%Z.

Definition feat (s : string) (n : Z) (p e : Q) : Handler.SkillRow :=
  {| Handler.skill := s;
     Handler.employee_count := n;
     Handler.avg_proficiency := p;
     Handler.avg_experience := e |}.

(** A table in which an employee lists a skill twice. *)
Definition skills_repeated : list SkillsData.Row :=
  [ rec "E1" "PYTHON" 3 5; rec "E1" "PYTHON" 4 6; rec "E2" "SQL" 2 3 ]%Z.

(** A table with missing cells: a row without employee and proficiency, a
    row without skill. *)
Definition skills_missing : list SkillsData.Row :=
  [ rec "E1" "PYTHON" 3 5;
    {| SkillsData.employee_id := None;
       SkillsData.skill := Some "PYTHON";
       SkillsData.proficiency_score := None;
       SkillsData.years_experience := Some 2%Z |};
    {| SkillsData.employee_id := Some "E4";
       SkillsData.skill := None;
       SkillsData.proficiency_score := Some 1%Z;
       SkillsData.years_experience := None |} ]%Z.

(** A feature table of nine skills. *)
Definition df : Handler.DataFrame :=
  [ feat "AWS" 7 (2#1) (3#1); feat "DOCKER" 5 (9#5) (5#2); feat "EXCEL" 20 (16#5) (8#1);
    feat "GO" 3 (11#5) (2#1); feat "JAVA" 9 (5#2) (4#1); feat "PYTHON" 12 (3#1) (11#2);
    feat "RUST" 2 (3#2) (1#1); feat "SPARK" 4 (13#5) (7#2); feat "SQL" 15 (14#5) (6#1) ]%Q.

(** The table above, scaled by hand to small numbers: what the search is
    run on in the examples. *)
Definition data : Handler.PreparedData :=
  {| Handler.features :=
       [ [-1#4; -1; -1#2]; [-3#5; -3#2; -3#4]; [2; 3#2; 2];
         [-1; -1#2; -1]; [1#10; 0; 0]; [3#5; 1; 3#4];
         [-6#5; -2; -3#2]; [-4#5; 1#4; -1#4]; [11#10; 1#2; 1] ]%Q;
     Handler.skills := map Handler.skill df;
     Handler.original_data := df |}.

(** Two skills only. *)
Definition data_two_rows : Handler.PreparedData :=
  {| Handler.features := [[-1; -1; -1]; [1; 1; 1]]%Q;
     Handler.skills := ["PYTHON"; "SQL"];
     Handler.original_data := [feat "PYTHON" 12 (3#1) (11#2); feat "SQL" 15 (14#5) (6#1)]%Q |}.

(** Ten scaled rows, for the training script. *)
Definition features10 : matrix :=
  (Handler.features data ++ [[1#2; -1#2; 1#4]%Q])%list.

(** A process in which numpy's global generator has been used and lines
    have been logged before. *)
Definition w1 : world StandIn.lib :=
  @Build_world StandIn.lib 7%nat [PrintBest 4 (1#2)].

(** Nine skills that are alike on every axis. *)
Definition df_constant : Handler.DataFrame :=
  map (fun s => feat s 4 (5#2) (3#1))
      ["AWS"; "DOCKER"; "EXCEL"; "GO"; "JAVA"; "PYTHON"; "RUST"; "SPARK"; "SQL"].

(** A feature table of nine skills whose standard deviations are exact
    (2, 1/2 and 2), so that the scaled features are small fractions. *)
Definition df_round : Handler.DataFrame :=
  [ feat "AWS" 14 (5#2) (5#1); feat "DOCKER" 6 (7#2) (6#1); feat "EXCEL" 11 (3#2) (4#1);
    feat "GO" 9 (5#2) (9#1); feat "JAVA" 11 (11#4) (1#1); feat "PYTHON" 9 (9#4) (5#1);
    feat "RUST" 10 (11#4) (6#1); feat "SPARK" 10 (9#4) (4#1); feat "SQL" 10 (5#2) (5#1) ]%Q.

(** Its feature matrix, unscaled. *)
Definition features_constant : matrix := Handler.feature_values df_constant.

End Sample.

(* ================================================================== *)
(** * Sample runs *)
(* ================================================================== *)

(** The programs run on the sample tables with the executable library, from
    a fresh process. *)
Module Runs.

(** The outcome and the two components of the world after it determine what
    a computation returns. *)
Lemma run_eq (sk : sklearn.Lib) (A : Type) (p : result A * world sk)
  (r : result A) (g : sklearn.np_state sk) (l : list event) :
  fst p = r -> np_random (snd p) = g -> log (snd p) = l ->
  p = (r, {| np_random := g; log := l |}).
Proof. destruct p as [r' [g' l']]. simpl. intros -> -> ->. reflexivity. Qed.

Definition no_clusters : Handler.Clusters :=
  {| Handler.result_df := [];
     Handler.cluster_stats := [];
     Handler.cluster_labels := [];
     Handler.silhouette_score := 0 |}.

(** [perform_clustering] on [Sample.data]. *)
Definition clusters : Handler.Clusters :=
  Eval vm_compute in
    match fst (Handler.perform_clustering Sample.data StandIn.w0) with
    | Ok c => c
    | Raise _ => no_clusters
    end.

Definition log_after : list event :=
  Eval vm_compute in log (snd (Handler.perform_clustering Sample.data StandIn.w0)).

Definition world_after : world StandIn.lib := @Build_world StandIn.lib 0%nat log_after.

Lemma perform_clustering_run :
  Handler.perform_clustering Sample.data StandIn.w0 = (Ok clusters, world_after).
Proof. unfold world_after. apply run_eq; vm_compute; reflexivity. Qed.

(** [train_kmeans] with its default range on [Sample.features10]. *)
Definition trained : TrainClustering.best :=
  Eval vm_compute in
    match fst (TrainClustering.train_kmeans Sample.features10
                 TrainClustering.n_clusters_range_default StandIn.w0) with
    | Ok b => b
    | Raise _ => (None, 0%nat, 0%Q)
    end.

Definition log_trained : list event :=
  Eval vm_compute in
    log (snd (TrainClustering.train_kmeans Sample.features10
                TrainClustering.n_clusters_range_default StandIn.w0)).

Definition world_trained : world StandIn.lib :=
  @Build_world StandIn.lib 0%nat log_trained.

Lemma train_kmeans_run :
  TrainClustering.train_kmeans Sample.features10
    TrainClustering.n_clusters_range_default StandIn.w0
  = (Ok trained, world_trained).
Proof. unfold world_trained. apply run_eq; vm_compute; reflexivity. Qed.

(** [train_kmeans] with its default range on nine rows that are alike. *)
Definition log_constant : list event :=
  Eval vm_compute in
    log (snd (TrainClustering.train_kmeans Sample.features_constant
                TrainClustering.n_clusters_range_default StandIn.w0)).

Definition world_constant : world StandIn.lib :=
  @Build_world StandIn.lib 0%nat log_constant.

Lemma train_kmeans_constant_run :
  TrainClustering.train_kmeans Sample.features_constant
    TrainClustering.n_clusters_range_default StandIn.w0
  = (Ok (None, 5%nat, (-1)%Q), world_constant).
Proof. unfold world_constant. apply run_eq; vm_compute; reflexivity. Qed.

(** On these rows every candidate of the default range gives one cluster. *)
Lemma constant_all_skipped :
  TrainClustering.all_skipped StandIn.lib Sample.features_constant
    TrainClustering.n_clusters_range_default.
Proof.
  intros k g Hin. exists (repeat 0%Z 9).
  change (In k [3; 4; 5; 6; 7; 8; 9]%nat) in Hin. simpl in Hin.
  split; [| vm_compute; lia].
  repeat (destruct Hin as [<- | Hin]; [vm_compute; reflexivity |]).
  contradiction.
Qed.

End Runs.

(* ================================================================== *)
(** * The cluster-count search *)
(* ================================================================== *)

Local Open Scope Q_scope.

(** The events a run has added to the log. *)
Definition added {sk : sklearn.Lib} (w w' : world sk) : list event :=
  skipn (length (log w)) (log w').

Lemma added_app {sk : sklearn.Lib} (w w' : world sk) (evs : list event) :
  log w' = log w ++ evs -> added w w' = evs.
Proof.
  intros E. unfold added. rewrite E, skipn_app, skipn_all, Nat.sub_diag. reflexivity.
Qed.

(** The [k] of every candidate that was fitted and then scored, in order. *)
Fixpoint scored_ks (evs : list event) : list nat :=
  match evs with
  | [] => []
  | Fit k (Ok _) :: rest =>
      match rest with
      | Silhouette _ (Ok _) :: _ => k :: scored_ks rest
      | _ => scored_ks rest
      end
  | _ :: rest => scored_ks rest
  end.

(** Every score in the events is at least [m]. *)
Definition scores_at_least (m : Q) (evs : list event) : bool :=
  forallb (fun e => match e with
                    | Silhouette _ (Ok s) => Qle_bool m s
                    | _ => true
                    end) evs.

(** C1 as the specification words it, for the search of the training
    script called with its defaults: on every matrix of at least two rows it
    returns, having scored exactly the candidates 3 to 7, with one of them as
    the best. *)
Definition claim_C1 (sk : sklearn.Lib) : Prop :=
  forall (X : matrix) (w : world sk),
    (2 <= length X)%nat ->
    exists b w',
      TrainClustering.train_kmeans X TrainClustering.n_clusters_range_default w
      = (Ok b, w') /\
      scored_ks (added w w') = [3; 4; 5; 6; 7]%nat /\
      In (snd (fst b)) [3; 4; 5; 6; 7]%nat.

(** The default range of the training script. *)
Lemma n_clusters_range_default_eq :
  TrainClustering.n_clusters_range_default = [3; 4; 5; 6; 7; 8; 9]%nat.
Proof. reflexivity. Qed.

(** The range of the Lambda. *)
Lemma range_3_8 : range 3 8 = [3; 4; 5; 6; 7]%nat.
Proof. reflexivity. Qed.

Lemma Exists_Forall_le (A : Type) (f : A -> Q) (m : Q) (l : list A) :
  Exists (fun a => m < f a) l -> Forall (fun a => f a <= m) l -> False.
Proof.
  intros E F. apply Exists_exists in E. destruct E as (a & I & L).
  rewrite Forall_forall in F. exact (Qlt_not_le _ _ L (F a I)).
Qed.

(** C1, amended.  A run of the Lambda's [perform_clustering] that returns has
    fitted and scored the candidates 3, 4, 5, 6, 7 in this order, each with
    the labels of its seeded fit and the silhouette of these labels, and then
    fitted the final model; the reported score is at least every score seen;
    when no score exceeds the initial -1 the defaults stand, [best_k = 5] and
    [best_score = -1]; when some score does, the final model is fitted with
    the first candidate that attains the highest score.  A run of the training
    script's [train_kmeans] that returns has done the same over its range
    argument (by default 3 to 9), scoring exactly the candidates whose labels
    take more than one value; when no score exceeds -1 it returns no model,
    [best_k = 5] and [best_score = -1]. *)
Theorem search_keeps_first_best
  (sk : sklearn.Lib)
  (data : Handler.PreparedData) (w w' : world sk) (c : Handler.Clusters)
  (X : matrix) (ks : list nat) (v v' : world sk) (b : TrainClustering.best) :
  Handler.perform_clustering data w = (Ok c, w') ->
  TrainClustering.train_kmeans X ks v = (Ok b, v') ->
  (exists cands best_k,
      map Handler.cand_k cands = [3; 4; 5; 6; 7]%nat /\
      Forall (Handler.seen sk (Handler.features data)) cands /\
      added w w' = flat_map Handler.cand_events cands
                   ++ [Fit best_k (Ok (Handler.cluster_labels c))] /\
      Forall (fun c' => Handler.cand_score c' <= Handler.silhouette_score c) cands /\
      (Forall (fun c' => Handler.cand_score c' <= -1) cands ->
       best_k = 5%nat /\ Handler.silhouette_score c = -1) /\
      (Exists (fun c' => -1 < Handler.cand_score c') cands ->
       exists pre b0 post,
         cands = pre ++ b0 :: post /\
         Handler.cand_k b0 = best_k /\
         Handler.cand_score b0 = Handler.silhouette_score c /\
         Forall (fun c' => Handler.cand_score c' < Handler.cand_score b0) pre))
  /\
  (exists cands,
      map TrainClustering.cand_k cands = ks /\
      Forall (TrainClustering.seen sk X) cands /\
      added v v' = flat_map TrainClustering.cand_events cands
                   ++ [PrintBest (snd (fst b)) (snd b)] /\
      Forall (fun c' => snd c' <= snd b) (TrainClustering.scored cands) /\
      (Forall (fun c' => snd c' <= -1) (TrainClustering.scored cands) ->
       b = (None, 5%nat, -1)) /\
      (Exists (fun c' => -1 < snd c') (TrainClustering.scored cands) ->
       exists pre b0 post,
         TrainClustering.scored cands = pre ++ b0 :: post /\
         b = TrainClustering.take_scored b0 /\
         Forall (fun c' => snd c' < snd b0) pre)).
Proof.
  intros Hrun Htrain. split.
  - apply Handler.perform_clustering_ok in Hrun.
    destruct Hrun as (cands & best_k & Hks & Hseen & Hb & Hlog & _).
    exists cands, best_k. split; [exact Hks |]. split; [exact Hseen |].
    split; [apply added_app; exact Hlog |].
    pose proof (@keep_spec _ _ Handler.cand_score snd
                  (fun c0 => (Handler.cand_k c0, Handler.cand_score c0))
                  (fun c0 => eq_refl) cands (5%nat, -1)) as K.
    simpl in K. fold Handler.keep_best in K. rewrite <- Hb in K. simpl in K.
    destruct K as (_ & Hall & Hcase). split; [exact Hall |]. split.
    + intros Hlow.
      destruct Hcase as [[Hdef _] | (pre & b0 & post & Hc & _ & _ & Hlt)].
      * injection Hdef as -> ->. split; reflexivity.
      * exfalso. rewrite Forall_forall in Hlow.
        apply (Qlt_not_le _ _ Hlt). apply Hlow.
        rewrite Hc. apply in_or_app. right. now left.
    + intros Hex.
      destruct Hcase as [[_ Hle] | (pre & b0 & post & Hc & Hbest & Hpre & _)].
      * exfalso. exact (@Exists_Forall_le _ Handler.cand_score _ _ Hex Hle).
      * exists pre, b0, post. injection Hbest as -> ->. repeat split; auto.
  - apply TrainClustering.train_kmeans_ok in Htrain.
    destruct Htrain as (cands & Hks & Hseen & Hb & Hlog).
    exists cands. split; [exact Hks |]. split; [exact Hseen |].
    split; [apply added_app; exact Hlog |].
    pose proof (@keep_spec _ _ (@snd (nat * labels) Q) TrainClustering.best_score_of
                  TrainClustering.take_scored (fun c0 => eq_refl)
                  (TrainClustering.scored cands) (None, 5%nat, -1)) as K.
    simpl in K. fold TrainClustering.keep_best in K. rewrite <- Hb in K.
    unfold TrainClustering.best_score_of in K. simpl in K.
    destruct K as (_ & Hall & Hcase). split; [exact Hall |]. split.
    + intros Hlow.
      destruct Hcase as [[Hdef _] | (pre & b0 & post & Hc & _ & _ & Hlt)].
      * exact Hdef.
      * exfalso. rewrite Forall_forall in Hlow.
        apply (Qlt_not_le _ _ Hlt). apply Hlow.
        rewrite Hc. apply in_or_app. right. now left.
    + intros Hex.
      destruct Hcase as [[_ Hle] | (pre & b0 & post & Hc & Hbest & Hpre & _)].
      * exfalso. exact (@Exists_Forall_le _ (@snd _ Q) _ _ Hex Hle).
      * exists pre, b0, post. repeat split; auto.
Qed.

Lemma search_keeps_first_best_witness :
  Handler.perform_clustering Sample.data StandIn.w0
  = (Ok Runs.clusters, Runs.world_after) /\
  TrainClustering.train_kmeans Sample.features10
    TrainClustering.n_clusters_range_default StandIn.w0
  = (Ok Runs.trained, Runs.world_trained) /\
  exists cands best_k,
    map Handler.cand_k cands = [3; 4; 5; 6; 7]%nat /\
    Forall (Handler.seen StandIn.lib (Handler.features Sample.data)) cands /\
    added StandIn.w0 Runs.world_after
    = flat_map Handler.cand_events cands
      ++ [Fit best_k (Ok (Handler.cluster_labels Runs.clusters))].
Proof.
  split; [exact Runs.perform_clustering_run |].
  split; [exact Runs.train_kmeans_run |].
  destruct (search_keeps_first_best Sample.data StandIn.w0 Sample.features10
              TrainClustering.n_clusters_range_default StandIn.w0
              Runs.perform_clustering_run Runs.train_kmeans_run)
    as [(cands & best_k & H1 & H2 & H3 & _) _].
  exists cands, best_k. split; [exact H1 |]. split; [exact H2 | exact H3].
Defined.

(** C1 as worded fails: called with its defaults on ten rows, the search of
    the training script scores the candidates 3 to 9, not 3 to 7. *)
Lemma claim_C1_fails : ~ claim_C1 StandIn.lib.
Proof.
  intros H.
  destruct (H Sample.features10 StandIn.w0) as (b & w' & Hrun & Hks & _).
  - simpl. lia.
  - rewrite Runs.train_kmeans_run in Hrun. injection Hrun as <- <-.
    vm_compute in Hks. discriminate.
Qed.

(** Two rows are not enough for the Lambda's search either: the fit of the
    first candidate, three clusters, is refused. *)
Lemma perform_clustering_two_rows :
  fst (Handler.perform_clustering Sample.data_two_rows StandIn.w0) = Raise ValueError /\
  log (snd (Handler.perform_clustering Sample.data_two_rows StandIn.w0))
  = [Fit 3 (Raise ValueError)].
Proof. split; vm_compute; reflexivity. Qed.

(* ================================================================== *)
(** * Candidates that cannot be scored *)
(* ================================================================== *)

(** A fit that returned. *)
Definition is_fit (e : event) : Prop :=
  match e with
  | Fit _ (Ok _) => True
  | _ => False
  end.

(** C3 as the specification words it, for the search of the training
    script: when every candidate of the range is skipped, the search fails. *)
Definition claim_C3 (sk : sklearn.Lib) : Prop :=
  forall (X : matrix) (ks : list nat) (w : world sk),
    TrainClustering.all_skipped sk X ks ->
    exists e w', TrainClustering.train_kmeans X ks w = (Raise e, w').

(** Whatever its outcome, [train_kmeans] asks for a score only on labels
    with more than one value. *)
Lemma train_kmeans_scores_two (sk : sklearn.Lib) (X : matrix) (ks : list nat)
  (w w' : world sk) (r : result TrainClustering.best) :
  TrainClustering.train_kmeans X ks w = (r, w') ->
  Forall TrainClustering.scored_on_two (added w w').
Proof.
  unfold TrainClustering.train_kmeans. unfold bind at 1.
  destruct (for_each ks (TrainClustering.try_k X) (None, 5%nat, -1) w)
    as [[b1 | e] w1] eqn:S;
    apply TrainClustering.search_scores_two in S; destruct S as (evs & L & F).
  - unfold bind, emit, ret. intros H. injection H as <- <-.
    assert (E : added w {| np_random := np_random w1;
                           log := log w1 ++ [PrintBest (snd (fst b1)) (snd b1)] |}
                = evs ++ [PrintBest (snd (fst b1)) (snd b1)]).
    { apply added_app. simpl. rewrite L, app_assoc. reflexivity. }
    rewrite E. apply Forall_app. split; [exact F |]. repeat constructor.
  - intros H. injection H as <- <-.
    rewrite (added_app _ _ _ L). exact F.
Qed.

(** When every candidate is skipped, [train_kmeans] returns its initial
    state and prints it; the log holds the fits and that line. *)
Lemma train_kmeans_all_skipped (sk : sklearn.Lib) (X : matrix) (ks : list nat)
  (w : world sk) :
  TrainClustering.all_skipped sk X ks ->
  exists w' fits,
    TrainClustering.train_kmeans X ks w = (Ok (None, 5%nat, -1), w') /\
    added w w' = fits ++ [PrintBest 5 (-1)] /\ Forall is_fit fits.
Proof.
  intros H.
  destruct (TrainClustering.search_all_skipped X ks (None, 5%nat, -1) w H)
    as (w1 & R & F).
  destruct (TrainClustering.search_scores_two _ _ _ _ R) as (evs & L & _).
  rewrite L, skipn_app, skipn_all, Nat.sub_diag in F. simpl in F.
  exists {| np_random := np_random w1; log := log w1 ++ [PrintBest 5 (-1)] |}, evs.
  split; [| split].
  - unfold TrainClustering.train_kmeans, bind. rewrite R. reflexivity.
  - apply added_app. simpl. rewrite L, app_assoc. reflexivity.
  - exact F.
Qed.

(** The Lambda's search has no such guard: when the labels of its first
    candidate cannot be scored, the exception of [silhouette_score] ends the
    run. *)
Lemma first_candidate_unscorable (sk : sklearn.Lib) (data : Handler.PreparedData)
  (w : world sk) (l : labels) (e : exn) :
  fst (sklearn.KMeans_fit_predict sk 3 (Some 42%Z) 10 (Handler.features data)
         (np_random w)) = Ok l ->
  sklearn.silhouette_score sk (Handler.features data) l = Raise e ->
  fst (Handler.perform_clustering data w) = Raise e.
Proof.
  intros F S. unfold Handler.perform_clustering.
  change (range 3 8) with [3; 4; 5; 6; 7]%nat.
  unfold bind at 1. simpl for_each. unfold bind at 1.
  unfold Handler.try_k at 1. unfold bind at 1. unfold fit_predict at 1.
  destruct (sklearn.KMeans_fit_predict sk 3 (Some 42%Z) 10 (Handler.features data)
              (np_random w)) as [out g].
  simpl in F. subst out. unfold bind at 1. unfold silhouette at 1.
  rewrite S. reflexivity.
Qed.

(** How a candidate of the Lambda's search ends the run: its fit raises, or
    its fit returns labels whose score raises.  The events are those of the
    candidate, and the exception is that of the library. *)
Definition raises_at (sk : sklearn.Lib) (X : matrix) (k : nat) (e : exn)
  (evs : list event) : Prop :=
  (evs = [Fit k (Raise e)] /\
   exists g, fst (sklearn.KMeans_fit_predict sk k (Some 42%Z) 10 X g) = Raise e) \/
  (exists l,
      evs = [Fit k (Ok l); Silhouette l (Raise e)] /\
      (exists g, fst (sklearn.KMeans_fit_predict sk k (Some 42%Z) 10 X g) = Ok l) /\
      sklearn.silhouette_score sk X l = Raise e).

Lemma lambda_candidate_raises (sk : sklearn.Lib) (X : matrix) (k : nat) (b : nat * Q)
  (w w' : world sk) (e : exn) :
  Handler.try_k X k b w = (Raise e, w') ->
  exists evs, log w' = log w ++ evs /\ raises_at sk X k e evs.
Proof.
  unfold Handler.try_k, bind. destruct b as [best_k best_score].
  destruct (fit_predict k 42 10 X w) as [[l | e1] w1] eqn:F;
    apply TrainClustering.fit_predict_run in F; destruct F as [L1 F].
  - unfold silhouette.
    destruct (sklearn.silhouette_score sk X l) as [s | e2] eqn:S; simpl.
    + destruct (Qltb best_score s); discriminate.
    + intros H. injection H as <- <-. simpl.
      exists [Fit k (Ok l); Silhouette l (Raise e2)].
      split; [rewrite L1, <- app_assoc; reflexivity |]. right. exists l.
      split; [reflexivity |]. split; [eexists; exact F | exact S].
  - intros H. injection H as <- <-.
    exists [Fit k (Raise e1)]. split; [exact L1 |]. left.
    split; [reflexivity | eexists; exact F].
Qed.

Lemma lambda_search_raises (sk : sklearn.Lib) (X : matrix) (ks : list nat)
  (b : nat * Q) (w w' : world sk) (e : exn) :
  for_each ks (Handler.try_k X) b w = (Raise e, w') ->
  exists cands k rest evs,
    ks = map Handler.cand_k cands ++ k :: rest /\
    Forall (Handler.seen sk X) cands /\
    log w' = log w ++ flat_map Handler.cand_events cands ++ evs /\
    raises_at sk X k e evs.
Proof.
  revert b w. induction ks as [| k ks IH]; intros b w; simpl.
  - discriminate.
  - unfold bind. destruct (Handler.try_k X k b w) as [[b1 | e1] w1] eqn:T.
    + intros H. apply Handler.try_k_ok in T.
      destruct T as (c & Hk & Hseen & _ & Hlog).
      apply IH in H.
      destruct H as (cands & k' & rest & evs & Hks & Hall & Hlog' & Hf).
      exists (c :: cands), k', rest, evs.
      split; [simpl; congruence |]. split; [constructor; assumption |].
      split; [| exact Hf].
      change (flat_map Handler.cand_events (c :: cands))
        with (Handler.cand_events c ++ flat_map Handler.cand_events cands).
      rewrite Hlog', Hlog, <- !app_assoc. reflexivity.
    + intros H. injection H as <- <-. apply lambda_candidate_raises in T.
      destruct T as (evs & Hlog & Hf).
      exists [], k, ks, evs. split; [reflexivity |]. split; [constructor |].
      split; [exact Hlog | exact Hf].
Qed.

(** The Lambda's search scores every candidate it fits, whatever its labels,
    and stops at the first call that raises. *)
Lemma perform_clustering_scores_all (sk : sklearn.Lib) (data : Handler.PreparedData)
  (v v' : world sk) (r : result Handler.Clusters) :
  Handler.perform_clustering data v = (r, v') ->
  exists cands tail,
    Forall (Handler.seen sk (Handler.features data)) cands /\
    added v v' = flat_map Handler.cand_events cands ++ tail /\
    ((map Handler.cand_k cands = [3; 4; 5; 6; 7]%nat /\
      exists k out, tail = [Fit k out] /\ forall e, out = Raise e -> r = Raise e) \/
     (exists k rest e,
         [3; 4; 5; 6; 7]%nat = map Handler.cand_k cands ++ k :: rest /\
         raises_at sk (Handler.features data) k e tail /\
         r = Raise e)).
Proof.
  unfold Handler.perform_clustering. unfold bind at 1.
  change (range 3 8) with [3; 4; 5; 6; 7]%nat.
  destruct (for_each [3; 4; 5; 6; 7]%nat (Handler.try_k (Handler.features data))
              (5%nat, -1) v) as [[[best_k best_score] | e1] v1] eqn:S.
  - apply Handler.search_ok in S. destruct S as (cands & Hks & Hseen & _ & Hlog).
    unfold bind at 1.
    destruct (fit_predict best_k 42 10 (Handler.features data) v1)
      as [out v2] eqn:F.
    apply TrainClustering.fit_predict_run in F. destruct F as [Hlog2 _].
    assert (Hadd : added v v2 = flat_map Handler.cand_events cands ++ [Fit best_k out])
      by (apply added_app; rewrite Hlog2, Hlog, <- app_assoc; reflexivity).
    destruct out as [l | e2].
    + unfold bind, lift, ret.
      destruct (Handler.with_cluster_id (Handler.original_data data) l);
        intros H; injection H as <- <-;
        exists cands, [Fit best_k (Ok l)];
        (split; [exact Hseen |]); (split; [exact Hadd |]);
        left; (split; [exact Hks |]); exists best_k, (Ok l);
        (split; [reflexivity | discriminate]).
    + intros H. injection H as <- <-.
      exists cands, [Fit best_k (Raise e2)].
      split; [exact Hseen |]. split; [exact Hadd |].
      left. split; [exact Hks |]. exists best_k, (Raise e2).
      split; [reflexivity |]. intros e E. injection E as ->. reflexivity.
  - intros H. injection H as <- <-. apply lambda_search_raises in S.
    destruct S as (cands & k & rest & evs & Hks & Hseen & Hlog & Hf).
    exists cands, evs. split; [exact Hseen |].
    split; [apply added_app; exact Hlog |].
    right. exists k, rest, e1. split; [exact Hks |]. split; [exact Hf | reflexivity].
Qed.

(** C3, amended.  In any run of [train_kmeans], whatever its outcome, a score
    is asked for only on labels with more than one value.  When every
    candidate of the range is skipped the search does not fail: it returns
    its initial state, no model, [best_k = 5] and [best_score = -1], having
    logged the fits and the closing line.  The Lambda's [perform_clustering]
    skips nothing.  In any run of it, whatever its outcome, every candidate
    fitted before the run ended was scored on the labels of its fit,
    whatever their number; either all of 3, 4, 5, 6, 7 were, and the final
    fit followed (its exception, if any, being the outcome), or the run
    ended at the first candidate whose fit or whose [silhouette_score]
    raised, with that exception as its outcome and no later candidate
    tried. *)
Theorem all_skipped_returns_default
  (sk : sklearn.Lib) (X : matrix) (ks : list nat) (w w' : world sk)
  (r : result TrainClustering.best)
  (data : Handler.PreparedData) (v v' : world sk) (r2 : result Handler.Clusters) :
  TrainClustering.train_kmeans X ks w = (r, w') ->
  Handler.perform_clustering data v = (r2, v') ->
  Forall TrainClustering.scored_on_two (added w w') /\
  (TrainClustering.all_skipped sk X ks ->
   r = Ok (None, 5%nat, -1) /\
   exists fits, added w w' = fits ++ [PrintBest 5 (-1)] /\ Forall is_fit fits) /\
  (exists cands tail,
      Forall (Handler.seen sk (Handler.features data)) cands /\
      added v v' = flat_map Handler.cand_events cands ++ tail /\
      ((map Handler.cand_k cands = [3; 4; 5; 6; 7]%nat /\
        exists k out, tail = [Fit k out] /\ forall e, out = Raise e -> r2 = Raise e) \/
       (exists k rest e,
           [3; 4; 5; 6; 7]%nat = map Handler.cand_k cands ++ k :: rest /\
           raises_at sk (Handler.features data) k e tail /\
           r2 = Raise e))).
Proof.
  intros Hrun Hlambda.
  split; [exact (train_kmeans_scores_two _ _ _ Hrun) |]. split.
  - intros Hskip.
    destruct (train_kmeans_all_skipped w Hskip) as (w1 & fits & R & A & F).
    rewrite R in Hrun. injection Hrun as <- <-.
    split; [reflexivity |]. exists fits. split; assumption.
  - exact (perform_clustering_scores_all _ _ Hlambda).
Qed.

Lemma all_skipped_returns_default_witness :
  TrainClustering.train_kmeans Sample.features_constant
    TrainClustering.n_clusters_range_default StandIn.w0
  = (Ok (None, 5%nat, -1), Runs.world_constant) /\
  Handler.perform_clustering Sample.data StandIn.w0
  = (Ok Runs.clusters, Runs.world_after) /\
  TrainClustering.all_skipped StandIn.lib Sample.features_constant
    TrainClustering.n_clusters_range_default /\
  Forall TrainClustering.scored_on_two (added StandIn.w0 Runs.world_constant).
Proof.
  split; [exact Runs.train_kmeans_constant_run |].
  split; [exact Runs.perform_clustering_run |].
  split; [exact Runs.constant_all_skipped |].
  exact (proj1 (all_skipped_returns_default _ _ _ Sample.data StandIn.w0
                  Runs.train_kmeans_constant_run Runs.perform_clustering_run)).
Defined.

(** C3 as worded fails: on nine rows that are alike every candidate of the
    default range is skipped, and the search returns. *)
Lemma claim_C3_fails : ~ claim_C3 StandIn.lib.
Proof.
  intros H.
  destruct (H Sample.features_constant TrainClustering.n_clusters_range_default
              StandIn.w0 Runs.constant_all_skipped) as (e & w' & Hrun).
  rewrite Runs.train_kmeans_constant_run in Hrun. discriminate.
Qed.

(* ================================================================== *)
(** * Determinism of the search *)
(* ================================================================== *)

(** C6.  With a library that honours an integer [random_state], two runs on
    the same input give the same outcome, whatever the state of numpy's
    global generator and whatever was logged before: the Lambda's
    [perform_clustering] returns the same labels, tables and score (or raises
    the same exception), and [train_kmeans] over the same range the same
    model, [best_k] and [best_score]. *)
Theorem search_is_deterministic
  (sk : sklearn.Lib) (data : Handler.PreparedData) (X : matrix) (ks : list nat)
  (w1 w2 : world sk) :
  sklearn.seeded sk ->
  fst (Handler.perform_clustering data w1) = fst (Handler.perform_clustering data w2) /\
  fst (TrainClustering.train_kmeans X ks w1) = fst (TrainClustering.train_kmeans X ks w2).
Proof.
  intros Hs. split.
  - exact (Handler.perform_clustering_independent data Hs w1 w2).
  - exact (TrainClustering.train_kmeans_independent X ks Hs w1 w2).
Qed.

Lemma search_is_deterministic_witness :
  sklearn.seeded StandIn.lib /\
  fst (Handler.perform_clustering Sample.data StandIn.w0)
  = fst (Handler.perform_clustering Sample.data Sample.w1) /\
  fst (TrainClustering.train_kmeans Sample.features10
         TrainClustering.n_clusters_range_default StandIn.w0)
  = fst (TrainClustering.train_kmeans Sample.features10
           TrainClustering.n_clusters_range_default Sample.w1).
Proof.
  split; [exact StandIn.lib_seeded |].
  exact (search_is_deterministic Sample.data Sample.features10
           TrainClustering.n_clusters_range_default StandIn.w0 Sample.w1
           StandIn.lib_seeded).
Defined.

(* ================================================================== *)
(** * The final fit *)
(* ================================================================== *)

(** The column [cluster_id] of [result_df] is the label vector, and the
    other columns are those of [df]. *)
Lemma with_cluster_id_columns (df : Handler.DataFrame) (l : labels)
  (rdf : list Handler.ClusteredRow) :
  Handler.with_cluster_id df l = Ok rdf ->
  map Handler.cluster_id rdf = l /\ map Handler.row rdf = df.
Proof.
  unfold Handler.with_cluster_id.
  destruct (length l =? length df)%nat eqn:E; [| discriminate].
  apply Nat.eqb_eq in E. intros H. injection H as <-.
  rewrite !map_map. simpl. split.
  - clear - E. revert l E. induction df as [| r df IH]; intros [| z l] E;
      simpl in *; try discriminate; auto.
    f_equal. apply IH. lia.
  - clear - E. revert l E. induction df as [| r df IH]; intros [| z l] E;
      simpl in *; try discriminate; auto.
    f_equal. apply IH. lia.
Qed.

Lemma scores_at_least_app (m : Q) (l1 l2 : list event) :
  scores_at_least m (l1 ++ l2) = scores_at_least m l1 && scores_at_least m l2.
Proof. unfold scores_at_least. apply forallb_app. Qed.

(** The scores of the candidates are those of the log. *)
Lemma scores_at_least_cands (m : Q) (cands : list Handler.candidate) :
  scores_at_least m (flat_map Handler.cand_events cands) = true ->
  Forall (fun c => m <= Handler.cand_score c) cands.
Proof.
  induction cands as [| c cands IH]; simpl; intros H; constructor.
  - apply andb_prop in H. destruct H as [H _]. now apply Qle_bool_iff.
  - apply IH. apply andb_prop in H. exact (proj2 H).
Qed.

(** C10.  With a library that honours an integer [random_state] and scores no
    partition below -1, a run of [perform_clustering] that returns has fitted
    the final model with the [k] of a candidate of the search whose score is
    the highest seen; the final labels are the labels of that candidate, the
    reported [silhouette_score] is its score and is the silhouette of the
    final labels; the labels are the column [cluster_id] of the stored table,
    and the summary written by [store_clustering_results] carries that
    score. *)
Theorem final_labels_are_best
  (sk : sklearn.Lib) (data : Handler.PreparedData) (w w' : world sk)
  (c : Handler.Clusters) (now : string) :
  sklearn.seeded sk ->
  Handler.perform_clustering data w = (Ok c, w') ->
  scores_at_least (-1) (added w w') = true ->
  exists cands b0,
    map Handler.cand_k cands = [3; 4; 5; 6; 7]%nat /\
    added w w' = flat_map Handler.cand_events cands
                 ++ [Fit (Handler.cand_k b0) (Ok (Handler.cluster_labels c))] /\
    In b0 cands /\
    Handler.cand_labels b0 = Handler.cluster_labels c /\
    Handler.cand_score b0 == Handler.silhouette_score c /\
    Forall (fun c' => Handler.cand_score c' <= Handler.cand_score b0) cands /\
    sklearn.silhouette_score sk (Handler.features data) (Handler.cluster_labels c)
    = Ok (Handler.cand_score b0) /\
    map Handler.cluster_id (Handler.result_df c) = Handler.cluster_labels c /\
    Handler.skill_clusters_csv (Handler.store_clustering_results now c)
    = Handler.result_df c /\
    Handler.summary_silhouette_score
      (Handler.clustering_summary_json (Handler.store_clustering_results now c))
    = Handler.silhouette_score c.
Proof.
  intros Hs Hrun Hlow.
  apply Handler.perform_clustering_ok in Hrun.
  destruct Hrun as (cands & best_k & Hks & Hseen & Hb & Hlog & (g & Hfit) & Hdf & _).
  change (range 3 8) with [3; 4; 5; 6; 7]%nat in Hks.
  assert (Hadd : added w w' = flat_map Handler.cand_events cands
                              ++ [Fit best_k (Ok (Handler.cluster_labels c))])
    by (apply added_app; exact Hlog).
  rewrite Hadd, scores_at_least_app in Hlow. apply andb_prop in Hlow.
  destruct Hlow as [Hlow _]. apply scores_at_least_cands in Hlow.
  pose proof (@keep_spec _ _ Handler.cand_score snd
                (fun c0 => (Handler.cand_k c0, Handler.cand_score c0))
                (fun c0 => eq_refl) cands (5%nat, -1)) as K.
  simpl in K. fold Handler.keep_best in K. rewrite <- Hb in K. simpl in K.
  destruct K as (_ & Hall & Hcase).
  (* the candidate whose [k] is [best_k] and whose score is the reported one *)
  assert (Hb0 : exists b0, In b0 cands /\ Handler.cand_k b0 = best_k /\
                           Handler.cand_score b0 == Handler.silhouette_score c).
  { destruct Hcase as [[Hdef Hle] | (pre & b0 & post & Hc & Hbest & _ & _)].
    - injection Hdef as -> Hsc.
      destruct cands as [| c3 [| c4 [| c5 cands']]]; try discriminate.
      injection Hks as _ _ H5 _.
      exists c5. split; [simpl; auto |]. split; [exact H5 |].
      rewrite Hsc. apply Qle_antisym.
      + rewrite Forall_forall in Hle. apply Hle. simpl. auto.
      + rewrite Forall_forall in Hlow. apply Hlow. simpl. auto.
    - exists b0. injection Hbest as -> ->.
      split; [rewrite Hc; apply in_or_app; right; now left |].
      split; [reflexivity | apply Qeq_refl]. }
  destruct Hb0 as (b0 & Hin & Hk & Hsc).
  rewrite Forall_forall in Hseen. destruct (Hseen b0 Hin) as [(g0 & Hfit0) Hsil].
  assert (Hlab : Handler.cand_labels b0 = Handler.cluster_labels c).
  { destruct (Hs best_k 42%Z 10%nat (Handler.features data) g0 g) as [E _].
    rewrite Hk in Hfit0. rewrite Hfit0, Hfit in E. now injection E. }
  exists cands, b0.
  split; [exact Hks |]. split; [rewrite Hk; exact Hadd |].
  split; [exact Hin |]. split; [exact Hlab |]. split; [exact Hsc |].
  split.
  { rewrite Forall_forall in Hall |- *. intros c' Hc'.
    eapply Qle_trans; [exact (Hall c' Hc') |]. rewrite Hsc. apply Qle_refl. }
  split; [rewrite <- Hlab; exact Hsil |].
  split; [exact (proj1 (with_cluster_id_columns _ _ Hdf)) |].
  split; reflexivity.
Qed.

Lemma final_labels_are_best_witness :
  sklearn.seeded StandIn.lib /\
  Handler.perform_clustering Sample.data StandIn.w0
  = (Ok Runs.clusters, Runs.world_after) /\
  scores_at_least (-1) (added StandIn.w0 Runs.world_after) = true /\
  exists cands b0,
    In b0 cands /\
    Handler.cand_labels b0 = Handler.cluster_labels Runs.clusters /\
    Handler.cand_score b0 == Handler.silhouette_score Runs.clusters.
Proof.
  assert (Hlow : scores_at_least (-1) (added StandIn.w0 Runs.world_after) = true)
    by (vm_compute; reflexivity).
  split; [exact StandIn.lib_seeded |].
  split; [exact Runs.perform_clustering_run |].
  split; [exact Hlow |].
  destruct (final_labels_are_best Sample.data StandIn.w0 EmptyString
              StandIn.lib_seeded Runs.perform_clustering_run Hlow)
    as (cands & b0 & _ & _ & Hin & Hlab & Hsc & _).
  exists cands, b0. split; [exact Hin |]. split; [exact Hlab | exact Hsc].
Defined.

(* ================================================================== *)
(** * The cluster statistics *)
(* ================================================================== *)

Section GroupSizes.

Context {K : Type} `{KO : KeyOrder K} {R : Type}.

(** The number of rows held by the groups. *)
Definition total_rows (gs : list (K * list R)) : nat := length (concat (map snd gs)).

Lemma insert_group_total (k : K) (r : R) (gs : list (K * list R)) :
  total_rows (insert_group k r gs) = S (total_rows gs).
Proof.
  unfold total_rows. induction gs as [| [k' rs] gs IH]; simpl; auto.
  destruct (kcmp k k'); simpl.
  - rewrite !length_app. simpl. lia.
  - reflexivity.
  - rewrite !length_app in *. rewrite IH. lia.
Qed.

(** When every row has a key, no row is lost by the grouping. *)
Lemma fold_group_total (key : R -> option K) (rows : list R) (gs : list (K * list R)) :
  (forall r, In r rows -> key r <> None) ->
  total_rows (fold_left (group_step key) rows gs) = (total_rows gs + length rows)%nat.
Proof.
  revert gs. induction rows as [| r rows IH]; intros gs H; simpl.
  - lia.
  - rewrite IH by (intros; apply H; now right).
    unfold group_step. destruct (key r) eqn:E.
    + rewrite insert_group_total. lia.
    + exfalso. apply (H r); auto. now left.
Qed.

Lemma groupby_total (key : R -> option K) (rows : list R) :
  (forall r, In r rows -> key r <> None) ->
  total_rows (groupby key rows) = length rows.
Proof. intros H. unfold groupby. rewrite fold_group_total by assumption. reflexivity. Qed.

End GroupSizes.

(** The rows of [result_df] assigned to cluster [i]. *)
Definition in_cluster (i : Z) (r : Handler.ClusteredRow) : bool :=
  Z.eqb (Handler.cluster_id r) i.

Lemma has_key_in_cluster (i : Z) (r : Handler.ClusteredRow) :
  has_key (fun r => Some (Handler.cluster_id r)) i r = in_cluster i r.
Proof.
  unfold has_key, in_cluster.
  destruct (Z.eqb_spec (Handler.cluster_id r) i) as [E | N].
  - apply keqb_eq. auto.
  - apply keqb_neq. auto.
Qed.

(** The cluster ids of the statistics are the keys of the grouping. *)
Lemma cluster_statistics_ids (rdf : list Handler.ClusteredRow) :
  map Handler.stats_cluster_id (Handler.cluster_statistics rdf)
  = group_keys (fun r => Some (Handler.cluster_id r)) rdf.
Proof.
  unfold Handler.cluster_statistics, group_keys. rewrite map_map. reflexivity.
Qed.

(** C7.  [cluster_stats] has one row per cluster id occurring in
    [result_df], in increasing order of the id; in the row of cluster [i],
    [num_skills] is the number of skills assigned to [i], [total_employees]
    the sum of their [employee_count], and the two averages are the plain
    means of their [avg_proficiency] and [avg_experience], one term per
    skill. *)
Theorem cluster_statistics_spec (rdf : list Handler.ClusteredRow) :
  exists ids,
    NoDup ids /\
    StronglySorted Z.lt ids /\
    (forall i, In i ids <-> In i (map Handler.cluster_id rdf)) /\
    Handler.cluster_statistics rdf =
    map (fun i =>
           let members := map Handler.row (filter (in_cluster i) rdf) in
           {| Handler.stats_cluster_id := i;
              Handler.num_skills := Z.of_nat (length members);
              Handler.total_employees := sumZ (map Handler.employee_count members);
              Handler.avg_cluster_proficiency :=
                meanQ (map Handler.avg_proficiency members);
              Handler.avg_cluster_experience :=
                meanQ (map Handler.avg_experience members) |}) ids.
Proof.
  exists (group_keys (fun r => Some (Handler.cluster_id r)) rdf).
  split; [apply group_keys_NoDup |].
  split; [exact (group_keys_sorted (fun r => Some (Handler.cluster_id r)) rdf) |].
  split.
  - intros i. rewrite group_keys_In, in_map_iff. split.
    + intros (r & I & E). exists r. split; [congruence | exact I].
    + intros (r & E & I). exists r. split; [exact I | congruence].
  - unfold Handler.cluster_statistics. rewrite groupby_spec, map_map.
    apply map_ext. intros i. unfold Handler.stat_of. simpl.
    rewrite (filter_ext _ _ (has_key_in_cluster i)), length_map. reflexivity.
Qed.

(* ================================================================== *)
(** * Every skill in one cluster, every cluster in one summary *)
(* ================================================================== *)

(** In a table whose key column has no repetition, a key that occurs
    selects one row. *)
Lemma filter_key_absent {A K : Type} (f : A -> K) (eqb : K -> K -> bool)
  (eqb_eq : forall x y, eqb x y = true <-> x = y) (rows : list A) (k : K) :
  ~ In k (map f rows) -> filter (fun r => eqb (f r) k) rows = [].
Proof.
  induction rows as [| a rows IH]; simpl; intros N; auto.
  destruct (eqb (f a) k) eqn:E.
  - apply eqb_eq in E. exfalso. apply N. now left.
  - apply IH. intros I. apply N. now right.
Qed.

Lemma filter_key_one {A K : Type} (f : A -> K) (eqb : K -> K -> bool)
  (eqb_eq : forall x y, eqb x y = true <-> x = y) (rows : list A) (k : K) :
  NoDup (map f rows) -> In k (map f rows) ->
  length (filter (fun r => eqb (f r) k) rows) = 1%nat.
Proof.
  induction rows as [| a rows IH]; simpl; intros D I; [contradiction |].
  inversion D as [| ? ? Na D']; subst.
  destruct (eqb (f a) k) eqn:E.
  - apply eqb_eq in E. subst k. simpl.
    rewrite (@filter_key_absent _ _ f eqb eqb_eq rows _ Na). reflexivity.
  - destruct I as [I | I]; [| now apply IH].
    exfalso. apply eqb_eq in I. congruence.
Qed.

(** The sizes of the clusters add up to the number of rows. *)
Lemma num_skills_total (rdf : list Handler.ClusteredRow) :
  sumZ (map Handler.num_skills (Handler.cluster_statistics rdf))
  = Z.of_nat (length rdf).
Proof.
  unfold Handler.cluster_statistics.
  rewrite <- (groupby_total (fun r => Some (Handler.cluster_id r)) rdf)
    by (intros; discriminate).
  unfold total_rows.
  induction (groupby (fun r => Some (Handler.cluster_id r)) rdf) as [| g gs IH]; simpl.
  - reflexivity.
  - rewrite IH, length_app, !length_map. lia.
Qed.

(** C8.  In the output of a run that returns, on a feature table without a
    repeated skill: the skills of [result_df] are those of the table, row for
    row, so every skill is in exactly one row of it; every cluster id of
    [result_df] is in exactly one row of [cluster_stats]; the [num_skills] of
    [cluster_stats] add up to the number of distinct skills of the table. *)
Theorem every_skill_in_one_cluster
  (sk : sklearn.Lib) (data : Handler.PreparedData) (w w' : world sk)
  (c : Handler.Clusters) :
  Handler.perform_clustering data w = (Ok c, w') ->
  NoDup (map Handler.skill (Handler.original_data data)) ->
  map (fun r => Handler.skill (Handler.row r)) (Handler.result_df c)
  = map Handler.skill (Handler.original_data data) /\
  (forall s, In s (map Handler.skill (Handler.original_data data)) ->
     length (filter (fun r => String.eqb (Handler.skill (Handler.row r)) s)
               (Handler.result_df c)) = 1%nat) /\
  (forall i, In i (map Handler.cluster_id (Handler.result_df c)) ->
     length (filter (fun st => Z.eqb (Handler.stats_cluster_id st) i)
               (Handler.cluster_stats c)) = 1%nat) /\
  sumZ (map Handler.num_skills (Handler.cluster_stats c))
  = Z.of_nat (length (nodup string_dec (map Handler.skill (Handler.original_data data)))).
Proof.
  intros Hrun Hnd.
  apply Handler.perform_clustering_ok in Hrun.
  destruct Hrun as (_ & _ & _ & _ & _ & _ & _ & Hdf & Hstats).
  apply with_cluster_id_columns in Hdf. destruct Hdf as [_ Hrows].
  assert (Hsk : map (fun r => Handler.skill (Handler.row r)) (Handler.result_df c)
                = map Handler.skill (Handler.original_data data))
    by (rewrite <- Hrows, map_map; reflexivity).
  split; [exact Hsk |]. split; [| split].
  - intros s Hin. rewrite <- Hsk in Hin, Hnd.
    exact (@filter_key_one _ _ (fun r => Handler.skill (Handler.row r)) String.eqb
             String.eqb_eq (Handler.result_df c) s Hnd Hin).
  - intros i Hin. rewrite Hstats.
    apply (@filter_key_one _ _ Handler.stats_cluster_id Z.eqb Z.eqb_eq).
    + rewrite cluster_statistics_ids. apply group_keys_NoDup.
    + rewrite cluster_statistics_ids. apply group_keys_In.
      apply in_map_iff in Hin. destruct Hin as (r & E & I).
      exists r. split; [exact I | congruence].
  - rewrite Hstats, num_skills_total, (nodup_fixed_point string_dec Hnd).
    rewrite <- Hrows, !length_map. reflexivity.
Qed.

Lemma sample_skills_NoDup :
  NoDup (map Handler.skill (Handler.original_data Sample.data)).
Proof.
  assert (E : nodup string_dec (map Handler.skill (Handler.original_data Sample.data))
              = map Handler.skill (Handler.original_data Sample.data))
    by (vm_compute; reflexivity).
  rewrite <- E. apply NoDup_nodup.
Qed.

Lemma every_skill_in_one_cluster_witness :
  Handler.perform_clustering Sample.data StandIn.w0
  = (Ok Runs.clusters, Runs.world_after) /\
  NoDup (map Handler.skill (Handler.original_data Sample.data)) /\
  sumZ (map Handler.num_skills (Handler.cluster_stats Runs.clusters))
  = Z.of_nat (length (nodup string_dec
                        (map Handler.skill (Handler.original_data Sample.data)))).
Proof.
  split; [exact Runs.perform_clustering_run |].
  split; [exact sample_skills_NoDup |].
  exact (proj2 (proj2 (proj2
           (every_skill_in_one_cluster Sample.data StandIn.w0
              Runs.perform_clustering_run sample_skills_NoDup)))).
Defined.

(* ================================================================== *)
(** * The feature table of the training script *)
(* ================================================================== *)

(** Reordering the rows of the input. *)

(** C9.  The feature table built by [create_skill_features] does not depend
    on the order of the input rows: on a permutation of the table, the
    aggregated rows, their order, the numeric features and the outcome of the
    function are the same. *)
Theorem create_skill_features_perm
  (sk : sklearn.Lib) (df df' : list SkillsData.Row) :
  Permutation df df' ->
  TrainClustering.skill_agg df' = TrainClustering.skill_agg df /\
  TrainClustering.create_skill_features sk df'
  = TrainClustering.create_skill_features sk df.
Proof.
  intros P. pose proof (TrainClustering.skill_agg_perm P) as E.
  split; [exact E |].
  unfold TrainClustering.create_skill_features. rewrite E. reflexivity.
Qed.

Lemma create_skill_features_perm_witness :
  Permutation Sample.skills_data (rev Sample.skills_data) /\
  TrainClustering.create_skill_features StandIn.lib (rev Sample.skills_data)
  = TrainClustering.create_skill_features StandIn.lib Sample.skills_data.
Proof.
  split; [apply Permutation_rev |].
  exact (proj2 (create_skill_features_perm StandIn.lib
                  (Permutation_rev Sample.skills_data))).
Defined.

(** ** What [employee_count] counts *)

Lemma nodup_length_le {A : Type} (dec : forall x y : A, {x = y} + {x <> y})
  (l : list A) : (length (nodup dec l) <= length l)%nat.
Proof.
  induction l as [| a l IH]; simpl; auto.
  destruct (in_dec dec a l); simpl; lia.
Qed.

(** Removing repetitions keeps the length exactly when there is none. *)
Lemma nodup_length_eq {A : Type} (dec : forall x y : A, {x = y} + {x <> y})
  (l : list A) : length (nodup dec l) = length l <-> NoDup l.
Proof.
  split.
  - induction l as [| a l IH]; simpl; intros E; [constructor |].
    destruct (in_dec dec a l) as [I | N].
    + pose proof (nodup_length_le dec l). lia.
    + simpl in E. constructor; auto.
  - intros D. now rewrite (nodup_fixed_point dec D).
Qed.

(** X5.  What the training script computes.  [skill_agg] has one row per skill
    that occurs in the table, in increasing order of the skill; [avg_proficiency] and
    [avg_experience] are the means of the cells present in the rows of the
    skill; [employee_count] is the number of those rows whose [employee_id]
    is present, which is at least the number of distinct employees and equals
    it exactly when no employee is repeated among the rows of the skill. *)
Theorem employee_count_counts_rows (df : list SkillsData.Row) :
  NoDup (map TrainClustering.skill (TrainClustering.skill_agg df)) /\
  (forall s, In s (map TrainClustering.skill (TrainClustering.skill_agg df)) <->
             exists r, In r df /\ SkillsData.skill r = Some s) /\
  TrainClustering.skill_agg df =
  map (fun s =>
         let rows := TrainClustering.rows_with s df in
         {| TrainClustering.skill := s;
            TrainClustering.employee_count :=
              Z.of_nat (length (dropna (map SkillsData.employee_id rows)));
            TrainClustering.avg_proficiency :=
              mean_int (dropna (map SkillsData.proficiency_score rows));
            TrainClustering.avg_experience :=
              mean_int (dropna (map SkillsData.years_experience rows)) |})
      (map TrainClustering.skill (TrainClustering.skill_agg df)) /\
  (forall s,
      let ids := dropna (map SkillsData.employee_id (TrainClustering.rows_with s df)) in
      (TrainClustering.distinct_employees (TrainClustering.rows_with s df)
       <= Z.of_nat (length ids))%Z /\
      (Z.of_nat (length ids)
       = TrainClustering.distinct_employees (TrainClustering.rows_with s df)
       <-> NoDup ids)).
Proof.
  rewrite TrainClustering.skill_agg_skills.
  split; [apply group_keys_NoDup |].
  split; [intros s; apply group_keys_In |].
  split; [apply TrainClustering.skill_agg_spec |].
  intros s ids. unfold TrainClustering.distinct_employees. fold ids. split.
  - apply inj_le. apply nodup_length_le.
  - rewrite <- (nodup_length_eq string_dec ids). split; intros E.
    + apply Nat2Z.inj in E. auto.
    + now rewrite E.
Qed.

(** C2, at the failing input.  On a table in which employee E1 lists PYTHON
    twice, [create_skill_features] gives PYTHON an [employee_count] of 2, the
    number of its rows, where one employee holds the skill; the query of the
    Lambda, [COUNT(DISTINCT employee_id)], gives 1 on the same table. *)
Lemma employee_count_diverges :
  map TrainClustering.employee_count (TrainClustering.skill_agg Sample.skills_repeated)
  = [2; 1]%Z /\
  map Handler.q_employee_count (Handler.skills_query Sample.skills_repeated)
  = [1; 1]%Z /\
  TrainClustering.distinct_employees
    (TrainClustering.rows_with "PYTHON" Sample.skills_repeated) = 1%Z.
Proof.
  split; [| split].
  - rewrite TrainClustering.skill_agg_spec, map_map. vm_compute. reflexivity.
  - unfold Handler.skills_query. rewrite map_map. vm_compute. reflexivity.
  - vm_compute. reflexivity.
Qed.

(* ================================================================== *)
(** * Missing and unrecognised fields *)
(* ================================================================== *)

(** The row has a skill. *)
Definition has_skill (r : SkillsData.Row) : bool :=
  match SkillsData.skill r with
  | Some _ => true
  | None => false
  end.

(** The outcome is a value. *)
Definition returns {A : Type} (r : result A) : bool :=
  match r with
  | Ok _ => true
  | Raise _ => false
  end.

(** C5 as the specification words it: a record with a missing field makes
    the feature building fail. *)
Definition claim_C5 (sk : sklearn.Lib) : Prop :=
  forall df : list SkillsData.Row,
    (exists r, In r df /\ ~ SkillsData.complete r) ->
    exists e, TrainClustering.create_skill_features sk df = Raise e.

(** Rows without a key do not take part in a grouping. *)
Lemma fold_group_dropna {K : Type} `{KO : KeyOrder K} {R : Type}
  (key : R -> option K) (present : R -> bool) (rows : list R) (gs : list (K * list R)) :
  (forall r, present r = false -> key r = None) ->
  (forall r, present r = true -> key r <> None) ->
  fold_left (group_step key) (filter present rows) gs
  = fold_left (group_step key) rows gs.
Proof.
  intros Hn Hs. revert gs. induction rows as [| r rows IH]; intros gs; simpl; auto.
  destruct (present r) eqn:E; simpl.
  - apply IH.
  - rewrite IH. unfold group_step at 3. now rewrite (Hn r E).
Qed.

Lemma skill_agg_dropna (df : list SkillsData.Row) :
  TrainClustering.skill_agg (filter has_skill df) = TrainClustering.skill_agg df.
Proof.
  unfold TrainClustering.skill_agg, groupby. f_equal.
  apply fold_group_dropna; intros r; unfold has_skill;
    destruct (SkillsData.skill r); congruence.
Qed.

(** The levels the Glue job recognises. *)
Lemma proficiency_score_cases (p : option string) :
  (p = Some "BEGINNER"%string /\ EtlJob.proficiency_score p = 1%Z) \/
  (p = Some "ADVANCED"%string /\ EtlJob.proficiency_score p = 3%Z) \/
  (p = Some "EXPERT"%string /\ EtlJob.proficiency_score p = 4%Z) \/
  EtlJob.proficiency_score p = 2%Z.
Proof.
  destruct p as [s |]; [| now repeat right].
  unfold EtlJob.proficiency_score.
  destruct (String.eqb_spec s "BEGINNER") as [-> | _]; [left; split; reflexivity |].
  destruct (String.eqb_spec s "INTERMEDIATE") as [-> | _]; [now repeat right |].
  destruct (String.eqb_spec s "ADVANCED") as [-> | _];
    [right; left; split; reflexivity |].
  destruct (String.eqb_spec s "EXPERT") as [-> | _];
    [right; right; left; split; reflexivity |].
  now repeat right.
Qed.

(** The skills of the feature table depend on the column [skill] alone. *)
Lemma group_keys_same_column {K : Type} `{KO : KeyOrder K} {R : Type}
  (key : R -> option K) (rows rows' : list R) :
  map key rows' = map key rows -> group_keys key rows' = group_keys key rows.
Proof.
  intros E. apply keys_sorted_unique; auto using group_keys_sorted.
  assert (H : forall l k, In k (group_keys key l) <-> In (Some k) (map key l)).
  { intros l k. rewrite group_keys_In, in_map_iff. split.
    - intros (r & I & Er). exists r. split; [exact Er | exact I].
    - intros (r & Er & I). exists r. split; [exact I | exact Er]. }
  intros k. rewrite !H, E. reflexivity.
Qed.

(** C5, amended.  Nothing is refused for a missing field.  The Glue job
    gives every row a [proficiency_score]: 1, 2, 3 and 4 for the levels
    BEGINNER, INTERMEDIATE, ADVANCED and EXPERT, and 2 for every other level
    and for a missing one.  In [create_skill_features] the rows without a
    skill are left out of the grouping, a missing [employee_id] is not
    counted and missing [proficiency_score] and [years_experience] cells are
    left out of the means.  Whether the function raises, and what, depends on
    the column [skill] alone: on any table with the same skills, whatever is
    present or missing in its other cells, it has the same skills in its
    result and raises the same exceptions. *)
Theorem missing_fields_are_skipped
  (sk : sklearn.Lib) (df : list SkillsData.Row) :
  EtlJob.proficiency_score (Some "BEGINNER"%string) = 1%Z /\
  EtlJob.proficiency_score (Some "INTERMEDIATE"%string) = 2%Z /\
  EtlJob.proficiency_score (Some "ADVANCED"%string) = 3%Z /\
  EtlJob.proficiency_score (Some "EXPERT"%string) = 4%Z /\
  EtlJob.proficiency_score None = 2%Z /\
  (forall level : string,
      level <> "BEGINNER"%string -> level <> "ADVANCED"%string ->
      level <> "EXPERT"%string ->
      EtlJob.proficiency_score (Some level) = 2%Z) /\
  TrainClustering.skill_agg (filter has_skill df) = TrainClustering.skill_agg df /\
  TrainClustering.skill_agg df =
  map (fun s =>
         let rows := TrainClustering.rows_with s df in
         {| TrainClustering.skill := s;
            TrainClustering.employee_count :=
              Z.of_nat (length (dropna (map SkillsData.employee_id rows)));
            TrainClustering.avg_proficiency :=
              mean_int (dropna (map SkillsData.proficiency_score rows));
            TrainClustering.avg_experience :=
              mean_int (dropna (map SkillsData.years_experience rows)) |})
      (group_keys SkillsData.skill df) /\
  (forall df' : list SkillsData.Row,
      map SkillsData.skill df' = map SkillsData.skill df ->
      map TrainClustering.skill (TrainClustering.skill_agg df')
      = map TrainClustering.skill (TrainClustering.skill_agg df) /\
      forall e,
        TrainClustering.create_skill_features sk df' = Raise e <->
        TrainClustering.create_skill_features sk df = Raise e).
Proof.
  repeat (split; [reflexivity |]).
  split.
  { intros level N1 N3 N4.
    destruct (proficiency_score_cases (Some level))
      as [[E _] | [[E _] | [[E _] | E]]]; try congruence. }
  split; [apply skill_agg_dropna |].
  split; [apply TrainClustering.skill_agg_spec |].
  intros df' Hcol.
  assert (Hk : map TrainClustering.skill (TrainClustering.skill_agg df')
               = map TrainClustering.skill (TrainClustering.skill_agg df)).
  { rewrite !TrainClustering.skill_agg_skills.
    now apply group_keys_same_column. }
  split; [exact Hk |].
  intros e. unfold TrainClustering.create_skill_features. rewrite Hk.
  destruct (sklearn.TfidfVectorizer_fit_transform sk 50
              (map TrainClustering.skill (TrainClustering.skill_agg df)))
    as [[m t] | e'].
  - split; discriminate.
  - split; intros H; injection H as ->; reflexivity.
Qed.

(** C5 as worded fails: on a table with missing cells the feature building
    of the training script returns. *)
Lemma claim_C5_fails : ~ claim_C5 StandIn.lib.
Proof.
  intros H.
  destruct (H Sample.skills_missing) as (e & He).
  - exists (nth 2 Sample.skills_missing (Sample.rec "" "" 0 0)).
    split; [simpl; auto |]. intros (_ & Hs & _). apply Hs. reflexivity.
  - assert (R : returns (TrainClustering.create_skill_features StandIn.lib
                           Sample.skills_missing) = true)
      by (vm_compute; reflexivity).
    rewrite He in R. discriminate.
Qed.

(** What the feature building returns on that table: the row without a skill
    is gone, the row without an employee is not counted and its missing
    proficiency is left out of the mean. *)
Lemma skill_agg_skills_missing :
  TrainClustering.skill_agg Sample.skills_missing
  = [ {| TrainClustering.skill := "PYTHON";
         TrainClustering.employee_count := 1;
         TrainClustering.avg_proficiency := Some (3 # 1);
         TrainClustering.avg_experience := Some (7 # 2) |} ].
Proof. vm_compute. reflexivity. Qed.

(* ================================================================== *)
(** * Scaling a feature without variance *)
(* ================================================================== *)

Lemma length_nonzero {A : Type} (l : list A) :
  l <> [] -> ~ inject_Z (Z.of_nat (length l)) == 0.
Proof.
  intros N H. change 0 with (inject_Z 0) in H. apply inject_Z_injective in H.
  destruct l; [congruence | simpl in H; discriminate].
Qed.

Lemma sumQ_const (c : Q) (l : list Q) :
  Forall (fun x => x == c) l -> sumQ l == c * inject_Z (Z.of_nat (length l)).
Proof.
  induction 1 as [| x l Hx _ IH].
  - change (0 == c * 0). ring.
  - change (sumQ (x :: l)) with (x + sumQ l). simpl length.
    rewrite Nat2Z.inj_succ. unfold Z.succ. rewrite inject_Z_plus, IH, Hx.
    change (inject_Z 1) with 1. ring.
Qed.

(** The mean of a column whose cells are all [c] is [c]. *)
Lemma meanQ_const (c : Q) (l : list Q) :
  l <> [] -> Forall (fun x => x == c) l -> meanQ l == c.
Proof.
  intros N F. unfold meanQ. rewrite (sumQ_const F).
  field. now apply length_nonzero.
Qed.

(** Its variance is zero. *)
Lemma variance_const (c : Q) (l : list Q) :
  l <> [] -> Forall (fun x => x == c) l -> StandardScaler.variance l == 0.
Proof.
  intros N F. unfold StandardScaler.variance.
  pose proof (meanQ_const N F) as M.
  apply meanQ_const.
  - destruct l; [congruence | discriminate].
  - apply Forall_map. rewrite Forall_forall in F |- *. intros x I.
    rewrite (F x I), M. ring.
Qed.

Lemma transform_row_nth (row means scales : list Q) (j : nat) (d : Q) :
  (j < length row)%nat -> (j < length means)%nat -> (j < length scales)%nat ->
  nth j (StandardScaler.transform_row row means scales) d
  = (nth j row 0 - nth j means 0) / nth j scales 0.
Proof.
  revert means scales j.
  induction row as [| x row IH]; intros [| m means] [| s scales] [| j];
    simpl; intros; try lia; auto.
  apply IH; lia.
Qed.

Lemma transform_row_length (row means scales : list Q) :
  length means = length row -> length scales = length row ->
  length (StandardScaler.transform_row row means scales) = length row.
Proof.
  revert means scales.
  induction row as [| x row IH]; intros [| m means] [| s scales];
    simpl; intros; try lia; auto.
Qed.

(** The columns of a matrix, as [fit] walks them. *)
Definition columns (X : matrix) : list (list Q) :=
  map (fun j => StandardScaler.column j X) (seq 0 (StandardScaler.n_features X)).

Lemma fit_ok (sqrt : Q -> Q) (X : matrix) :
  X <> [] ->
  StandardScaler.fit sqrt X
  = Ok {| StandardScaler.mean_ := map meanQ (columns X);
          StandardScaler.var_ := map StandardScaler.variance (columns X);
          StandardScaler.scale_ :=
            map (fun c => StandardScaler.scale_of sqrt (StandardScaler.variance c))
                (columns X) |}.
Proof. destruct X; [congruence | reflexivity]. Qed.

Lemma columns_nth {B : Type} (f : list Q -> B) (X : matrix) (j : nat) (d : B) :
  (j < StandardScaler.n_features X)%nat ->
  nth j (map f (columns X)) d = f (StandardScaler.column j X).
Proof.
  intros L. unfold columns. rewrite map_map.
  rewrite (nth_indep _ d (f (StandardScaler.column 0%nat X)))
    by (rewrite length_map, length_seq; exact L).
  rewrite (map_nth (fun j => f (StandardScaler.column j X))).
  rewrite seq_nth by exact L. reflexivity.
Qed.

(** The scaler fitted on a matrix with a constant column [j]: the variance
    of the column is zero, its scale is 1, and the column is zero after the
    transformation. *)
Lemma fit_constant_column (sqrt : Q -> Q) (X : matrix) (j : nat) (c : Q) :
  X <> [] -> (j < StandardScaler.n_features X)%nat ->
  Forall (fun row => length row = StandardScaler.n_features X) X ->
  Forall (fun row => nth j row 0 == c) X ->
  exists sc,
    StandardScaler.fit sqrt X = Ok sc /\
    nth j (StandardScaler.var_ sc) 1 == 0 /\
    nth j (StandardScaler.scale_ sc) 0 = 1 /\
    Forall (fun row => length row = StandardScaler.n_features X /\ nth j row 1 == 0)
           (StandardScaler.transform sc X).
Proof.
  intros N L Hrect Hconst.
  assert (Hcol : Forall (fun x => x == c) (StandardScaler.column j X))
    by (unfold StandardScaler.column; apply Forall_map; exact Hconst).
  assert (Ncol : StandardScaler.column j X <> [])
    by (unfold StandardScaler.column; destruct X; [congruence | discriminate]).
  eexists. split; [apply fit_ok; exact N |]. simpl.
  split; [rewrite columns_nth by exact L; exact (variance_const Ncol Hcol) |].
  assert (Hscale : nth j (map (fun c0 => StandardScaler.scale_of sqrt
                                           (StandardScaler.variance c0)) (columns X)) 0 = 1).
  { rewrite columns_nth by exact L. unfold StandardScaler.scale_of.
    assert (E : Qeq_bool (StandardScaler.variance (StandardScaler.column j X)) 0 = true)
      by (apply Qeq_bool_iff; exact (variance_const Ncol Hcol)).
    rewrite E. reflexivity. }
  split; [exact Hscale |].
  unfold StandardScaler.transform. simpl. apply Forall_map.
  rewrite Forall_forall in Hrect, Hconst |- *. intros row I.
  assert (Lc : length (columns X) = StandardScaler.n_features X)
    by (unfold columns; rewrite length_map, length_seq; reflexivity).
  split.
  - rewrite transform_row_length; rewrite ?length_map, ?Lc, ?(Hrect row I); auto.
  - rewrite transform_row_nth;
      rewrite ?length_map, ?Lc, ?(Hrect row I); auto.
    rewrite Hscale, columns_nth by exact L.
    rewrite (Hconst row I), (meanQ_const Ncol Hcol). field.
Qed.

(** C4 as the specification words it: a feature without variance makes the
    preparation fail. *)
Definition claim_C4 (sk : sklearn.Lib) : Prop :=
  forall (df : Handler.DataFrame) (j : nat) (c : Q),
    df <> [] -> (j < 3)%nat ->
    Forall (fun row => nth j row 0 == c) (Handler.feature_values df) ->
    exists e, Handler.prepare_clustering_data sk df = Raise e.

Lemma feature_values_shape (df : Handler.DataFrame) :
  df <> [] ->
  StandardScaler.n_features (Handler.feature_values df) = 3%nat /\
  Forall (fun row => length row = 3%nat) (Handler.feature_values df).
Proof.
  intros N. split.
  - destruct df; [congruence | reflexivity].
  - unfold Handler.feature_values. apply Forall_map, Forall_forall.
    intros r _. reflexivity.
Qed.

(** C4, amended.  On a non-empty feature table in which one of the three
    features takes a single value, [prepare_clustering_data] does not fail:
    the scaler is fitted, with variance 0 and scale 1 for that feature, and
    the function returns the table with its skills and a scaled matrix of as
    many rows, in which the column of that feature is zero. *)
Theorem constant_feature_scaled_to_zero
  (sk : sklearn.Lib) (df : Handler.DataFrame) (j : nat) (c : Q) :
  df <> [] -> (j < 3)%nat ->
  Forall (fun row => nth j row 0 == c) (Handler.feature_values df) ->
  exists sc data,
    StandardScaler.fit (sklearn.np_sqrt sk) (Handler.feature_values df) = Ok sc /\
    nth j (StandardScaler.var_ sc) 1 == 0 /\
    nth j (StandardScaler.scale_ sc) 0 = 1 /\
    Handler.prepare_clustering_data sk df = Ok data /\
    Handler.features data = StandardScaler.transform sc (Handler.feature_values df) /\
    Handler.skills data = map Handler.skill df /\
    Handler.original_data data = df /\
    length (Handler.features data) = length df /\
    Forall (fun row => length row = 3%nat /\ nth j row 1 == 0) (Handler.features data).
Proof.
  intros N L Hconst.
  destruct (feature_values_shape N) as [Hn Hrect].
  assert (NX : Handler.feature_values df <> [])
    by (destruct df; [congruence | discriminate]).
  rewrite <- Hn in L, Hrect.
  destruct (fit_constant_column (sklearn.np_sqrt sk) NX L Hrect Hconst)
    as (sc & Hfit & Hvar & Hscale & Hcols).
  rewrite Hn in Hcols.
  exists sc.
  exists {| Handler.features := StandardScaler.transform sc (Handler.feature_values df);
            Handler.skills := map Handler.skill df;
            Handler.original_data := df |}.
  split; [exact Hfit |]. split; [exact Hvar |]. split; [exact Hscale |].
  split.
  { unfold Handler.prepare_clustering_data, StandardScaler.fit_transform.
    rewrite Hfit. reflexivity. }
  simpl. repeat (split; [reflexivity |]).
  split; [| exact Hcols].
  unfold StandardScaler.transform, Handler.feature_values. now rewrite !length_map.
Qed.

Lemma sample_constant_feature :
  Forall (fun row => nth 0 row 0 == 4) (Handler.feature_values Sample.df_constant).
Proof. repeat constructor. Qed.

Lemma constant_feature_scaled_to_zero_witness :
  Sample.df_constant <> [] /\ (0 < 3)%nat /\
  Forall (fun row => nth 0 row 0 == 4) (Handler.feature_values Sample.df_constant) /\
  exists data,
    Handler.prepare_clustering_data StandIn.lib Sample.df_constant = Ok data /\
    Forall (fun row => length row = 3%nat /\ nth 0 row 1 == 0) (Handler.features data).
Proof.
  assert (N : Sample.df_constant <> []) by discriminate.
  assert (L : (0 < 3)%nat) by lia.
  split; [exact N |]. split; [exact L |]. split; [exact sample_constant_feature |].
  destruct (constant_feature_scaled_to_zero StandIn.lib N L sample_constant_feature)
    as (sc & data & _ & _ & _ & Hrun & _ & _ & _ & _ & Hzero).
  exists data. split; [exact Hrun | exact Hzero].
Defined.

(** C4 as worded fails: nine skills alike on every feature are prepared
    without an error. *)
Lemma claim_C4_fails : ~ claim_C4 StandIn.lib.
Proof.
  intros H.
  destruct (H Sample.df_constant 0%nat 4) as (e & He).
  - discriminate.
  - lia.
  - exact sample_constant_feature.
  - assert (R : returns (Handler.prepare_clustering_data StandIn.lib Sample.df_constant)
                = true) by (vm_compute; reflexivity).
    rewrite He in R. discriminate.
Qed.

(* ================================================================== *)
(** * The Glue job: what it writes *)
(* ================================================================== *)

Section CleanTable.

Variable upper : string -> string.
Variable cast_integer : string -> option Z.

(** The columns [dropDuplicates] compares. *)
Definition pair_of (r : EtlJob.CleanRow) : option string * option string :=
  (EtlJob.c_employee_id r, EtlJob.c_skill r).

Lemma option_string_eqb_eq (a b : option string) :
  EtlJob.option_string_eqb a b = true <-> a = b.
Proof.
  destruct a as [x |], b as [y |]; simpl; try (split; congruence).
  rewrite String.eqb_eq. split; congruence.
Qed.

Lemma same_pair_eq (a b : EtlJob.CleanRow) :
  EtlJob.same_pair a b = true <-> pair_of a = pair_of b.
Proof.
  unfold EtlJob.same_pair, pair_of.
  rewrite andb_true_iff, !option_string_eqb_eq. split.
  - intros [-> ->]. reflexivity.
  - intros E. injection E as E1 E2. auto.
Qed.

Lemma existsb_same_pair (r : EtlJob.CleanRow) (kept : list EtlJob.CleanRow) :
  existsb (EtlJob.same_pair r) kept = true <-> In (pair_of r) (map pair_of kept).
Proof.
  rewrite existsb_exists, in_map_iff. split.
  - intros (x & I & E). exists x. apply same_pair_eq in E. auto.
  - intros (x & E & I). exists x. split; [exact I |]. now apply same_pair_eq.
Qed.

(** One step of [dropDuplicates]. *)
Definition keep_first (kept : list EtlJob.CleanRow) (r : EtlJob.CleanRow)
  : list EtlJob.CleanRow :=
  if existsb (EtlJob.same_pair r) kept then kept else r :: kept.

(** The rows kept so far never repeat a pair, hold only rows that were read,
    and hold every pair that was read. *)
Lemma keep_first_fold (rows kept : list EtlJob.CleanRow) :
  NoDup (map pair_of kept) ->
  let out := fold_left keep_first rows kept in
  NoDup (map pair_of out) /\
  (forall r, In r out -> In r kept \/ In r rows) /\
  (forall p, In p (map pair_of kept) \/ In p (map pair_of rows) ->
             In p (map pair_of out)).
Proof.
  revert kept. induction rows as [| r rows IH]; intros kept D; simpl.
  - split; [exact D |]. split; [auto |]. intros p [I | []]. exact I.
  - assert (D1 : NoDup (map pair_of (keep_first kept r))).
    { unfold keep_first. destruct (existsb (EtlJob.same_pair r) kept) eqn:E; auto.
      simpl. constructor; auto. intros I. apply existsb_same_pair in I. congruence. }
    destruct (IH _ D1) as (Hd & Hin & Hp).
    split; [exact Hd |]. split.
    + intros x I. destruct (Hin x I) as [K | K]; auto.
      unfold keep_first in K. destruct (existsb (EtlJob.same_pair r) kept); auto.
      destruct K as [<- | K]; auto.
    + intros p I. apply Hp.
      unfold keep_first. destruct (existsb (EtlJob.same_pair r) kept) eqn:E.
      * destruct I as [I | [<- | I]]; auto.
        left. now apply existsb_same_pair.
      * simpl. destruct I as [I | [<- | I]]; auto.
Qed.

Lemma dropDuplicates_NoDup (rows : list EtlJob.CleanRow) :
  NoDup (map pair_of (EtlJob.dropDuplicates rows)).
Proof.
  unfold EtlJob.dropDuplicates. fold keep_first.
  rewrite map_rev. apply NoDup_rev.
  exact (proj1 (@keep_first_fold rows [] (NoDup_nil _))).
Qed.

Lemma dropDuplicates_incl (rows : list EtlJob.CleanRow) :
  incl (EtlJob.dropDuplicates rows) rows.
Proof.
  unfold EtlJob.dropDuplicates. fold keep_first.
  destruct (@keep_first_fold rows [] (NoDup_nil _)) as (_ & Hin & _).
  intros r I. apply in_rev in I. destruct (Hin r I) as [[] | K]. exact K.
Qed.

Lemma dropDuplicates_pairs (rows : list EtlJob.CleanRow)
  (p : option string * option string) :
  In p (map pair_of rows) -> In p (map pair_of (EtlJob.dropDuplicates rows)).
Proof.
  unfold EtlJob.dropDuplicates. fold keep_first.
  destruct (@keep_first_fold rows [] (NoDup_nil _)) as (_ & _ & Hp).
  intros I. rewrite map_rev, <- in_rev. apply Hp. now right.
Qed.

(** X1.  [dropDuplicates(['employee_id', 'skill'])] leaves one row for every pair
    of the table and no other row: no pair is repeated, no pair is lost, and
    every row left is a row of the table. *)
Theorem dropDuplicates_one_row_per_pair (rows : list EtlJob.CleanRow) :
  NoDup (map pair_of (EtlJob.dropDuplicates rows)) /\
  (forall p, In p (map pair_of (EtlJob.dropDuplicates rows)) <->
             In p (map pair_of rows)) /\
  incl (EtlJob.dropDuplicates rows) rows.
Proof.
  split; [apply dropDuplicates_NoDup |]. split; [| apply dropDuplicates_incl].
  intros p. split; [| apply dropDuplicates_pairs].
  rewrite !in_map_iff. intros (r & E & I). exists r. split; [exact E |].
  now apply dropDuplicates_incl.
Qed.

Lemma df_clean_In (df : list EtlJob.RawRow) (r : EtlJob.CleanRow) :
  In r (EtlJob.df_clean upper cast_integer df) ->
  exists raw s,
    In raw df /\ EtlJob.skill raw = Some s /\
    EtlJob.c_skill r = Some (EtlJob.trim (upper s)) /\
    EtlJob.c_employee_id r = EtlJob.employee_id raw /\
    EtlJob.c_employee_id r <> None /\
    (1 <= EtlJob.c_proficiency_score r <= 4)%Z.
Proof.
  intros I. unfold EtlJob.df_clean in I.
  apply dropDuplicates_incl in I.
  apply in_map_iff in I. destruct I as (c & <- & I).
  apply filter_In in I. destruct I as [I He].
  apply filter_In in I. destruct I as [I Hs].
  apply in_map_iff in I. destruct I as (raw & <- & I).
  simpl in He, Hs |- *.
  destruct (EtlJob.skill raw) as [s |] eqn:Es; [| discriminate].
  exists raw, s. split; [exact I |]. split; [exact Es |]. split; [reflexivity |].
  split; [reflexivity |].
  split; [destruct (EtlJob.employee_id raw); discriminate |].
  destruct (proficiency_score_cases
              (option_map (fun s0 => EtlJob.trim (upper s0)) (EtlJob.proficiency raw)))
    as [[_ ->] | [[_ ->] | [[_ ->] | ->]]]; lia.
Qed.

(** X2.  A row written by the job comes from a row of the raw file that has a
    skill and an employee: its skill is that skill in capitals without
    surrounding spaces, its employee is that employee, and its
    [proficiency_score] is between 1 and 4; and no two rows written have the
    same employee and skill. *)
Theorem df_clean_rows (df : list EtlJob.RawRow) :
  NoDup (map pair_of (EtlJob.df_clean upper cast_integer df)) /\
  Forall (fun r =>
            exists raw s,
              In raw df /\ EtlJob.skill raw = Some s /\
              EtlJob.c_skill r = Some (EtlJob.trim (upper s)) /\
              EtlJob.c_employee_id r = EtlJob.employee_id raw /\
              EtlJob.c_employee_id r <> None /\
              (1 <= EtlJob.c_proficiency_score r <= 4)%Z)
         (EtlJob.df_clean upper cast_integer df).
Proof.
  split.
  - unfold EtlJob.df_clean. apply dropDuplicates_NoDup.
  - apply Forall_forall. intros r I. now apply df_clean_In.
Qed.

(** ** The job's table in the training script *)

(** Selecting rows of a table keeps a key column free of repetitions. *)
Lemma selection_keeps_keys_distinct {Row Key : Type} (key : Row -> Key)
  (keep : Row -> bool) (rows : list Row) (D : NoDup (map key rows)) :
  NoDup (map key (filter keep rows)).
Proof.
  induction rows as [| r rows IH]; simpl in *; [exact D |].
  apply NoDup_cons_iff in D. destruct D as [N D].
  destruct (keep r); simpl; [| now apply IH].
  apply NoDup_cons; [| now apply IH].
  intros I. apply N. apply in_map_iff in I. destruct I as (x & E & I).
  apply filter_In in I. apply in_map_iff. exists x. tauto.
Qed.

Lemma filter_map_comm {A B : Type} (f : A -> B) (p : B -> bool) (l : list A) :
  filter p (map f l) = map f (filter (fun a => p (f a)) l).
Proof.
  induction l as [| a l IH]; simpl; auto.
  destruct (p (f a)); simpl; now rewrite IH.
Qed.

Lemma dropna_In {A : Type} (l : list (option A)) (a : A) :
  In a (dropna l) <-> In (Some a) l.
Proof.
  induction l as [| [x |] l IH]; simpl.
  - tauto.
  - rewrite IH. split; intros [E | I]; auto; left; congruence.
  - rewrite IH. split; [auto | intros [E | I]; [discriminate | exact I]].
Qed.

Lemma dropna_NoDup {A : Type} (l : list (option A)) : NoDup l -> NoDup (dropna l).
Proof.
  induction l as [| [x |] l IH]; simpl; intros D.
  - constructor.
  - inversion D as [| ? ? N D']; subst.
    constructor; [rewrite dropna_In; exact N | now apply IH].
  - inversion D as [| ? ? N D']; subst. now apply IH.
Qed.

(** The rows of one skill in the job's table: their employees are present
    and do not repeat. *)
Lemma cleaned_rows_with (rows : list EtlJob.CleanRow) (s : string) :
  NoDup (map pair_of rows) ->
  NoDup (map SkillsData.employee_id
           (TrainClustering.rows_with s (EtlJob.to_table rows))).
Proof.
  intros D. unfold TrainClustering.rows_with, EtlJob.to_table.
  rewrite filter_map_comm, map_map. simpl.
  set (p := fun a : EtlJob.CleanRow =>
              has_key SkillsData.skill s
                {| SkillsData.employee_id := EtlJob.c_employee_id a;
                   SkillsData.skill := EtlJob.c_skill a;
                   SkillsData.proficiency_score := Some (EtlJob.c_proficiency_score a);
                   SkillsData.years_experience := EtlJob.c_years_experience a |}).
  pose proof (selection_keeps_keys_distinct pair_of p rows D) as D'.
  assert (E : map pair_of (filter p rows)
              = map (fun e => (e, Some s)) (map EtlJob.c_employee_id (filter p rows))).
  { rewrite map_map. apply map_ext_in. intros a I.
    apply filter_In in I. destruct I as [_ I]. unfold p in I.
    apply has_key_iff in I. simpl in I. unfold pair_of. now rewrite I. }
  rewrite E in D'. exact (NoDup_map_inv _ _ D').
Qed.

(** X4.  On the table written by the job the training script counts employees:
    for every skill, [employee_count] is the number of distinct employees
    holding it, and it is at least 1. *)
Theorem cleaned_table_counts_employees (df : list EtlJob.RawRow) :
  Forall (fun a =>
            TrainClustering.employee_count a
            = TrainClustering.distinct_employees
                (TrainClustering.rows_with (TrainClustering.skill a)
                   (EtlJob.to_table (EtlJob.df_clean upper cast_integer df))) /\
            (1 <= TrainClustering.employee_count a)%Z)
         (TrainClustering.skill_agg (EtlJob.to_table (EtlJob.df_clean upper cast_integer df))).
Proof.
  set (rows := EtlJob.df_clean upper cast_integer df).
  rewrite TrainClustering.skill_agg_spec. apply Forall_map, Forall_forall.
  intros s Hs. simpl.
  assert (Dr : NoDup (map pair_of rows))
    by (unfold rows, EtlJob.df_clean; apply dropDuplicates_NoDup).
  pose proof (@cleaned_rows_with rows s Dr) as D.
  apply dropna_NoDup in D.
  unfold TrainClustering.distinct_employees, count_notna.
  rewrite (nodup_fixed_point string_dec D). split; [reflexivity |].
  apply group_keys_In in Hs. destruct Hs as (r & I & E).
  assert (Ir : In r (TrainClustering.rows_with s (EtlJob.to_table rows)))
    by (apply filter_In; split; [exact I | now apply has_key_iff]).
  unfold EtlJob.to_table in I. apply in_map_iff in I. destruct I as (c & Ec & Ic).
  destruct (df_clean_In _ _ Ic) as (raw & s0 & _ & _ & _ & _ & Hid & _).
  destruct (EtlJob.c_employee_id c) as [e |] eqn:Ee; [| congruence].
  assert (Ie : In e (dropna (map SkillsData.employee_id
                               (TrainClustering.rows_with s (EtlJob.to_table rows))))).
  { apply dropna_In.
    apply (in_map SkillsData.employee_id) in Ir. rewrite <- Ec in Ir at 1. exact Ir. }
  destruct (dropna (map SkillsData.employee_id
                      (TrainClustering.rows_with s (EtlJob.to_table rows))));
    [contradiction | simpl; lia].
Qed.

End CleanTable.

(* ================================================================== *)
(** * The Lambda: what it answers and what it stores *)
(* ================================================================== *)

(** [cluster_stats] has as many rows as the labels have values. *)
Lemma cluster_statistics_length (rdf : list Handler.ClusteredRow) :
  length (Handler.cluster_statistics rdf) = len_set (map Handler.cluster_id rdf).
Proof.
  rewrite <- (length_map Handler.stats_cluster_id), cluster_statistics_ids.
  unfold len_set. apply Permutation_length, NoDup_Permutation.
  - apply group_keys_NoDup.
  - apply NoDup_nodup.
  - intros i. rewrite group_keys_In, nodup_In, in_map_iff. split.
    + intros (r & I & E). exists r. split; [congruence | exact I].
    + intros (r & E & I). exists r. split; [exact I | congruence].
Qed.

(** In a run that returns, the tables have a row per row of the input and
    a statistics row per value of the labels. *)
Lemma perform_clustering_tables (sk : sklearn.Lib) (data : Handler.PreparedData)
  (w w' : world sk) (c : Handler.Clusters) :
  Handler.perform_clustering data w = (Ok c, w') ->
  map Handler.row (Handler.result_df c) = Handler.original_data data /\
  map Handler.cluster_id (Handler.result_df c) = Handler.cluster_labels c /\
  length (Handler.cluster_stats c) = len_set (Handler.cluster_labels c).
Proof.
  intros Hrun. apply Handler.perform_clustering_ok in Hrun.
  destruct Hrun as (_ & _ & _ & _ & _ & _ & _ & Hdf & Hstats).
  apply with_cluster_id_columns in Hdf. destruct Hdf as [Hl Hr].
  split; [exact Hr |]. split; [exact Hl |].
  rewrite Hstats, cluster_statistics_length, Hl. reflexivity.
Qed.

Lemma prepare_clustering_data_ok (sk : sklearn.Lib) (df : Handler.DataFrame)
  (data : Handler.PreparedData) :
  Handler.prepare_clustering_data sk df = Ok data ->
  Handler.original_data data = df /\ Handler.skills data = map Handler.skill df.
Proof.
  unfold Handler.prepare_clustering_data.
  destruct (StandardScaler.fit_transform (sklearn.np_sqrt sk) (Handler.feature_values df));
    [| discriminate].
  intros H. injection H as <-. split; reflexivity.
Qed.

(** ** [lambda_handler] *)

(** The handler with the services it calls.  [query_skills_from_athena] is
    seen through its outcome, the frame it returns or the exception it
    raises; [put_object] through the outcome of the call for each key; the
    clock through its reading [now] when the results are stored.  The lines
    printed are left out. *)
Module Lambda.

Local Open Scope string_scope.

(** A row of the frame returned by the query.  The numeric columns come from
    [pd.to_numeric]: a cell of the result set without a value (an average
    over no value is NULL) is NaN, here [None]. *)
Record FrameRow : Type := {
  f_skill : string;
  f_employee_count : option Z;
  f_avg_proficiency : option Q;
  f_avg_experience : option Q
}.

Definition finite_row (r : FrameRow) : option Handler.SkillRow :=
  match f_employee_count r, f_avg_proficiency r, f_avg_experience r with
  | Some n, Some p, Some e =>
      Some {| Handler.skill := f_skill r;
              Handler.employee_count := n;
              Handler.avg_proficiency := p;
              Handler.avg_experience := e |}
  | _, _, _ => None
  end.

(** The frame as a table of numbers, when no cell is NaN. *)
Fixpoint finite (frame : list FrameRow) : option Handler.DataFrame :=
  match frame with
  | [] => Some []
  | r :: frame' =>
      match finite_row r, finite frame' with
      | Some row, Some df => Some (row :: df)
      | _, _ => None
      end
  end.

(** The body of an object put to the bucket. *)
Inductive Body : Type :=
| SkillClusters (rows : list Handler.ClusteredRow)
| ClusterStats (stats : list Handler.ClusterStat)
| ClusteringSummary (summary : Handler.Summary).

Section WithServices.

Variable sk : sklearn.Lib.

(** [s3_client.put_object(Bucket=S3_BUCKET, Key=key, Body=...)]: the call
    returns or raises. *)
Variable put_object : string -> result unit.

(** A matrix with NaN is refused by the library ([StandardScaler] lets NaN
    through, [KMeans] validates its input): the exception it raises. *)
Variable nan_refused : exn.

(** [store_clustering_results]: the outcome, and the objects that are in the
    bucket after it, in the order they were put.  An exception of a
    [put_object] ends the function; what was put before stays. *)
Definition store_clustering_results (now : string) (clusters : Handler.Clusters)
  : result unit * list (string * Body) :=
  let written := Handler.store_clustering_results now clusters in
  let skills_csv :=
    ("results/skill_clusters_" ++ now ++ ".csv",
     SkillClusters (Handler.skill_clusters_csv written)) in
  let stats_csv :=
    ("results/cluster_stats_" ++ now ++ ".csv",
     ClusterStats (Handler.cluster_stats_csv written)) in
  let summary :=
    ("results/clustering_summary_" ++ now ++ ".json",
     ClusteringSummary (Handler.clustering_summary_json written)) in
  match put_object (fst skills_csv) with
  | Raise e => (Raise e, [])
  | Ok _ =>
      match put_object (fst stats_csv) with
      | Raise e => (Raise e, [skills_csv])
      | Ok _ =>
          match put_object (fst summary) with
          | Raise e => (Raise e, [skills_csv; stats_csv])
          | Ok _ => (Ok tt, [skills_csv; stats_csv; summary])
          end
      end
  end.

(** [lambda_handler]: the response, and the objects in the bucket after it.
    Every exception raised inside the [try] gives a response 500. *)
Definition lambda_handler (query : result (list FrameRow)) (now : string)
  (w : world sk) : Handler.Response * list (string * Body) :=
  match query with
  | Raise e => (Handler.Status500 e, [])
  | Ok skills_data =>
      match finite skills_data with
      | None => (Handler.Status500 nan_refused, [])
      | Some df =>
          match Handler.prepare_clustering_data sk df with
          | Raise e => (Handler.Status500 e, [])
          | Ok prepared_data =>
              match fst (Handler.perform_clustering prepared_data w) with
              | Raise e => (Handler.Status500 e, [])
              | Ok clusters =>
                  match store_clustering_results now clusters with
                  | (Raise e, stored) => (Handler.Status500 e, stored)
                  | (Ok _, stored) =>
                      (Handler.Status200
                         (len_set (Handler.cluster_labels clusters))
                         (length (Handler.result_df clusters)),
                       stored)
                  end
              end
          end
      end
  end.

End WithServices.

End Lambda.

Lemma finite_length (frame : list Lambda.FrameRow) (df : Handler.DataFrame) :
  Lambda.finite frame = Some df -> length df = length frame.
Proof.
  revert df. induction frame as [| r frame IH]; simpl; intros df H.
  - injection H as <-. reflexivity.
  - destruct (Lambda.finite_row r); [| discriminate].
    destruct (Lambda.finite frame) as [df' |]; [| discriminate].
    injection H as <-. simpl. f_equal. now apply IH.
Qed.

(** The three objects of a run, with their keys. *)
Definition objects (now : string) (c : Handler.Clusters) (n m : nat)
  : list (string * Lambda.Body) :=
  [ ("results/skill_clusters_" ++ now ++ ".csv",
     Lambda.SkillClusters (Handler.result_df c));
    ("results/cluster_stats_" ++ now ++ ".csv",
     Lambda.ClusterStats (Handler.cluster_stats c));
    ("results/clustering_summary_" ++ now ++ ".json",
     Lambda.ClusteringSummary
       {| Handler.timestamp := now;
          Handler.num_clusters := n;
          Handler.summary_num_skills := m;
          Handler.summary_silhouette_score := Handler.silhouette_score c |}) ]%string.

(** What [store_clustering_results] leaves in the bucket: the three objects
    when every [put_object] returns, and otherwise those put before the
    first one that raised. *)
Lemma store_clustering_results_prefix (put_object : string -> result unit)
  (now : string) (c : Handler.Clusters) :
  match Lambda.store_clustering_results put_object now c with
  | (Ok _, stored) =>
      stored = objects now c (length (Handler.cluster_stats c))
                       (length (Handler.result_df c)) /\
      Forall (fun o => put_object (fst o) = Ok tt) stored
  | (Raise e, stored) =>
      exists o rest,
        objects now c (length (Handler.cluster_stats c))
                (length (Handler.result_df c))
        = (stored ++ o :: rest)%list /\
        Forall (fun o' => put_object (fst o') = Ok tt) stored /\
        put_object (fst o) = Raise e
  end.
Proof.
  unfold Lambda.store_clustering_results, objects. cbv zeta. cbn [fst].
  destruct (put_object ("results/skill_clusters_" ++ now ++ ".csv")%string)
    as [[] | e1] eqn:P1.
  - destruct (put_object ("results/cluster_stats_" ++ now ++ ".csv")%string)
      as [[] | e2] eqn:P2.
    + destruct (put_object ("results/clustering_summary_" ++ now ++ ".json")%string)
        as [[] | e3] eqn:P3.
      * split; [reflexivity |]. repeat constructor; assumption.
      * eexists. exists []. split; [reflexivity |].
        split; [repeat constructor; assumption | exact P3].
    + eexists. eexists. split; [reflexivity |].
      split; [repeat constructor; assumption | exact P2].
  - eexists. eexists. split; [reflexivity |]. split; [constructor | exact P1].
Qed.

(** X7.  The answer of [lambda_handler] and what is in the bucket after it.
    With status 200 the query returned a frame without NaN, the preparation
    and the clustering returned and each of the three [put_object] returned:
    the bucket holds the table, the statistics and the summary; [num_skills]
    of the answer and of the summary is the number of rows of the frame, and
    [num_clusters] of the answer, the number of values of the labels, is
    [num_clusters] of the summary, the number of rows of the statistics.
    With status 500 the error is the first exception raised: that of the
    query, of the library on a frame with NaN, of the preparation or of the
    clustering, and then nothing is in the bucket; or that of a [put_object],
    and then the objects put before it are in the bucket, without the
    others. *)
Theorem lambda_handler_answer
  (sk : sklearn.Lib) (put_object : string -> result unit) (nan_refused : exn)
  (query : result (list Lambda.FrameRow)) (now : string) (w : world sk) :
  match Lambda.lambda_handler put_object nan_refused query now w with
  | (Handler.Status200 n m, stored) =>
      exists frame df data c,
        query = Ok frame /\ Lambda.finite frame = Some df /\
        Handler.prepare_clustering_data sk df = Ok data /\
        fst (Handler.perform_clustering data w) = Ok c /\
        stored = objects now c n m /\
        Forall (fun o => put_object (fst o) = Ok tt) stored /\
        m = length frame /\
        n = length (Handler.cluster_stats c) /\
        n = len_set (Handler.cluster_labels c) /\
        map Handler.row (Handler.result_df c) = df
  | (Handler.Status500 e, stored) =>
      (stored = [] /\
       (query = Raise e \/
        (exists frame,
            query = Ok frame /\ Lambda.finite frame = None /\ e = nan_refused) \/
        (exists frame df,
            query = Ok frame /\ Lambda.finite frame = Some df /\
            (Handler.prepare_clustering_data sk df = Raise e \/
             exists data,
               Handler.prepare_clustering_data sk df = Ok data /\
               fst (Handler.perform_clustering data w) = Raise e)))) \/
      (exists frame df data c o rest,
          query = Ok frame /\ Lambda.finite frame = Some df /\
          Handler.prepare_clustering_data sk df = Ok data /\
          fst (Handler.perform_clustering data w) = Ok c /\
          objects now c (length (Handler.cluster_stats c))
                  (length (Handler.result_df c))
          = (stored ++ o :: rest)%list /\
          Forall (fun o' => put_object (fst o') = Ok tt) stored /\
          put_object (fst o) = Raise e)
  end.
Proof.
  unfold Lambda.lambda_handler.
  destruct query as [frame | e]; [| left; split; [reflexivity | now left]].
  destruct (Lambda.finite frame) as [df |] eqn:Fin;
    [| left; split; [reflexivity |]; right; left; now exists frame].
  destruct (Handler.prepare_clustering_data sk df) as [data | e] eqn:P;
    [| left; split; [reflexivity |]; right; right; exists frame, df; auto].
  destruct (prepare_clustering_data_ok _ _ P) as [Hd _].
  destruct (Handler.perform_clustering data w) as [[c | e] w'] eqn:R; simpl fst.
  - destruct (perform_clustering_tables _ _ R) as (Hr & _ & Hn).
    rewrite Hd in Hr.
    assert (Hm : length (Handler.result_df c) = length frame)
      by (rewrite <- (finite_length _ Fin), <- Hr, length_map; reflexivity).
    pose proof (store_clustering_results_prefix put_object now c) as S.
    destruct (Lambda.store_clustering_results put_object now c) as [[[] | e] stored].
    + destruct S as [-> Hput].
      exists frame, df, data, c.
      assert (E : fst (Handler.perform_clustering data w) = Ok c)
        by (rewrite R; reflexivity).
      split; [reflexivity |]. split; [exact Fin |]. split; [exact P |].
      split; [exact E |]. split; [rewrite Hn; reflexivity |].
      split; [exact Hput |]. split; [exact Hm |].
      split; [symmetry; exact Hn |]. split; [reflexivity | exact Hr].
    + destruct S as (o & rest & Hall & Hput & He).
      right. exists frame, df, data, c, o, rest.
      assert (E : fst (Handler.perform_clustering data w) = Ok c)
        by (rewrite R; reflexivity).
      split; [reflexivity |]. split; [exact Fin |]. split; [exact P |].
      split; [exact E |]. split; [exact Hall |].
      split; [exact Hput | exact He].
  - left. split; [reflexivity |]. right. right. exists frame, df.
    split; [reflexivity |]. split; [exact Fin |]. right. exists data.
    split; [exact P |]. rewrite R. reflexivity.
Qed.

(* ================================================================== *)
(** * When the clustering fails *)
(* ================================================================== *)

(** How a candidate of the Lambda's search ends in an exception: its fit
    raises, or the score of its labels does. *)
Definition failed_at (k : nat) (e : exn) (evs : list event) : Prop :=
  evs = [Fit k (Raise e)] \/
  exists l, evs = [Fit k (Ok l); Silhouette l (Raise e)].

Lemma try_k_raises (sk : sklearn.Lib) (X : matrix) (k : nat) (b : nat * Q)
  (w w' : world sk) (e : exn) :
  Handler.try_k X k b w = (Raise e, w') ->
  exists evs, log w' = log w ++ evs /\ failed_at k e evs.
Proof.
  unfold Handler.try_k, bind. destruct b as [best_k best_score].
  destruct (fit_predict k 42 10 X w) as [[l | e1] w1] eqn:F;
    apply TrainClustering.fit_predict_run in F; destruct F as [L1 _].
  - unfold silhouette.
    destruct (sklearn.silhouette_score sk X l) as [s | e2]; simpl.
    + destruct (Qltb best_score s); discriminate.
    + intros H. injection H as <- <-. simpl.
      exists [Fit k (Ok l); Silhouette l (Raise e2)].
      split; [rewrite L1, <- app_assoc; reflexivity |]. right. now exists l.
  - intros H. injection H as <- <-.
    exists [Fit k (Raise e1)]. split; [exact L1 | now left].
Qed.

(** The search stops at the first candidate that fails: the candidates
    before it were fitted and scored, those after it are not tried. *)
Lemma search_raises (sk : sklearn.Lib) (X : matrix) (ks : list nat) (b : nat * Q)
  (w w' : world sk) (e : exn) :
  for_each ks (Handler.try_k X) b w = (Raise e, w') ->
  exists cands k rest evs,
    ks = map Handler.cand_k cands ++ k :: rest /\
    log w' = log w ++ flat_map Handler.cand_events cands ++ evs /\
    failed_at k e evs.
Proof.
  revert b w. induction ks as [| k ks IH]; intros b w; simpl.
  - discriminate.
  - unfold bind. destruct (Handler.try_k X k b w) as [[b1 | e1] w1] eqn:T.
    + intros H. apply Handler.try_k_ok in T.
      destruct T as (c & Hk & _ & _ & Hlog).
      apply IH in H. destruct H as (cands & k' & rest & evs & Hks & Hlog' & Hf).
      exists (c :: cands), k', rest, evs.
      split; [simpl; congruence |]. split; [| exact Hf].
      simpl flat_map. rewrite Hlog', Hlog, <- !app_assoc. reflexivity.
    + intros H. injection H as <- <-. apply try_k_raises in T.
      destruct T as (evs & Hlog & Hf).
      exists [], k, ks, evs. split; [reflexivity |]. split; [exact Hlog | exact Hf].
Qed.

(** X8.  A run of [perform_clustering] that raises.  Either the search stopped at
    a candidate whose fit or whose score raised, after the candidates before
    it and without trying those after it; or the five candidates were scored
    and the final fit raised; or the final fit returned labels that are not as
    many as the rows of the table, and the exception is the [ValueError] of
    the column assignment.  The exception is that of the call logged last. *)
Theorem perform_clustering_failure
  (sk : sklearn.Lib) (data : Handler.PreparedData) (w w' : world sk) (e : exn) :
  Handler.perform_clustering data w = (Raise e, w') ->
  exists cands,
    (exists k rest evs,
        [3; 4; 5; 6; 7]%nat = map Handler.cand_k cands ++ k :: rest /\
        added w w' = flat_map Handler.cand_events cands ++ evs /\
        failed_at k e evs) \/
    (map Handler.cand_k cands = [3; 4; 5; 6; 7]%nat /\
     exists k,
       added w w' = flat_map Handler.cand_events cands ++ [Fit k (Raise e)]) \/
    (map Handler.cand_k cands = [3; 4; 5; 6; 7]%nat /\
     exists k l,
       added w w' = flat_map Handler.cand_events cands ++ [Fit k (Ok l)] /\
       e = ValueError /\
       length l <> length (Handler.original_data data)).
Proof.
  unfold Handler.perform_clustering. unfold bind at 1.
  change (range 3 8) with [3; 4; 5; 6; 7]%nat.
  destruct (for_each [3; 4; 5; 6; 7]%nat (Handler.try_k (Handler.features data))
              (5%nat, -1) w) as [[[best_k best_score] | e1] w1] eqn:S.
  - apply Handler.search_ok in S. destruct S as (cands & Hks & _ & _ & Hlog).
    unfold bind at 1.
    destruct (fit_predict best_k 42 10 (Handler.features data) w1)
      as [[l | e2] w2] eqn:F;
      apply TrainClustering.fit_predict_run in F; destruct F as [Hlog2 _].
    + unfold bind, lift, ret, Handler.with_cluster_id.
      destruct (length l =? length (Handler.original_data data))%nat eqn:E;
        [discriminate |].
      intros H. injection H as <- <-. apply Nat.eqb_neq in E.
      exists cands. right. right. split; [exact Hks |]. exists best_k, l.
      split; [| split; [reflexivity | exact E]].
      apply added_app. rewrite Hlog2, Hlog, <- app_assoc. reflexivity.
    + intros H. injection H as <- <-.
      exists cands. right. left. split; [exact Hks |]. exists best_k.
      apply added_app. rewrite Hlog2, Hlog, <- app_assoc. reflexivity.
  - intros H. injection H as <- <-. apply search_raises in S.
    destruct S as (cands & k & rest & evs & Hks & Hlog & Hf).
    exists cands. left. exists k, rest, evs.
    split; [exact Hks |]. split; [apply added_app; exact Hlog | exact Hf].
Qed.

(** The run on two rows: the fit of the first candidate is refused. *)
Definition world_two_rows : world StandIn.lib :=
  @Build_world StandIn.lib 0%nat [Fit 3 (Raise ValueError)].

Lemma perform_clustering_two_rows_run :
  Handler.perform_clustering Sample.data_two_rows StandIn.w0
  = (Raise ValueError, world_two_rows).
Proof. unfold world_two_rows. apply Runs.run_eq; vm_compute; reflexivity. Qed.

Lemma perform_clustering_failure_witness :
  Handler.perform_clustering Sample.data_two_rows StandIn.w0
  = (Raise ValueError, world_two_rows) /\
  exists cands,
    (exists k rest evs,
        [3; 4; 5; 6; 7]%nat = map Handler.cand_k cands ++ k :: rest /\
        added StandIn.w0 world_two_rows = flat_map Handler.cand_events cands ++ evs /\
        failed_at k ValueError evs) \/
    (map Handler.cand_k cands = [3; 4; 5; 6; 7]%nat /\
     exists k,
       added StandIn.w0 world_two_rows
       = flat_map Handler.cand_events cands ++ [Fit k (Raise ValueError)]) \/
    (map Handler.cand_k cands = [3; 4; 5; 6; 7]%nat /\
     exists k l,
       added StandIn.w0 world_two_rows
       = flat_map Handler.cand_events cands ++ [Fit k (Ok l)] /\
       ValueError = ValueError /\
       length l <> length (Handler.original_data Sample.data_two_rows)).
Proof.
  split; [exact perform_clustering_two_rows_run |].
  exact (perform_clustering_failure Sample.data_two_rows StandIn.w0
           perform_clustering_two_rows_run).
Defined.

(* ================================================================== *)
(** * The model returned by the training script *)
(* ================================================================== *)

(** X9.  The model returned by [train_kmeans].  The candidates of the range
    were fitted in order, and exactly those whose labels take more than one
    value were scored, with the silhouette of their labels.  The model is
    [None] exactly when no score exceeded -1, and then [best_k = 5] and
    [best_score = -1].  Otherwise it is the estimator fitted for [best_k], a
    candidate of the range, with [random_state = 42] and [n_init = 10]; its
    labels take more than one value, [best_score] is their silhouette and
    exceeds -1, and no scored candidate has a higher score. *)
Theorem train_kmeans_best_model
  (sk : sklearn.Lib) (X : matrix) (ks : list nat) (w w' : world sk)
  (b : TrainClustering.best) :
  TrainClustering.train_kmeans X ks w = (Ok b, w') ->
  exists cands,
    map TrainClustering.cand_k cands = ks /\
    Forall (TrainClustering.seen sk X) cands /\
    added w w' = flat_map TrainClustering.cand_events cands
                 ++ [PrintBest (snd (fst b)) (snd b)] /\
    Forall (fun c => snd c <= snd b) (TrainClustering.scored cands) /\
    (fst (fst b) = None <->
     Forall (fun c => snd c <= -1) (TrainClustering.scored cands)) /\
    match fst (fst b) with
    | None => snd (fst b) = 5%nat /\ snd b = -1
    | Some model =>
        TrainClustering.n_clusters model = snd (fst b) /\
        TrainClustering.random_state model = 42%Z /\
        TrainClustering.n_init model = 10%nat /\
        In (snd (fst b)) ks /\
        -1 < snd b /\
        In (snd (fst b), TrainClustering.labels_ model, snd b)
           (TrainClustering.scored cands) /\
        (1 < len_set (TrainClustering.labels_ model))%nat /\
        sklearn.silhouette_score sk X (TrainClustering.labels_ model) = Ok (snd b) /\
        exists g,
          fst (sklearn.KMeans_fit_predict sk (snd (fst b)) (Some 42%Z) 10 X g)
          = Ok (TrainClustering.labels_ model)
    end.
Proof.
  intros Hrun. apply TrainClustering.train_kmeans_ok in Hrun.
  destruct Hrun as (cands & Hks & Hseen & Hb & Hlog).
  exists cands. split; [exact Hks |]. split; [exact Hseen |].
  split; [apply added_app; exact Hlog |].
  pose proof (@keep_spec _ _ (@snd (nat * labels) Q) TrainClustering.best_score_of
                TrainClustering.take_scored (fun c0 => eq_refl)
                (TrainClustering.scored cands) (None, 5%nat, -1)) as K.
  simpl in K. fold TrainClustering.keep_best in K. rewrite <- Hb in K.
  unfold TrainClustering.best_score_of in K. simpl in K.
  destruct K as (_ & Hall & Hcase). split; [exact Hall |].
  destruct Hcase as [[-> Hle] | (pre & b0 & post & Hc & -> & _ & Hlt)].
  - simpl. split; [split; [intros _; exact Hle | reflexivity] |].
    split; reflexivity.
  - destruct b0 as [[k l] s]. simpl in *.
    assert (Is : In (k, l, s) (TrainClustering.scored cands))
      by (rewrite Hc; apply in_or_app; right; now left).
    split.
    { split; [discriminate |]. intros Hlow. exfalso.
      rewrite Forall_forall in Hlow. exact (Qlt_not_le _ _ Hlt (Hlow _ Is)). }
    (* the scored candidate comes from a candidate that was seen *)
    assert (Hin : In (k, l, Some s) cands).
    { unfold TrainClustering.scored in Is. apply in_flat_map in Is.
      destruct Is as ([[k' l'] [s' |]] & I & J); simpl in J; [| contradiction].
      destruct J as [J | []].
      unfold TrainClustering.cand_k, TrainClustering.cand_labels in J. simpl in J.
      injection J as -> -> ->. exact I. }
    rewrite Forall_forall in Hseen. destruct (Hseen _ Hin) as [Hfit [Hn Hsil]].
    repeat (split; [reflexivity |]).
    split; [rewrite <- Hks; apply (in_map TrainClustering.cand_k) in Hin; exact Hin |].
    split; [exact Hlt |]. split; [exact Is |].
    split; [exact Hn |]. split; [exact Hsil | exact Hfit].
Qed.

Lemma train_kmeans_best_model_witness :
  TrainClustering.train_kmeans Sample.features10
    TrainClustering.n_clusters_range_default StandIn.w0
  = (Ok Runs.trained, Runs.world_trained) /\
  exists cands,
    map TrainClustering.cand_k cands = TrainClustering.n_clusters_range_default /\
    Forall (TrainClustering.seen StandIn.lib Sample.features10) cands /\
    added StandIn.w0 Runs.world_trained
    = flat_map TrainClustering.cand_events cands
      ++ [PrintBest (snd (fst Runs.trained)) (snd Runs.trained)] /\
    Forall (fun c => snd c <= snd Runs.trained) (TrainClustering.scored cands).
Proof.
  split; [exact Runs.train_kmeans_run |].
  destruct (train_kmeans_best_model Sample.features10
              TrainClustering.n_clusters_range_default StandIn.w0
              Runs.train_kmeans_run) as (cands & Hks & Hseen & Hlog & Hall & _).
  exists cands. split; [exact Hks |]. split; [exact Hseen |].
  split; [exact Hlog | exact Hall].
Defined.

(* ================================================================== *)
(** * The query of the Lambda and the aggregation of the training script *)
(* ================================================================== *)

Lemma same_skill_has_key (s : string) (r : SkillsData.Row) :
  Handler.same_skill (Some s) r = has_key SkillsData.skill s r.
Proof.
  unfold Handler.same_skill, has_key.
  destruct (SkillsData.skill r) as [s' |];
    destruct (Handler.option_string_dec _ (Some s)) as [E | N]; auto.
  - injection E as ->. symmetry. apply keqb_refl.
  - symmetry. apply keqb_neq. congruence.
  - discriminate.
Qed.

(** X6.  The result set of the query has one row per value of [skill], NULL
    included.  For every skill of the table the two programs compute the same
    averages; the query counts the distinct employees of the skill, which is
    at most the [employee_count] of the training script. *)
Theorem query_agrees_with_skill_agg (df : list SkillsData.Row) :
  NoDup (map Handler.q_skill (Handler.skills_query df)) /\
  (forall s, In s (map Handler.q_skill (Handler.skills_query df)) <->
             In s (map SkillsData.skill df)) /\
  Forall (fun a =>
            exists q,
              In q (Handler.skills_query df) /\
              Handler.q_skill q = Some (TrainClustering.skill a) /\
              Handler.q_avg_proficiency q = TrainClustering.avg_proficiency a /\
              Handler.q_avg_experience q = TrainClustering.avg_experience a /\
              Handler.q_employee_count q
              = TrainClustering.distinct_employees
                  (TrainClustering.rows_with (TrainClustering.skill a) df) /\
              (Handler.q_employee_count q <= TrainClustering.employee_count a)%Z)
         (TrainClustering.skill_agg df).
Proof.
  assert (Hs : map Handler.q_skill (Handler.skills_query df)
               = nodup Handler.option_string_dec (map SkillsData.skill df)).
  { unfold Handler.skills_query. rewrite map_map. simpl. apply map_id. }
  split; [rewrite Hs; apply NoDup_nodup |].
  split; [intros s; rewrite Hs; apply nodup_In |].
  rewrite TrainClustering.skill_agg_spec. apply Forall_map, Forall_forall.
  intros s I. apply group_keys_In in I. destruct I as (r & Ir & Er).
  assert (Ik : In (Some s) (nodup Handler.option_string_dec (map SkillsData.skill df))).
  { apply nodup_In. rewrite <- Er. now apply in_map. }
  unfold Handler.skills_query.
  eexists. split; [apply in_map_iff; eexists; split; [reflexivity | exact Ik] |].
  simpl. rewrite (filter_ext _ _ (same_skill_has_key s)).
  fold (TrainClustering.rows_with s df).
  repeat (split; [reflexivity |]).
  unfold count_notna. apply inj_le. apply nodup_length_le.
Qed.

(** ** The levels of proficiency *)

(** [d.get(k)] on the dictionary of levels. *)
Fixpoint dict_get (d : list (string * Z)) (k : string) : option Z :=
  match d with
  | [] => None
  | (k', v) :: d' => if String.eqb k k' then Some v else dict_get d' k
  end.

(** X3.  The [when] chain of the Glue job gives a level the score that the
    dictionary [proficiency_mapping] declares for it, and 2 to a level that
    is not a key of the dictionary and to a missing level. *)
Theorem proficiency_score_follows_mapping (p : option string) :
  EtlJob.proficiency_score p
  = match p with
    | Some level =>
        match dict_get EtlJob.proficiency_mapping level with
        | Some score => score
        | None => 2%Z
        end
    | None => 2%Z
    end.
Proof.
  destruct p as [level |]; [| reflexivity].
  unfold EtlJob.proficiency_score, EtlJob.proficiency_mapping, dict_get.
  destruct (String.eqb level "BEGINNER"); [reflexivity |].
  destruct (String.eqb level "INTERMEDIATE"); [reflexivity |].
  destruct (String.eqb level "ADVANCED"); [reflexivity |].
  destruct (String.eqb level "EXPERT"); reflexivity.
Qed.

(* ================================================================== *)
(** * The scaled features are centred *)
(* ================================================================== *)

Lemma sumQ_centred (col : list Q) (m s : Q) :
  sumQ (map (fun x => (x - m) / s) col)
  == (sumQ col - inject_Z (Z.of_nat (length col)) * m) / s.
Proof.
  induction col as [| x col IH].
  - change (0 == (0 - 0 * m) / s). unfold Qdiv. ring.
  - change (sumQ (map (fun x => (x - m) / s) (x :: col)))
      with ((x - m) / s + sumQ (map (fun x => (x - m) / s) col)).
    change (sumQ (x :: col)) with (x + sumQ col). simpl length.
    rewrite IH, Nat2Z.inj_succ. unfold Z.succ. rewrite inject_Z_plus.
    change (inject_Z 1) with 1. unfold Qdiv. ring.
Qed.

(** A column from which its mean is taken, divided by any scale, has mean
    zero. *)
Lemma meanQ_centred (col : list Q) (s : Q) :
  col <> [] -> meanQ (map (fun x => (x - meanQ col) / s) col) == 0.
Proof.
  intros N. unfold meanQ at 1. rewrite sumQ_centred, length_map.
  pose proof (length_nonzero N) as Hn.
  assert (E : sumQ col - inject_Z (Z.of_nat (length col)) * meanQ col == 0)
    by (unfold meanQ; field; exact Hn).
  rewrite E. unfold Qdiv. ring.
Qed.

(** The columns of the scaled matrix. *)
Lemma transform_column (sqrt : Q -> Q) (X : matrix) (j : nat) :
  X <> [] -> (j < StandardScaler.n_features X)%nat ->
  Forall (fun row => length row = StandardScaler.n_features X) X ->
  exists sc s,
    StandardScaler.fit sqrt X = Ok sc /\
    StandardScaler.column j (StandardScaler.transform sc X)
    = map (fun x => (x - meanQ (StandardScaler.column j X)) / s)
          (StandardScaler.column j X).
Proof.
  intros N L Hrect. eexists. eexists. split; [apply fit_ok; exact N |].
  unfold StandardScaler.column, StandardScaler.transform. simpl.
  rewrite !map_map. apply map_ext_in. intros row I.
  rewrite Forall_forall in Hrect.
  assert (Lc : length (columns X) = StandardScaler.n_features X)
    by (unfold columns; rewrite length_map, length_seq; reflexivity).
  rewrite transform_row_nth; rewrite ?length_map, ?Lc, ?(Hrect row I); auto.
  rewrite (columns_nth meanQ X 0 L). unfold StandardScaler.column.
  reflexivity.
Qed.

(** X10.  When the frame of the query has no NaN and
    [prepare_clustering_data] returns on it, the scaled matrix has one row
    per row of the frame and each of its three columns has mean zero.  (On a
    frame with NaN the scaled matrix has NaN, and nothing is said.) *)
Theorem scaled_features_centred
  (sk : sklearn.Lib) (frame : list Lambda.FrameRow) (df : Handler.DataFrame)
  (data : Handler.PreparedData) (j : nat) :
  Lambda.finite frame = Some df ->
  Handler.prepare_clustering_data sk df = Ok data ->
  (j < 3)%nat ->
  length (Handler.features data) = length frame /\
  meanQ (StandardScaler.column j (Handler.features data)) == 0.
Proof.
  intros Hfin Hrun L.
  assert (N : df <> []).
  { intros ->. discriminate. }
  destruct (feature_values_shape N) as [Hn Hrect].
  assert (NX : Handler.feature_values df <> [])
    by (destruct df; [congruence | discriminate]).
  rewrite <- Hn in L, Hrect.
  destruct (transform_column (sklearn.np_sqrt sk) NX L Hrect) as (sc & s & Hfit & Hcol).
  unfold Handler.prepare_clustering_data, StandardScaler.fit_transform in Hrun.
  rewrite Hfit in Hrun. injection Hrun as <-. simpl. split.
  - rewrite <- (finite_length _ Hfin).
    unfold StandardScaler.transform, Handler.feature_values. now rewrite !length_map.
  - rewrite Hcol. apply meanQ_centred.
    unfold StandardScaler.column. destruct (Handler.feature_values df);
      [congruence | discriminate].
Qed.

(** The preparation of [Sample.df_round]. *)
Definition no_data : Handler.PreparedData :=
  {| Handler.features := []; Handler.skills := []; Handler.original_data := [] |}.

Definition prepared_round : Handler.PreparedData :=
  Eval vm_compute in
    match Handler.prepare_clustering_data StandIn.lib Sample.df_round with
    | Ok data => data
    | Raise _ => no_data
    end.

Lemma prepare_round_run :
  Handler.prepare_clustering_data StandIn.lib Sample.df_round = Ok prepared_round.
Proof. vm_compute. reflexivity. Qed.

(** [Sample.df_round] as the frame of a query: every cell has a value. *)
Definition frame_round : list Lambda.FrameRow :=
  map (fun r => {| Lambda.f_skill := Handler.skill r;
                   Lambda.f_employee_count := Some (Handler.employee_count r);
                   Lambda.f_avg_proficiency := Some (Handler.avg_proficiency r);
                   Lambda.f_avg_experience := Some (Handler.avg_experience r) |})
      Sample.df_round.

Lemma frame_round_finite : Lambda.finite frame_round = Some Sample.df_round.
Proof. reflexivity. Qed.

Lemma scaled_features_centred_witness :
  Lambda.finite frame_round = Some Sample.df_round /\
  Handler.prepare_clustering_data StandIn.lib Sample.df_round = Ok prepared_round /\
  (1 < 3)%nat /\
  meanQ (StandardScaler.column 1 (Handler.features prepared_round)) == 0.
Proof.
  assert (L : (1 < 3)%nat) by lia.
  split; [exact frame_round_finite |].
  split; [exact prepare_round_run |]. split; [exact L |].
  exact (proj2 (scaled_features_centred StandIn.lib frame_round
                  frame_round_finite prepare_round_run L)).
Defined.

(* ================================================================== *)
(** * The job's table in the query of the Lambda *)
(* ================================================================== *)

Lemma sumZ_bounds (lo hi : Z) (l : list Z) :
  Forall (fun x => lo <= x <= hi)%Z l ->
  (lo * Z.of_nat (length l) <= sumZ l <= hi * Z.of_nat (length l))%Z.
Proof.
  induction 1 as [| x l Hx _ IH]; simpl sumZ; simpl length.
  - simpl. lia.
  - rewrite Nat2Z.inj_succ. lia.
Qed.

(** The mean of integers between two bounds lies between the bounds. *)
Lemma mean_int_bounds (lo hi : Z) (l : list Z) :
  l <> [] -> Forall (fun x => lo <= x <= hi)%Z l ->
  exists m, mean_int l = Some m /\ inject_Z lo <= m <= inject_Z hi.
Proof.
  intros N F. destruct (sumZ_bounds F) as [Hlo Hhi].
  destruct l as [| x l]; [congruence |].
  eexists. split; [reflexivity |].
  set (n := Z.of_nat (length (x :: l))) in *.
  assert (Hn : 0 < inject_Z n).
  { change 0 with (inject_Z 0). rewrite <- Zlt_Qlt. unfold n. simpl. lia. }
  split.
  - apply Qle_shift_div_l; [exact Hn |].
    rewrite <- inject_Z_mult, <- Zle_Qle. exact Hlo.
  - apply Qle_shift_div_r; [exact Hn |].
    rewrite <- inject_Z_mult, <- Zle_Qle. exact Hhi.
Qed.

Section CleanTableQuery.

Variable upper : string -> string.
Variable cast_integer : string -> option Z.

(** A row of the job's table, as the query reads it. *)
Lemma to_table_In (rows : list EtlJob.CleanRow) (r : SkillsData.Row) :
  In r (EtlJob.to_table rows) ->
  exists c, In c rows /\
            SkillsData.employee_id r = EtlJob.c_employee_id c /\
            SkillsData.skill r = EtlJob.c_skill c /\
            SkillsData.proficiency_score r = Some (EtlJob.c_proficiency_score c).
Proof.
  unfold EtlJob.to_table. rewrite in_map_iff. intros (c & <- & I).
  exists c. repeat split; auto.
Qed.

(** X12.  On the table written by the job, every row of the query result has a
    skill, counts at least one employee and has an average proficiency
    between 1 and 4. *)
Theorem cleaned_table_query_rows (df : list EtlJob.RawRow) :
  Forall (fun q =>
            (exists s, Handler.q_skill q = Some s) /\
            (1 <= Handler.q_employee_count q)%Z /\
            exists p, Handler.q_avg_proficiency q = Some p /\ 1 <= p <= 4)
         (Handler.skills_query (EtlJob.to_table (EtlJob.df_clean upper cast_integer df))).
Proof.
  set (t := EtlJob.to_table (EtlJob.df_clean upper cast_integer df)).
  unfold Handler.skills_query. apply Forall_map, Forall_forall.
  intros s Hs. apply nodup_In, in_map_iff in Hs. destruct Hs as (r & Es & Ir).
  simpl.
  set (g := filter (Handler.same_skill s) t).
  assert (Ig : In r g).
  { apply filter_In. split; [exact Ir |]. unfold Handler.same_skill.
    destruct (Handler.option_string_dec (SkillsData.skill r) s); congruence. }
  destruct (to_table_In _ _ Ir) as (c & Ic & He & Hk & Hp).
  destruct (df_clean_In _ _ _ _ Ic) as (raw & s0 & _ & _ & Hskill & _ & Hid & Hscore).
  split; [| split].
  - exists (EtlJob.trim (upper s0)). congruence.
  - destruct (EtlJob.c_employee_id c) as [e |] eqn:Ee; [| congruence].
    assert (Ie : In e (nodup string_dec (dropna (map SkillsData.employee_id g)))).
    { apply nodup_In, dropna_In. rewrite <- He. now apply in_map. }
    destruct (nodup string_dec (dropna (map SkillsData.employee_id g)));
      [contradiction | simpl; lia].
  - unfold mean_notna.
    apply (mean_int_bounds (lo := 1) (hi := 4)).
    + assert (I : In (EtlJob.c_proficiency_score c)
                    (dropna (map SkillsData.proficiency_score g)))
        by (apply dropna_In; rewrite <- Hp; now apply in_map).
      intros E. rewrite E in I. contradiction.
    + apply Forall_forall. intros x Ix.
      apply dropna_In, in_map_iff in Ix. destruct Ix as (r' & Ex & Ir').
      apply filter_In in Ir'. destruct Ir' as [Ir' _].
      destruct (to_table_In _ _ Ir') as (c' & Ic' & _ & _ & Hp').
      destruct (df_clean_In _ _ _ _ Ic') as (raw' & s' & _ & _ & _ & _ & _ & Hscore').
      rewrite Hp' in Ex. injection Ex as <-. exact Hscore'.
Qed.

End CleanTableQuery.

(* ================================================================== *)
(** * What a run leaves of the world *)
(* ================================================================== *)

Section Frame.

Variable sk : sklearn.Lib.

(** The computation leaves numpy's global generator as it found it and only
    adds to the log. *)
Definition leaves_generator {A : Type} (m : M sk A) : Prop :=
  forall w, np_random (snd (m w)) = np_random w /\
            exists evs, log (snd (m w)) = log w ++ evs.

Lemma ret_leaves {A : Type} (a : A) : leaves_generator (ret a).
Proof. intros w. split; [reflexivity |]. exists []. symmetry. apply app_nil_r. Qed.

Lemma lift_leaves {A : Type} (r : result A) : leaves_generator (lift r).
Proof. intros w. split; [reflexivity |]. exists []. symmetry. apply app_nil_r. Qed.

Lemma emit_leaves (e : event) : leaves_generator (emit e).
Proof. intros w. split; [reflexivity |]. now exists [e]. Qed.

Lemma silhouette_leaves (X : matrix) (l : labels) : leaves_generator (silhouette X l).
Proof.
  intros w. split; [reflexivity |].
  now exists [Silhouette l (sklearn.silhouette_score sk X l)].
Qed.

Lemma fit_predict_leaves (k : nat) (seed : Z) (n_init : nat) (X : matrix) :
  sklearn.seeded sk -> leaves_generator (fit_predict k seed n_init X).
Proof.
  intros Hs w. unfold fit_predict.
  destruct (Hs k seed n_init X (np_random w) (np_random w)) as [_ G].
  destruct (sklearn.KMeans_fit_predict sk k (Some seed) n_init X (np_random w))
    as [out g].
  simpl in *. split; [exact G |]. now exists [Fit k out].
Qed.

Lemma bind_leaves {A B : Type} (m : M sk A) (f : A -> M sk B) :
  leaves_generator m -> (forall a, leaves_generator (f a)) ->
  leaves_generator (bind m f).
Proof.
  intros Hm Hf w. unfold bind. destruct (Hm w) as [G (evs & L)].
  destruct (m w) as [[a | e] w1]; simpl in *.
  - destruct (Hf a w1) as [G' (evs' & L')]. split; [congruence |].
    exists (evs ++ evs'). rewrite L', L, app_assoc. reflexivity.
  - split; [exact G |]. now exists evs.
Qed.

Lemma for_each_leaves {S : Type} (ks : list nat) (body : nat -> S -> M sk S) :
  (forall k s, leaves_generator (body k s)) ->
  forall s, leaves_generator (for_each ks body s).
Proof.
  intros Hb. induction ks as [| k ks IH]; intros s; simpl.
  - apply ret_leaves.
  - apply bind_leaves; auto.
Qed.

End Frame.

(** X13.  With a library that honours an integer [random_state], neither search
    touches numpy's global generator, whatever its outcome, and what was
    logged before the run is still there after it. *)
Theorem searches_leave_generator
  (sk : sklearn.Lib) (data : Handler.PreparedData) (X : matrix) (ks : list nat)
  (w : world sk) :
  sklearn.seeded sk ->
  (np_random (snd (Handler.perform_clustering data w)) = np_random w /\
   exists evs, log (snd (Handler.perform_clustering data w)) = log w ++ evs) /\
  (np_random (snd (TrainClustering.train_kmeans X ks w)) = np_random w /\
   exists evs, log (snd (TrainClustering.train_kmeans X ks w)) = log w ++ evs).
Proof.
  intros Hs. split.
  - revert w. change (leaves_generator (Handler.perform_clustering (sk := sk) data)).
    unfold Handler.perform_clustering.
    apply bind_leaves.
    + apply for_each_leaves. intros k [best_k best_score]. unfold Handler.try_k.
      apply bind_leaves; [now apply fit_predict_leaves |]. intros l.
      apply bind_leaves; [apply silhouette_leaves |]. intros s.
      destruct (Qltb best_score s); apply ret_leaves.
    + intros [best_k best_score].
      apply bind_leaves; [now apply fit_predict_leaves |]. intros l.
      apply bind_leaves; [apply lift_leaves |]. intros rdf. apply ret_leaves.
  - revert w. change (leaves_generator (TrainClustering.train_kmeans (sk := sk) X ks)).
    unfold TrainClustering.train_kmeans.
    apply bind_leaves.
    + apply for_each_leaves. intros k [[best_model best_k] best_score].
      unfold TrainClustering.try_k.
      apply bind_leaves; [now apply fit_predict_leaves |]. intros l.
      destruct (1 <? len_set l)%nat; [| apply ret_leaves].
      apply bind_leaves; [apply silhouette_leaves |]. intros s.
      apply bind_leaves; [apply emit_leaves |]. intros _.
      destruct (Qltb best_score s); apply ret_leaves.
    + intros b. apply bind_leaves; [apply emit_leaves |]. intros _. apply ret_leaves.
Qed.

Lemma searches_leave_generator_witness :
  sklearn.seeded StandIn.lib /\
  np_random (snd (Handler.perform_clustering Sample.data Sample.w1))
  = np_random Sample.w1.
Proof.
  split; [exact StandIn.lib_seeded |].
  exact (proj1 (proj1 (searches_leave_generator Sample.data Sample.features10
                         TrainClustering.n_clusters_range_default Sample.w1
                         StandIn.lib_seeded))).
Defined.

(* ================================================================== *)
(** * When the training script's search fails *)
(* ================================================================== *)

Lemma train_try_k_raises (sk : sklearn.Lib) (X : matrix) (k : nat)
  (b : TrainClustering.best) (w w' : world sk) (e : exn) :
  TrainClustering.try_k X k b w = (Raise e, w') ->
  exists evs, log w' = log w ++ evs /\ failed_at k e evs.
Proof.
  unfold TrainClustering.try_k, bind. destruct b as [[best_model best_k] best_score].
  destruct (fit_predict k 42 10 X w) as [[l | e1] w1] eqn:F;
    apply TrainClustering.fit_predict_run in F; destruct F as [L1 _].
  - destruct (1 <? len_set l)%nat; [| discriminate].
    unfold silhouette.
    destruct (sklearn.silhouette_score sk X l) as [s | e2]; simpl.
    + destruct (Qltb best_score s); discriminate.
    + intros H. injection H as <- <-. simpl.
      exists [Fit k (Ok l); Silhouette l (Raise e2)].
      split; [rewrite L1, <- app_assoc; reflexivity |]. right. now exists l.
  - intros H. injection H as <- <-.
    exists [Fit k (Raise e1)]. split; [exact L1 | now left].
Qed.

Lemma train_search_raises (sk : sklearn.Lib) (X : matrix) (ks : list nat)
  (b : TrainClustering.best) (w w' : world sk) (e : exn) :
  for_each ks (TrainClustering.try_k X) b w = (Raise e, w') ->
  exists cands k rest evs,
    ks = map TrainClustering.cand_k cands ++ k :: rest /\
    log w' = log w ++ flat_map TrainClustering.cand_events cands ++ evs /\
    failed_at k e evs.
Proof.
  revert b w. induction ks as [| k ks IH]; intros b w; simpl.
  - discriminate.
  - unfold bind. destruct (TrainClustering.try_k X k b w) as [[b1 | e1] w1] eqn:T.
    + intros H. apply TrainClustering.candidate_ok in T.
      destruct T as (c & Hk & _ & _ & Hlog).
      apply IH in H. destruct H as (cands & k' & rest & evs & Hks & Hlog' & Hf).
      exists (c :: cands), k', rest, evs.
      split; [simpl; congruence |]. split; [| exact Hf].
      change (flat_map TrainClustering.cand_events (c :: cands))
        with (TrainClustering.cand_events c
              ++ flat_map TrainClustering.cand_events cands).
      rewrite Hlog', Hlog, <- !app_assoc. reflexivity.
    + intros H. injection H as <- <-. apply train_try_k_raises in T.
      destruct T as (evs & Hlog & Hf).
      exists [], k, ks, evs. split; [reflexivity |]. split; [exact Hlog | exact Hf].
Qed.

(** X14.  A run of [train_kmeans] that raises stopped at the first candidate whose
    fit, or whose score, raised: the candidates before it were fitted (and
    scored or skipped), those after it were not tried, and the closing line
    was not printed.  The exception is that of the call logged last. *)
Theorem train_kmeans_failure
  (sk : sklearn.Lib) (X : matrix) (ks : list nat) (w w' : world sk) (e : exn) :
  TrainClustering.train_kmeans X ks w = (Raise e, w') ->
  exists cands k rest evs,
    ks = map TrainClustering.cand_k cands ++ k :: rest /\
    added w w' = flat_map TrainClustering.cand_events cands ++ evs /\
    failed_at k e evs.
Proof.
  unfold TrainClustering.train_kmeans. unfold bind at 1.
  destruct (for_each ks (TrainClustering.try_k X) (None, 5%nat, -1) w)
    as [[b1 | e1] w1] eqn:S.
  - unfold bind, emit, ret. discriminate.
  - intros H. injection H as <- <-. apply train_search_raises in S.
    destruct S as (cands & k & rest & evs & Hks & Hlog & Hf).
    exists cands, k, rest, evs.
    split; [exact Hks |]. split; [apply added_app; exact Hlog | exact Hf].
Qed.

(** The training script's search on two rows: the fit of the first
    candidate is refused. *)
Lemma train_kmeans_two_rows_run :
  TrainClustering.train_kmeans (Handler.features Sample.data_two_rows)
    TrainClustering.n_clusters_range_default StandIn.w0
  = (Raise ValueError, world_two_rows).
Proof. unfold world_two_rows. apply Runs.run_eq; vm_compute; reflexivity. Qed.

Lemma train_kmeans_failure_witness :
  TrainClustering.train_kmeans (Handler.features Sample.data_two_rows)
    TrainClustering.n_clusters_range_default StandIn.w0
  = (Raise ValueError, world_two_rows) /\
  exists cands k rest evs,
    TrainClustering.n_clusters_range_default
    = map TrainClustering.cand_k cands ++ k :: rest /\
    added StandIn.w0 world_two_rows
    = flat_map TrainClustering.cand_events cands ++ evs /\
    failed_at k ValueError evs.
Proof.
  split; [exact train_kmeans_two_rows_run |].
  exact (train_kmeans_failure (Handler.features Sample.data_two_rows)
           TrainClustering.n_clusters_range_default StandIn.w0
           train_kmeans_two_rows_run).
Defined.

(* ================================================================== *)
(** * Dropping duplicates twice *)
(* ================================================================== *)

(** On rows whose pairs are new and do not repeat, every row is kept. *)
Lemma keep_first_all (rows kept : list EtlJob.CleanRow) :
  NoDup (map pair_of rows) ->
  (forall r, In r rows -> ~ In (pair_of r) (map pair_of kept)) ->
  fold_left keep_first rows kept = (rev rows ++ kept)%list.
Proof.
  revert kept. induction rows as [| r rows IH]; intros kept D Hnew; simpl.
  - reflexivity.
  - apply NoDup_cons_iff in D. destruct D as [N D].
    assert (E : existsb (EtlJob.same_pair r) kept = false).
    { destruct (existsb (EtlJob.same_pair r) kept) eqn:X; auto.
      apply existsb_same_pair in X. exfalso. exact (Hnew r (or_introl eq_refl) X). }
    unfold keep_first at 2. rewrite E.
    rewrite IH, <- app_assoc; [reflexivity | exact D |].
    intros r' I [J | J].
    + apply N. rewrite J. now apply in_map.
    + exact (Hnew r' (or_intror I) J).
Qed.

(** X15.  [dropDuplicates] changes nothing in a table without a repeated pair;
    applied twice, it gives what it gives applied once. *)
Theorem dropDuplicates_idempotent (rows : list EtlJob.CleanRow) :
  (NoDup (map pair_of rows) <-> EtlJob.dropDuplicates rows = rows) /\
  EtlJob.dropDuplicates (EtlJob.dropDuplicates rows) = EtlJob.dropDuplicates rows.
Proof.
  assert (Hfix : forall l, NoDup (map pair_of l) -> EtlJob.dropDuplicates l = l).
  { intros l D. unfold EtlJob.dropDuplicates. fold keep_first.
    rewrite keep_first_all; auto.
    rewrite app_nil_r. apply rev_involutive. }
  split.
  - split; [apply Hfix |]. intros E. rewrite <- E. apply dropDuplicates_NoDup.
  - apply Hfix, dropDuplicates_NoDup.
Qed.
